(** * Hybrid checkout: detection-to-cart pipeline

    A shallow embedding of the cart/payment service
    ([smart-checkout-optimized/main.py], [services/json_db.py]), of the
    frame-level overlap filter and the debouncer
    ([self-checkout-system/detection/yolo_detector.py]) and of the label
    formatting of the detection client ([detection/detection_client.py]).

    Conventions of the embedding.
    - Python [int] is [Z]; [len(...)] is a [nat].
    - Python [float] (prices, tax rate, confidences, IoU, wall-clock
      seconds) is an exact rational [Q]: rounding is not modelled.
    - Python [str] is [string]; [lower()] is modelled on ASCII letters.
    - JSON objects with a fixed shape are records; [dict]s used as maps
      are [gmap]s; a [dict] whose iteration order is observed is a list
      in insertion order.
    - [uuid.uuid4()] and [datetime.now()] read an oracle stored in the
      state; every read advances the oracle.
    - Web-socket broadcasts, logging and QR image rendering have no
      effect on the modelled state and are left out. *)

From Stdlib Require Import Ascii QArith Sorted.
From stdpp Require Import gmap strings list fin_maps pretty.

Local Open Scope string_scope.
Local Open Scope list_scope.
Local Open Scope Z_scope.

(** ** Python values *)

Module Py.

(** [a < b] on floats. *)
Definition Qltb (a b : Q) : bool := negb (Qle_bool b a).

(** [sum(xs)]: starts from [0] and adds from the left. *)
Definition sum (xs : list Q) : Q := fold_left Qplus xs 0%Q.

(** [len(xs) > 0]. *)
Definition nonempty {A} (xs : list A) : bool :=
  match xs with [] => false | _ :: _ => true end.

(** [range(n)] has [n] elements for [n >= 0] and none otherwise. *)
Definition range_len (n : Z) : nat := Z.to_nat n.

(** [s.lower()] on a string of ASCII characters: there it folds the
    letters A to Z, character by character. On other strings
    [str.lower()] also folds letters outside ASCII, which this function
    leaves as they are; a statement that reads the lower-cased form of
    such a string is outside the model, and the theorems about the
    lower-cased forms assume [isascii]. *)
Definition lower_ascii (c : ascii) : ascii :=
  let n := N_of_ascii c in
  if ((65 <=? n) && (n <=? 90))%N then ascii_of_N (n + 32) else c.

Fixpoint lower (s : string) : string :=
  match s with
  | EmptyString => EmptyString
  | String c s' => String (lower_ascii c) (lower s')
  end.

(** [s.replace(old, new)] for a one-character [old]. *)
Fixpoint replace (old : ascii) (new : string) (s : string) : string :=
  match s with
  | EmptyString => EmptyString
  | String c s' =>
      if Ascii.eqb c old then new +:+ replace old new s'
      else String c (replace old new s')
  end.

(** [needle in hay] on strings. *)
Fixpoint contains (needle hay : string) : bool :=
  String.prefix needle hay
  || match hay with
     | EmptyString => false
     | String _ hay' => contains needle hay'
     end.

(** [xs[:limit]]: a negative [limit] counts from the end. *)
Definition slice_to {A} (limit : Z) (xs : list A) : list A :=
  if limit <? 0 then take (length xs - Z.to_nat (- limit)) xs
  else take (Z.to_nat limit) xs.

(** [s.isascii()]: every character is below 128. *)
Definition isascii_char (c : ascii) : bool := (N_of_ascii c <? 128)%N.

Fixpoint isascii (s : string) : bool :=
  match s with
  | EmptyString => true
  | String c s' => isascii_char c && isascii s'
  end.

End Py.

(** ** The records of the JSON store ([products.json]) *)

Record Product := {
  p_id : string;
  p_name : string;
  p_price : Q;
  p_category : string;
  p_stock : Z;
}.

Record PaymentItem := {
  pi_product_id : string;
  pi_product_name : string;
  pi_quantity : Z;
  pi_price : Q;
  pi_total : Q;
}.

Record Payment := {
  pay_payment_id : string;
  pay_timestamp : string;
  pay_items : list PaymentItem;
  pay_subtotal : Q;
  pay_tax : Q;
  pay_total : Q;
  pay_status : string;
  pay_session_id : string;
}.

Record Sale := {
  sale_id : string;
  sale_payment_id : string;
  sale_timestamp : string;
  sale_items : list PaymentItem;
  sale_subtotal : Q;
  sale_tax : Q;
  sale_total : Q;
  sale_payment_method : string;
}.

(** [settings]: only [tax_rate] is read by the modelled code; it may be
    absent from the file. *)
Record Settings := {
  set_theme : string;
  set_tax_rate : option Q;
}.

(** The content of [products.json]. *)
Record Data := {
  d_products : list Product;
  d_sales : list Sale;
  d_pending_payments : gmap string Payment;
  d_settings : Settings;
}.

Definition set_stock (p : Product) (s : Z) : Product :=
  {| p_id := p_id p; p_name := p_name p; p_price := p_price p;
     p_category := p_category p; p_stock := s |}.

Definition set_status (p : Payment) (s : string) : Payment :=
  {| pay_payment_id := pay_payment_id p; pay_timestamp := pay_timestamp p;
     pay_items := pay_items p; pay_subtotal := pay_subtotal p;
     pay_tax := pay_tax p; pay_total := pay_total p;
     pay_status := s; pay_session_id := pay_session_id p |}.

(** ** The records of the session carts *)

Record CartItem := {
  item_id : string;
  item_product_id : string;
  item_product_name : string;
  item_price : Q;
  item_category : string;
  item_timestamp : string;
  item_scanner_source : string;
}.

Record Cart := {
  cart_items : list CartItem;
  cart_last_updated : option string;
  cart_created_at : string;
}.

Record SummaryItem := {
  s_product_id : string;
  s_product_name : string;
  s_price : Q;
  s_quantity : Z;
}.

Record Summary := {
  sum_items : list SummaryItem;
  sum_total_items : nat;
  sum_unique_items : nat;
  sum_last_updated : option string;
  sum_created_at : option string;
}.

(** What [uuid.uuid4()], [datetime.now().isoformat()] and
    [datetime.now().strftime('%Y%m%d%H%M%S')] answer at each read. *)
Record Oracle := {
  o_uuid4 : nat -> string;
  o_isoformat : nat -> string;
  o_strftime : nat -> string;
}.

(** The state of the cart-serving process. *)
Record World := {
  w_carts : gmap string Cart;
  w_data : Data;
  w_tick : nat;
  w_oracle : Oracle;
}.

(** ** State passing *)

Definition M (A : Type) : Type := World -> A * World.

Definition ret {A} (a : A) : M A := fun w => (a, w).

Definition bind {A B} (m : M A) (k : A -> M B) : M B :=
  fun w => let '(a, w') := m w in k a w'.

Notation "x <- m ;; k" := (bind m (fun x => k))
  (at level 100, m at next level, right associativity).
Notation "m ;;; k" := (bind m (fun _ => k))
  (at level 100, right associativity).

Definition read_oracle (f : Oracle -> nat -> string) : M string :=
  fun w =>
    (f (w_oracle w) (w_tick w),
     {| w_carts := w_carts w; w_data := w_data w;
        w_tick := S (w_tick w); w_oracle := w_oracle w |}).

Definition uuid4 : M string := read_oracle o_uuid4.
Definition now_isoformat : M string := read_oracle o_isoformat.
Definition now_strftime : M string := read_oracle o_strftime.

Definition get_carts : M (gmap string Cart) := fun w => (w_carts w, w).

Definition put_carts (carts : gmap string Cart) : M unit :=
  fun w =>
    (tt, {| w_carts := carts; w_data := w_data w;
            w_tick := w_tick w; w_oracle := w_oracle w |}).

Definition read_db : M Data := fun w => (w_data w, w).

Definition write_db (data : Data) : M unit :=
  fun w =>
    (tt, {| w_carts := w_carts w; w_data := data;
            w_tick := w_tick w; w_oracle := w_oracle w |}).

Ltac unfold_state :=
  unfold bind, ret, get_carts, put_carts, read_db, write_db, uuid4,
    now_isoformat, now_strftime, read_oracle.

(** ** The store operations ([services/json_db.py]) *)

Module JsonDatabase.

Definition get_products (data : Data) : list Product := d_products data.

(** First product whose [id] is [product_id]. *)
Fixpoint find_product (product_id : string) (products : list Product)
  : option Product :=
  match products with
  | [] => None
  | product :: rest =>
      if String.eqb (p_id product) product_id then Some product
      else find_product product_id rest
  end.

Definition get_product (data : Data) (product_id : string) : option Product :=
  find_product product_id (get_products data).

(** The loop of [update_stock]: [None] is the early [return False] of
    the subtract branch or a product that is not found. *)
Fixpoint update_stock_in (product_id : string) (quantity : Z)
    (operation : string) (products : list Product) : option (list Product) :=
  match products with
  | [] => None
  | product :: rest =>
      if String.eqb (p_id product) product_id then
        if String.eqb operation "add" then
          Some (set_stock product (p_stock product + quantity) :: rest)
        else if String.eqb operation "subtract" then
          if p_stock product >=? quantity then
            Some (set_stock product (p_stock product - quantity) :: rest)
          else None
        else Some (product :: rest)
      else
        option_map (cons product)
          (update_stock_in product_id quantity operation rest)
  end.

Definition with_products (data : Data) (products : list Product) : Data :=
  {| d_products := products; d_sales := d_sales data;
     d_pending_payments := d_pending_payments data;
     d_settings := d_settings data |}.

Definition update_stock (product_id : string) (quantity : Z)
    (operation : string) (data : Data) : bool * Data :=
  match update_stock_in product_id quantity operation (d_products data) with
  | Some products => (true, with_products data products)
  | None => (false, data)
  end.

Definition add_pending_payment (payment_id : string) (payment : Payment)
    (data : Data) : Data :=
  {| d_products := d_products data; d_sales := d_sales data;
     d_pending_payments := <[payment_id := payment]> (d_pending_payments data);
     d_settings := d_settings data |}.

Definition get_pending_payment (data : Data) (payment_id : string)
  : option Payment :=
  d_pending_payments data !! payment_id.

(** One round of the inner loop of [process_pending_payment]: the first
    product with the item's id is decremented when its stock suffices;
    the loop breaks there in either case. *)
Fixpoint decrement_stock (item : PaymentItem) (products : list Product)
  : list Product :=
  match products with
  | [] => []
  | product :: rest =>
      if String.eqb (p_id product) (pi_product_id item) then
        (if p_stock product >=? pi_quantity item
         then set_stock product (p_stock product - pi_quantity item)
         else product) :: rest
      else product :: decrement_stock item rest
  end.

Definition decrement_all (items : list PaymentItem) (products : list Product)
  : list Product :=
  fold_left (fun ps item => decrement_stock item ps) items products.

(** The body of [process_pending_payment] once the payment is known to
    be pending; [stamp] and [now] are its two clock readings. *)
Definition complete_payment (payment_id : string) (pending_payment : Payment)
    (stamp now : string) (data : Data) : Sale * Data :=
  let sale :=
    {| sale_id := "SALE-" +:+ stamp;
       sale_payment_id := payment_id;
       sale_timestamp := now;
       sale_items := pay_items pending_payment;
       sale_subtotal := pay_subtotal pending_payment;
       sale_tax := pay_tax pending_payment;
       sale_total := pay_total pending_payment;
       sale_payment_method := "qr_code" |} in
  let products :=
    decrement_all (pay_items pending_payment) (d_products data) in
  (sale,
   {| d_products := products;
      d_sales := d_sales data ++ [sale];
      d_pending_payments :=
        <[payment_id := set_status pending_payment "completed"]>
          (d_pending_payments data);
      d_settings := d_settings data |}).

Definition get_settings (data : Data) : Settings := d_settings data.

(** [process_pending_payment]: the clock is read only after the payment
    was found pending; nothing is written otherwise. *)
Definition process_pending_payment (payment_id : string) : M (option Sale) :=
  data <- read_db ;;
  match d_pending_payments data !! payment_id with
  | None => ret None
  | Some pending_payment =>
      if negb (String.eqb (pay_status pending_payment) "pending")
      then ret None
      else
        stamp <- now_strftime ;;
        now <- now_isoformat ;;
        let '(sale, data') :=
          complete_payment payment_id pending_payment stamp now data in
        write_db data' ;;;
        ret (Some sale)
  end.

(** [list(reversed(sales))[:limit]]. *)
Definition get_sales (limit : Z) (data : Data) : list Sale :=
  Py.slice_to limit (reverse (d_sales data)).

Definition get_theme (data : Data) : string :=
  set_theme (d_settings data).

Definition set_theme (theme : string) (data : Data) : Data :=
  {| d_products := d_products data; d_sales := d_sales data;
     d_pending_payments := d_pending_payments data;
     d_settings := {| set_theme := theme;
                      set_tax_rate := set_tax_rate (d_settings data) |} |}.

End JsonDatabase.

(** ** The session carts ([CartManager] in [main.py]) *)

Module CartManager.

Definition default_session : string := "default".

(** [session_id or "default"]: [None] and the empty string are falsy. *)
Definition session_key (session_id : option string) : string :=
  match session_id with
  | None => default_session
  | Some EmptyString => default_session
  | Some s => s
  end.

Definition get_cart (session_id : option string) : M Cart :=
  let sid := session_key session_id in
  carts <- get_carts ;;
  match carts !! sid with
  | Some cart => ret cart
  | None =>
      created <- now_isoformat ;;
      let cart := {| cart_items := []; cart_last_updated := None;
                     cart_created_at := created |} in
      put_carts (<[sid := cart]> carts) ;;;
      ret cart
  end.

(** The cart object returned by [get_cart] is the one stored in
    [self.carts]; a mutation of it is a store at the session's key. *)
Definition store_cart (session_id : option string) (cart : Cart) : M unit :=
  carts <- get_carts ;;
  put_carts (<[session_key session_id := cart]> carts).

Definition add_item (product : Product) (session_id : option string)
  : M CartItem :=
  cart <- get_cart session_id ;;
  uid <- uuid4 ;;
  stamp <- now_isoformat ;;
  let item := {| item_id := uid;
                 item_product_id := p_id product;
                 item_product_name := p_name product;
                 item_price := p_price product;
                 item_category := p_category product;
                 item_timestamp := stamp;
                 item_scanner_source := "pyqt" |} in
  updated <- now_isoformat ;;
  store_cart session_id
    {| cart_items := cart_items cart ++ [item];
       cart_last_updated := Some updated;
       cart_created_at := cart_created_at cart |} ;;;
  ret item.

(** The first line with this product id is popped. *)
Fixpoint remove_first (product_id : string) (items : list CartItem)
  : option (list CartItem) :=
  match items with
  | [] => None
  | item :: rest =>
      if String.eqb (item_product_id item) product_id then Some rest
      else option_map (cons item) (remove_first product_id rest)
  end.

Definition remove_item (product_id : string) (session_id : option string)
  : M bool :=
  cart <- get_cart session_id ;;
  match remove_first product_id (cart_items cart) with
  | Some items =>
      updated <- now_isoformat ;;
      store_cart session_id
        {| cart_items := items; cart_last_updated := Some updated;
           cart_created_at := cart_created_at cart |} ;;;
      ret true
  | None => ret false
  end.

Definition clear_cart (session_id : option string) : M unit :=
  cart <- get_cart session_id ;;
  updated <- now_isoformat ;;
  store_cart session_id
    {| cart_items := []; cart_last_updated := Some updated;
       cart_created_at := cart_created_at cart |}.

(** One round of the grouping loop of [get_summary]. The [summary] dict
    is kept in insertion order: a known product id has its quantity
    raised in place, a new one is appended. *)
Fixpoint summary_add (item : CartItem) (summary : list SummaryItem)
  : list SummaryItem :=
  match summary with
  | [] =>
      [ {| s_product_id := item_product_id item;
           s_product_name := item_product_name item;
           s_price := item_price item;
           s_quantity := 1 |} ]
  | entry :: rest =>
      if String.eqb (s_product_id entry) (item_product_id item) then
        {| s_product_id := s_product_id entry;
           s_product_name := s_product_name entry;
           s_price := s_price entry;
           s_quantity := s_quantity entry + 1 |} :: rest
      else entry :: summary_add item rest
  end.

Definition group_items (items : list CartItem) : list SummaryItem :=
  fold_left (fun summary item => summary_add item summary) items [].

Definition summary_of (cart : Cart) : Summary :=
  let summary := group_items (cart_items cart) in
  {| sum_items := summary;
     sum_total_items := length (cart_items cart);
     sum_unique_items := length summary;
     sum_last_updated := cart_last_updated cart;
     sum_created_at := Some (cart_created_at cart) |}.

Definition get_summary (session_id : option string) : M Summary :=
  cart <- get_cart session_id ;;
  ret (summary_of cart).

(** The test of [cleanup_old_carts] on one cart: it has a creation
    stamp, the stamp is before the cutoff, and it holds no line. *)
Definition expired (fromisoformat : string -> Q) (cutoff : Q) (cart : Cart)
  : bool :=
  negb (String.eqb (cart_created_at cart) "")
  && Py.Qltb (fromisoformat (cart_created_at cart)) cutoff
  && Nat.eqb (length (cart_items cart)) 0.

(** [cleanup_old_carts]; [now] is the reading of [datetime.now()] in
    seconds and [fromisoformat] reads a stamp back as seconds. *)
Definition cleanup_old_carts (fromisoformat : string -> Q) (now : Q)
    (max_age_hours : Z) (carts : gmap string Cart) : gmap string Cart :=
  let cutoff := (now - inject_Z max_age_hours * 3600)%Q in
  filter (fun entry => expired fromisoformat cutoff entry.2 = false) carts.

End CartManager.

(** ** The HTTP handlers ([main.py]) *)

Record ErrorContent := {
  err_error : string;
  err_available : option Z;
  err_requested : option Z;
}.

(** A handler answers its body (status 200) or a [JSONResponse] carrying
    a status code and an error content. *)
Inductive Response (A : Type) : Type :=
| Ok200 (body : A)
| JSONResponse (status_code : Z) (content : ErrorContent).
Arguments Ok200 {A} body.
Arguments JSONResponse {A} status_code content.

Definition error_only (msg : string) : ErrorContent :=
  {| err_error := msg; err_available := None; err_requested := None |}.

Record AddRequest := {
  req_product_id : string;
  req_session_id : option string;
  req_quantity : option Z;
}.

Record AddResult := {
  add_success : bool;
  add_message : string;
  add_cart_summary : Summary;
  add_items_added : list CartItem;
}.

Record BatchItem := {
  bi_product_id : string;
  bi_quantity : option Z;
}.

Record BatchRequest := {
  breq_items : list BatchItem;
  breq_session_id : option string;
}.

Record BatchResult := {
  batch_success : bool;
  batch_items_added : nat;
  batch_errors : list string;
  batch_cart_summary : Summary;
}.

Record CheckoutRequest := {
  co_session_id : option string;
}.

Module Api.

Import JsonDatabase CartManager.

Definition variations (product_id : string) : list string :=
  [ Py.replace "_" "-" product_id;
    Py.replace "-" "_" product_id;
    Py.lower product_id;
    Py.replace "_" "-" (Py.lower product_id);
    Py.replace "-" "_" (Py.lower product_id) ].

Fixpoint first_variant (data : Data) (variants : list string)
  : option Product :=
  match variants with
  | [] => None
  | variant :: rest =>
      match get_product data variant with
      | Some product => Some product
      | None => first_variant data rest
      end
  end.

Definition strip_separators (s : string) : string :=
  Py.replace "_" "" (Py.replace "-" "" s).

(** The two tests of the partial-match loop for one product [p]. *)
Definition partial_match (product_id : string) (p : Product) : bool :=
  Py.contains (Py.lower product_id) (Py.lower (p_id p))
  || String.eqb (Py.lower (strip_separators (p_id p)))
                (Py.lower (strip_separators product_id)).

Definition get_product_flexible (data : Data) (product_id : string)
  : option Product :=
  match get_product data product_id with
  | Some product => Some product
  | None =>
      match first_variant data (variations product_id) with
      | Some product => Some product
      | None => List.find (partial_match product_id) (get_products data)
      end
  end.

(** [for _ in range(quantity): added_items.append(add_item(...))]. *)
Fixpoint add_items (n : nat) (product : Product) (session_id : option string)
  : M (list CartItem) :=
  match n with
  | O => ret []
  | S n' =>
      item <- add_item product session_id ;;
      rest <- add_items n' product session_id ;;
      ret (item :: rest)
  end.

(** [add_to_cart]. The [except] branch (status 500) answers a Python
    exception; a request of the shape [AddRequest] raises none. *)
Definition add_to_cart (item_data : AddRequest) : M (Response AddResult) :=
  let product_id := req_product_id item_data in
  let session_id := req_session_id item_data in
  let quantity := default 1 (req_quantity item_data) in
  data <- read_db ;;
  match get_product_flexible data product_id with
  | None =>
      ret (JSONResponse 404
             (error_only ("Product " +:+ product_id +:+ " not found")))
  | Some product =>
      if p_stock product <? quantity then
        ret (JSONResponse 400
               {| err_error := "Insufficient stock for " +:+ p_name product;
                  err_available := Some (p_stock product);
                  err_requested := Some quantity |})
      else
        added_items <- add_items (Py.range_len quantity) product session_id ;;
        summary <- get_summary session_id ;;
        ret (Ok200
               {| add_success := true;
                  add_message :=
                    "Added " +:+ pretty quantity +:+ "x "
                    +:+ p_name product +:+ " to cart";
                  add_cart_summary := summary;
                  add_items_added := added_items |})
  end.

(** The loop of [add_batch_to_cart] with its two accumulators. *)
Fixpoint batch_loop (items : list BatchItem) (session_id : option string)
    (results : list CartItem) (errors : list string)
  : M (list CartItem * list string) :=
  match items with
  | [] => ret (results, errors)
  | item :: rest =>
      let product_id := bi_product_id item in
      let quantity := default 1 (bi_quantity item) in
      data <- read_db ;;
      match get_product_flexible data product_id with
      | None =>
          batch_loop rest session_id results
            (errors ++ ["Product " +:+ product_id +:+ " not found"])
      | Some product =>
          if p_stock product <? quantity then
            batch_loop rest session_id results
              (errors ++ ["Insufficient stock for " +:+ p_name product])
          else
            added <- add_items (Py.range_len quantity) product session_id ;;
            batch_loop rest session_id (results ++ added) errors
      end
  end.

Definition add_batch_to_cart (batch_data : BatchRequest) : M BatchResult :=
  let session_id := breq_session_id batch_data in
  outcome <- batch_loop (breq_items batch_data) session_id [] [] ;;
  let '(results, errors) := outcome in
  summary <- get_summary session_id ;;
  ret {| batch_success := Py.nonempty results;
         batch_items_added := length results;
         batch_errors := errors;
         batch_cart_summary := summary |}.

Definition get_cart (session_id : option string) : M Summary :=
  get_summary session_id.

Definition clear_cart (session_id : option string) : M string :=
  CartManager.clear_cart session_id ;;;
  ret "Cart cleared".

Definition remove_from_cart (product_id : string) (session_id : option string)
  : M (Response Summary) :=
  removed <- remove_item product_id session_id ;;
  if removed then
    summary <- get_summary session_id ;;
    ret (Ok200 summary)
  else ret (JSONResponse 404 (error_only "Item not found in cart")).

Definition default_tax_rate : Q := 7 # 100.

Definition line_total (item : SummaryItem) : Q :=
  (s_price item * inject_Z (s_quantity item))%Q.

Definition payment_item (item : SummaryItem) : PaymentItem :=
  {| pi_product_id := s_product_id item;
     pi_product_name := s_product_name item;
     pi_quantity := s_quantity item;
     pi_price := s_price item;
     pi_total := line_total item |}.

Definition checkout_cart (checkout_data : option CheckoutRequest)
  : M (Response Payment) :=
  let session_id :=
    match checkout_data with
    | Some d => co_session_id d
    | None => None
    end in
  summary <- get_summary session_id ;;
  if Nat.eqb (sum_total_items summary) 0 then
    ret (JSONResponse 400 (error_only "Cart is empty"))
  else
    payment_id <- uuid4 ;;
    let subtotal := Py.sum (map line_total (sum_items summary)) in
    settings <- (data <- read_db ;; ret (get_settings data)) ;;
    let tax_rate := default default_tax_rate (set_tax_rate settings) in
    let tax := (subtotal * tax_rate)%Q in
    let total := (subtotal + tax)%Q in
    stamp <- now_isoformat ;;
    let pending_payment :=
      {| pay_payment_id := payment_id;
         pay_timestamp := stamp;
         pay_items := map payment_item (sum_items summary);
         pay_subtotal := subtotal;
         pay_tax := tax;
         pay_total := total;
         pay_status := "pending";
         pay_session_id := session_key session_id |} in
    data <- read_db ;;
    write_db (add_pending_payment payment_id pending_payment data) ;;;
    CartManager.clear_cart session_id ;;;
    ret (Ok200 pending_payment).

Definition restock_product (product_id : string) (quantity : Z)
  : M (Response string) :=
  data <- read_db ;;
  match update_stock product_id quantity "add" data with
  | (true, data') =>
      write_db data' ;;;
      ret (Ok200 "Product restocked successfully")
  | (false, _) =>
      ret (JSONResponse 400 (error_only "Failed to restock"))
  end.

Definition confirm_payment (payment_id : string) : M (Response Sale) :=
  data <- read_db ;;
  match get_pending_payment data payment_id with
  | None => ret (JSONResponse 404 (error_only "Payment not found"))
  | Some pending_payment =>
      if negb (String.eqb (pay_status pending_payment) "pending") then
        ret (JSONResponse 400 (error_only "Payment already processed"))
      else
        sale <- process_pending_payment payment_id ;;
        match sale with
        | Some sale => ret (Ok200 sale)
        | None =>
            ret (JSONResponse 400 (error_only "Failed to process payment"))
        end
  end.

Definition get_products : M (list Product) :=
  data <- read_db ;;
  ret (JsonDatabase.get_products data).

Definition get_sales (limit : option Z) : M (list Sale) :=
  data <- read_db ;;
  ret (JsonDatabase.get_sales (default 50 limit) data).

Definition get_theme : M string :=
  data <- read_db ;;
  ret (JsonDatabase.get_theme data).

Definition set_theme (theme_data : option string) : M (Response string) :=
  let theme := default "light" theme_data in
  if String.eqb theme "light" || String.eqb theme "dark" then
    data <- read_db ;;
    write_db (JsonDatabase.set_theme theme data) ;;;
    ret (Ok200 theme)
  else ret (JSONResponse 400 (error_only "Invalid theme")).

End Api.

(** ** The detection client ([detection/detection_client.py]) *)

Record ClientProduct := {
  cp_web_id : string;
  cp_price : Q;
}.

Module MinimalDetectionClient.

(** [self.products]: YOLO class name to web product id. *)
Definition products : gmap string ClientProduct :=
  list_to_map
    [ ("Lay's-Flat-Original-Flavor",
        {| cp_web_id := "lays-flat-original"; cp_price := 20 |});
      ("Lay's-Nori-Seaweed-Flavor",
        {| cp_web_id := "lays-nori-seaweed"; cp_price := 25 |});
      ("Lay's-Ridged-Original-Flavor",
        {| cp_web_id := "lays-ridged-original"; cp_price := 22 |});
      ("Snackjack-Original-Flavor",
        {| cp_web_id := "snackjack-original"; cp_price := 18 |});
      ("Tasto-Japanese-Seaweed-Flavor",
        {| cp_web_id := "tasto-japanese-seaweed"; cp_price := 24 |});
      ("Tasto-Original-Flavor",
        {| cp_web_id := "tasto-original"; cp_price := 22 |});
      ("Enter", {| cp_web_id := "enter"; cp_price := 18 |});
      ("Atreus", {| cp_web_id := "atreus"; cp_price := 22 |});
      ("CocaCola-Bottle",
        {| cp_web_id := "coca-cola-bottle"; cp_price := 18 |});
      ("CocaCola-Can", {| cp_web_id := "coca-cola-can"; cp_price := 14 |});
      ("Crystal-Water", {| cp_web_id := "crystal-water"; cp_price := 7 |});
      ("Fanta-FruitPunch-Flavor",
        {| cp_web_id := "fanta-fruit-punch"; cp_price := 14 |});
      ("Pepsi", {| cp_web_id := "pepsi"; cp_price := 14 |});
      ("Sprite", {| cp_web_id := "sprite"; cp_price := 14 |}) ].



End MinimalDetectionClient.


(** ** Overlap filter and debouncer
    ([self-checkout-system/detection/yolo_detector.py]) *)

Definition Box : Type := Z * Z * Z * Z.

Record Detection := {
  det_class_name : string;
  det_confidence : Q;
  det_bbox : Box;
  det_category : string;
}.

Module YOLODetector.

Definition calculate_iou (box1 box2 : Box) : Q :=
  let '(x1_1, y1_1, x2_1, y2_1) := box1 in
  let '(x1_2, y1_2, x2_2, y2_2) := box2 in
  let x1_i := Z.max x1_1 x1_2 in
  let y1_i := Z.max y1_1 y1_2 in
  let x2_i := Z.min x2_1 x2_2 in
  let y2_i := Z.min y2_1 y2_2 in
  if (x2_i <? x1_i) || (y2_i <? y1_i) then 0%Q
  else
    let intersection := (x2_i - x1_i) * (y2_i - y1_i) in
    let area1 := (x2_1 - x1_1) * (y2_1 - y1_1) in
    let area2 := (x2_2 - x1_2) * (y2_2 - y1_2) in
    let union := area1 + area2 - intersection in
    if union >? 0 then (inject_Z intersection / inject_Z union)%Q else 0%Q.

(** [sorted(detections, key=confidence, reverse=True)]: descending and
    stable, equal confidences keep their input order. *)
Fixpoint insert_by_confidence (d : Detection) (sorted : list Detection)
  : list Detection :=
  match sorted with
  | [] => [d]
  | e :: rest =>
      if Qle_bool (det_confidence e) (det_confidence d)
      then d :: e :: rest
      else e :: insert_by_confidence d rest
  end.

Definition sorted_by_confidence (detections : list Detection)
  : list Detection :=
  fold_right insert_by_confidence [] detections.

(** The test of the inner loop against one selected detection. *)
Definition duplicates (iou_threshold : Q) (detection selected : Detection)
  : bool :=
  Py.Qltb iou_threshold
    (calculate_iou (det_bbox detection) (det_bbox selected))
  && String.eqb (det_class_name detection) (det_class_name selected).

Definition is_duplicate (iou_threshold : Q) (detection : Detection)
    (filtered : list Detection) : bool :=
  existsb (duplicates iou_threshold detection) filtered.

Definition filter_step (iou_threshold : Q) (filtered : list Detection)
    (detection : Detection) : list Detection :=
  if is_duplicate iou_threshold detection filtered then filtered
  else filtered ++ [detection].

Definition default_iou_threshold : Q := 1 # 2.

Definition filter_overlapping_detections (detections : list Detection)
    (iou_threshold : Q) : list Detection :=
  match detections with
  | [] => []
  | _ =>
      fold_left (filter_step iou_threshold)
        (sorted_by_confidence detections) []
  end.

End YOLODetector.

Record DetectionDebouncer := {
  debounce_time : Q;
  last_detections : gmap string Q;
}.

Module Debouncer.

Definition default_debounce_time : Q := 1.

Definition init (debounce_time : Q) : DetectionDebouncer :=
  {| debounce_time := debounce_time; last_detections := ∅ |}.

Definition accept (current_time : Q) (class_name : string)
    (self : DetectionDebouncer) : DetectionDebouncer :=
  {| debounce_time := debounce_time self;
     last_detections :=
       <[class_name := current_time]> (last_detections self) |}.

(** [is_new_detection]; [current_time] is the reading of [time.time()]. *)
Definition is_new_detection (current_time : Q) (class_name : string)
    (self : DetectionDebouncer) : bool * DetectionDebouncer :=
  match last_detections self !! class_name with
  | Some last =>
      let time_diff := (current_time - last)%Q in
      if Py.Qltb time_diff (debounce_time self) then (false, self)
      else (true, accept current_time class_name self)
  | None => (true, accept current_time class_name self)
  end.

Definition clear (self : DetectionDebouncer) : DetectionDebouncer :=
  {| debounce_time := debounce_time self; last_detections := ∅ |}.

End Debouncer.

(** ** The scanner's product and preview cart
    ([self-checkout-system/models/product.py], [models/cart.py]) *)

(** The [Product] dataclass of the scanner. *)
Record ScanProduct := {
  sp_id : string;
  sp_name : string;
  sp_price : Q;
  sp_category : string;
  sp_barcode : option string;
  sp_stock : Z;
  sp_image : option string;
  sp_description : option string;
  sp_weight : option string;
  sp_volume : option string;
  sp_yolo_class_name : option string;
}.

(** [CartItem] of [models/cart.py]. *)
Record PreviewItem := {
  pv_product : ScanProduct;
  pv_quantity : Z;
  pv_added_at : string;
}.

(** [ShoppingCart]: [items] is a dict from product id to item, kept here
    in insertion order with one entry per key. *)
Record ShoppingCart := {
  sc_items : list (string * PreviewItem);
  sc_tax_rate : Q;
  sc_created_at : string;
}.

Module Preview.

Definition is_in_stock (product : ScanProduct) : bool := sp_stock product >? 0.

Definition init (tax_rate : Q) (now : string) : ShoppingCart :=
  {| sc_items := []; sc_tax_rate := tax_rate; sc_created_at := now |}.

Definition with_items (self : ShoppingCart) (items : list (string * PreviewItem))
  : ShoppingCart :=
  {| sc_items := items; sc_tax_rate := sc_tax_rate self;
     sc_created_at := sc_created_at self |}.

(** [self.items.get(product_id)]. *)
Fixpoint lookup (product_id : string) (items : list (string * PreviewItem))
  : option PreviewItem :=
  match items with
  | [] => None
  | (key, item) :: rest =>
      if String.eqb key product_id then Some item else lookup product_id rest
  end.

(** [self.items[product_id].quantity = quantity]. *)
Fixpoint set_quantity (product_id : string) (quantity : Z)
    (items : list (string * PreviewItem)) : list (string * PreviewItem) :=
  match items with
  | [] => []
  | (key, item) :: rest =>
      if String.eqb key product_id then
        (key, {| pv_product := pv_product item; pv_quantity := quantity;
                 pv_added_at := pv_added_at item |}) :: rest
      else (key, item) :: set_quantity product_id quantity rest
  end.

(** [del self.items[product_id]]. *)
Fixpoint delete (product_id : string) (items : list (string * PreviewItem))
  : list (string * PreviewItem) :=
  match items with
  | [] => []
  | (key, item) :: rest =>
      if String.eqb key product_id then rest
      else (key, item) :: delete product_id rest
  end.

(** [add_product]; [now] is the reading of [datetime.now()] that a new
    [CartItem] records. *)
Definition add_product (product : ScanProduct) (quantity : Z) (now : string)
    (self : ShoppingCart) : bool * ShoppingCart :=
  if quantity >? sp_stock product then (false, self)
  else
    match lookup (sp_id product) (sc_items self) with
    | Some item =>
        let new_quantity := pv_quantity item + quantity in
        if new_quantity >? sp_stock product then (false, self)
        else
          (true,
           with_items self
             (set_quantity (sp_id product) new_quantity (sc_items self)))
    | None =>
        (true,
         with_items self
           (sc_items self
            ++ [(sp_id product,
                 {| pv_product := product; pv_quantity := quantity;
                    pv_added_at := now |})]))
    end.

Definition remove_product (product_id : string) (self : ShoppingCart)
  : bool * ShoppingCart :=
  match lookup product_id (sc_items self) with
  | Some _ => (true, with_items self (delete product_id (sc_items self)))
  | None => (false, self)
  end.

Definition update_quantity (product_id : string) (quantity : Z)
    (self : ShoppingCart) : bool * ShoppingCart :=
  match lookup product_id (sc_items self) with
  | None => (false, self)
  | Some item =>
      if quantity <=? 0 then remove_product product_id self
      else if quantity >? sp_stock (pv_product item) then (false, self)
      else (true, with_items self (set_quantity product_id quantity (sc_items self)))
  end.

Definition clear (self : ShoppingCart) : ShoppingCart := with_items self [].

(** [sum(item.quantity for item in self.items.values())], on integers. *)
Definition item_count (self : ShoppingCart) : Z :=
  fold_left Z.add (map (fun entry => pv_quantity entry.2) (sc_items self)) 0.

Definition get_items (self : ShoppingCart) : list PreviewItem :=
  map snd (sc_items self).

(** [__len__]. *)
Definition len (self : ShoppingCart) : nat := length (sc_items self).

End Preview.

(** ** The list of detected products ([ScannerWidget] in
    [ui/main_window.py]); the widgets that mirror the list are left
    out. *)

Module ScannerWidget.

(** [add_detected_product]: a product whose id is already listed is
    ignored. *)
Definition add_detected_product (product : ScanProduct)
    (detected_products : list ScanProduct) : list ScanProduct :=
  if existsb (fun existing => String.eqb (sp_id existing) (sp_id product))
       detected_products
  then detected_products
  else detected_products ++ [product].

(** [on_delete_item]: [pop(index)] when [0 <= index < len]. *)
Definition on_delete_item (index : Z) (detected_products : list ScanProduct)
  : list ScanProduct :=
  if (0 <=? index) && (index <? Z.of_nat (length detected_products))
  then delete (Z.to_nat index) detected_products
  else detected_products.

Definition clear_detected (detected_products : list ScanProduct)
  : list ScanProduct := [].

End ScannerWidget.

(** * Vocabulary of the statements *)

(** The cart a session gets on first access. *)
Definition fresh_cart (w : World) : Cart :=
  {| cart_items := []; cart_last_updated := None;
     cart_created_at := o_isoformat (w_oracle w) (w_tick w) |}.

(** The cart lines of a session; none when the session has no cart. *)
Definition lines_of (w : World) (session_id : option string) : list CartItem :=
  match w_carts w !! CartManager.session_key session_id with
  | Some cart => cart_items cart
  | None => []
  end.

(** Number of cart lines of one product. *)
Definition line_count (product_id : string) (items : list CartItem) : nat :=
  length (filter (fun item => item_product_id item = product_id) items).

(** [summary[pid]["quantity"]], or [0] when [pid] is not a key. *)
Fixpoint quantity_of (product_id : string) (summary : list SummaryItem) : Z :=
  match summary with
  | [] => 0
  | entry :: rest =>
      if String.eqb (s_product_id entry) product_id then s_quantity entry
      else quantity_of product_id rest
  end.

Definition keys (summary : list SummaryItem) : list string :=
  map s_product_id summary.

(** The invariant of the grouping loop, for the lines seen so far. *)
Record grouped (items : list CartItem) (summary : list SummaryItem) : Prop := {
  grouped_nodup : NoDup (keys summary);
  grouped_keys :
    forall pid, pid ∈ keys summary <-> pid ∈ map item_product_id items;
  grouped_quantity :
    forall pid, quantity_of pid summary = Z.of_nat (line_count pid items);
}.

(** A cart line is a copy of the catalog entry it was added from. *)
Definition line_of (product : Product) (item : CartItem) : Prop :=
  item_product_id item = p_id product
  /\ item_product_name item = p_name product
  /\ item_price item = p_price product
  /\ item_category item = p_category product.

(** The summary entry of [quantity] lines of one product. *)
Definition summary_entry (product : Product) (quantity : Z) : SummaryItem :=
  {| s_product_id := p_id product; s_product_name := p_name product;
     s_price := p_price product; s_quantity := quantity |}.

(** The stock the store holds for a product id. *)
Definition stock_of (product_id : string) (data : Data) : option Z :=
  p_stock <$> JsonDatabase.get_product data product_id.

(** What an operation on one session leaves alone. *)
Definition same_elsewhere (session_id : option string) (w w' : World) : Prop :=
  w_data w' = w_data w /\ w_oracle w' = w_oracle w
  /\ forall key, key <> CartManager.session_key session_id ->
       w_carts w' !! key = w_carts w !! key.

(** The fate of one batch item, decided on the store alone: rejected
    with an error string, or accepted as [count] lines of a product. *)
Inductive Verdict : Type :=
| Rejected (error : string)
| Accepted (product : Product) (count : nat).

Definition verdict (data : Data) (item : BatchItem) : Verdict :=
  match Api.get_product_flexible data (bi_product_id item) with
  | None => Rejected ("Product " +:+ bi_product_id item +:+ " not found")
  | Some product =>
      if p_stock product <? default 1 (bi_quantity item)
      then Rejected ("Insufficient stock for " +:+ p_name product)
      else Accepted product (Z.to_nat (default 1 (bi_quantity item)))
  end.

Definition rejection (v : Verdict) : option string :=
  match v with Rejected error => Some error | Accepted _ _ => None end.

(** The product ids of the lines an accepted item contributes. *)
Definition accepted_ids (v : Verdict) : list string :=
  match v with
  | Rejected _ => []
  | Accepted product count => replicate count (p_id product)
  end.

(** What confirming a payment line does to the first catalog entry with
    id [product_id]: the entry of the line's own product is decremented
    when its stock covers the quantity, and kept as it is otherwise. *)
Definition settle (item : PaymentItem) (product_id : string) (p : Product)
  : Product :=
  if String.eqb product_id (pi_product_id item)
     && (p_stock p >=? pi_quantity item)
  then set_stock p (p_stock p - pi_quantity item)
  else p.

(** The stock after a confirmed line of [quantity] units. *)
Definition stock_after (quantity stock : Z) : Z :=
  if stock >=? quantity then stock - quantity else stock.

(** The pending payment that a checkout of [cart] creates in world [w]:
    the payment id and the time stamp are the next two oracle readings. *)
Definition pending_payment_of (w : World) (session_id : option string)
    (cart : Cart) : Payment :=
  let summary := CartManager.summary_of cart in
  let subtotal := Py.sum (map Api.line_total (sum_items summary)) in
  let tax_rate :=
    default Api.default_tax_rate (set_tax_rate (d_settings (w_data w))) in
  {| pay_payment_id := o_uuid4 (w_oracle w) (w_tick w);
     pay_timestamp := o_isoformat (w_oracle w) (S (w_tick w));
     pay_items := map Api.payment_item (sum_items summary);
     pay_subtotal := subtotal;
     pay_tax := (subtotal * tax_rate)%Q;
     pay_total := (subtotal + subtotal * tax_rate)%Q;
     pay_status := "pending";
     pay_session_id := CartManager.session_key session_id |}.

(** The operations that can reach the stock. [Subtract] is the subtract
    branch of [update_stock], which no handler calls. *)
Inductive Operation : Type :=
| AddToCart (item_data : AddRequest)
| AddBatch (batch_data : BatchRequest)
| Restock (product_id : string) (quantity : Z)
| Subtract (product_id : string) (quantity : Z)
| Checkout (checkout_data : option CheckoutRequest)
| ConfirmPayment (payment_id : string)
| RemoveFromCart (product_id : string) (session_id : option string)
| ClearCart (session_id : option string).

Definition subtract_stock (product_id : string) (quantity : Z) : M bool :=
  data <- read_db ;;
  match JsonDatabase.update_stock product_id quantity "subtract" data with
  | (true, data') => write_db data' ;;; ret true
  | (false, _) => ret false
  end.

Definition run_operation (w : World) (op : Operation) : World :=
  match op with
  | AddToCart item_data => snd (Api.add_to_cart item_data w)
  | AddBatch batch_data => snd (Api.add_batch_to_cart batch_data w)
  | Restock product_id quantity =>
      snd (Api.restock_product product_id quantity w)
  | Subtract product_id quantity => snd (subtract_stock product_id quantity w)
  | Checkout checkout_data => snd (Api.checkout_cart checkout_data w)
  | ConfirmPayment payment_id => snd (Api.confirm_payment payment_id w)
  | RemoveFromCart product_id session_id =>
      snd (Api.remove_from_cart product_id session_id w)
  | ClearCart session_id => snd (Api.clear_cart session_id w)
  end.

Definition run (ops : list Operation) (w : World) : World :=
  fold_left run_operation ops w.

Definition stock_nonnegative (products : list Product) : Prop :=
  Forall (fun p => 0 <= p_stock p) products.

(** A restock that adds a quantity that is not negative. *)
Definition restocks_add (op : Operation) : Prop :=
  match op with
  | Restock _ quantity => 0 <= quantity
  | _ => True
  end.

(** No call for the label was accepted within the cooldown window
    before [current_time]. *)
Definition quiet (current_time : Q) (class_name : string)
    (self : DetectionDebouncer) : Prop :=
  match last_detections self !! class_name with
  | Some last => (debounce_time self <= current_time - last)%Q
  | None => True
  end.

(** Two detections have the same label and an IoU above the threshold. *)
Definition overlapping (iou_threshold : Q) (a b : Detection) : Prop :=
  det_class_name a = det_class_name b
  /\ (iou_threshold
       < YOLODetector.calculate_iou (det_bbox a) (det_bbox b))%Q.

(** [b] comes after [a] in a list sorted by descending confidence. *)
Definition not_above (a b : Detection) : Prop :=
  (det_confidence b <= det_confidence a)%Q.

(** No entry of the list overlaps an entry that comes before it. *)
Definition spread (iou_threshold : Q) (l : list Detection) : Prop :=
  forall (i j : nat) a b,
    (i < j)%nat -> l !! i = Some a -> l !! j = Some b ->
    ~ overlapping iou_threshold a b.



(** The ids of the catalog are made of ASCII characters. *)
Definition ascii_catalog (data : Data) : bool :=
  forallb (fun p => Py.isascii (p_id p)) (d_products data).



(** *** The resolution order in the words of the specification

    Section 4.3 of the specification: exact match of the label in the
    index keyed by detector label; then the normalized form (lowercase,
    whitespace collapsed to a single dash, apostrophes stripped) looked
    up exactly, and its dash/underscore-swapped variants; then the
    partial match. *)





(** *** Sample data *)

Definition sample_oracle : Oracle :=
  {| o_uuid4 := fun n => "uuid-" +:+ pretty n;
     o_isoformat := fun n => "2024-01-01T00:00:" +:+ pretty n;
     o_strftime := fun n => "202401010000" +:+ pretty n |}.

Definition product (id name : string) (price : Q) (stock : Z) : Product :=
  {| p_id := id; p_name := name; p_price := price;
     p_category := "drinks"; p_stock := stock |}.

Definition cola : Product := product "cola-can" "Cola" 14 5.

Definition sample_data (products : list Product) : Data :=
  {| d_products := products; d_sales := [];
     d_pending_payments := ∅;
     d_settings := {| set_theme := "light"; set_tax_rate := None |} |}.

Definition sample_world (products : list Product) : World :=
  {| w_carts := ∅; w_data := sample_data products; w_tick := 0;
     w_oracle := sample_oracle |}.

Definition cola_line (uid : string) : CartItem :=
  {| item_id := uid; item_product_id := "cola-can";
     item_product_name := "Cola"; item_price := 14;
     item_category := "drinks"; item_timestamp := "2024-01-01T00:00:00";
     item_scanner_source := "pyqt" |}.

Definition cart_with (lines : list CartItem) : Cart :=
  {| cart_items := lines; cart_last_updated := Some "2024-01-01T00:00:00";
     cart_created_at := "2024-01-01T00:00:00" |}.

(** The default session holds [lines]; the catalog is [products]. *)
Definition world_with_cart (lines : list CartItem) (products : list Product)
  : World :=
  {| w_carts := {[ "default" := cart_with lines ]};
     w_data := sample_data products; w_tick := 0;
     w_oracle := sample_oracle |}.

Definition add_one_cola : AddRequest :=
  {| req_product_id := "cola-can"; req_session_id := None;
     req_quantity := Some 1 |}.

Definition chips (confidence : Q) (bbox : Box) : Detection :=
  {| det_class_name := "Lay's-Flat-Original-Flavor";
     det_confidence := confidence; det_bbox := bbox;
     det_category := "chips" |}.

Definition refill : Product := product "crystalwater" "Refill" 5 10.
Definition crystal : Product := product "crystal-water" "Crystal Water" 7 10.

Definition empty_shelf : Product := product "crystal-water" "Crystal Water" 7 0.
Definition pepsi : Product := product "pepsi" "Pepsi" 14 4.

Definition batch_item (product_id : string) : BatchItem :=
  {| bi_product_id := product_id; bi_quantity := Some 1 |}.

(** *** Further vocabulary *)

(** The sum of the quantities of a summary. *)
Definition summary_quantity (summary : list SummaryItem) : Z :=
  fold_right Z.add 0 (map s_quantity summary).

(** The sum of the quantities of the lines of a payment. *)
Definition payment_quantity (items : list PaymentItem) : Z :=
  fold_right Z.add 0 (map pi_quantity items).

(** A payment line as [checkout_cart] writes it. *)
Definition well_formed_line (item : PaymentItem) : Prop :=
  1 <= pi_quantity item
  /\ pi_total item = (pi_price item * inject_Z (pi_quantity item))%Q.

(** The session a checkout request names. *)
Definition checkout_session (checkout_data : option CheckoutRequest)
  : option string :=
  match checkout_data with
  | Some d => co_session_id d
  | None => None
  end.

(** A catalog entry with its stock blanked: what no operation changes. *)
Definition listing (p : Product) : Product := set_stock p 0.

(** What [update_stock] does to the stock of the product it finds;
    [None] is its refusal. *)
Definition stock_update (operation : string) (quantity stock : Z) : option Z :=
  if String.eqb operation "add" then Some (stock + quantity)
  else if String.eqb operation "subtract" then
    if stock >=? quantity then Some (stock - quantity) else None
  else Some stock.

(** The characters that the comparison of the partial match looks at:
    dashes and underscores dropped, capital letters made small. *)
Definition key_chars (l : list ascii) : list ascii :=
  flat_map (fun c => if Ascii.eqb c "-" || Ascii.eqb c "_" then []
                     else [Py.lower_ascii c]) l.

(** The times at which the calls for [label], among a sequence of calls
    given as (time, label) pairs, are accepted. *)
Fixpoint accepted_times (label : string) (calls : list (Q * string))
    (self : DetectionDebouncer) : list Q :=
  match calls with
  | [] => []
  | (time, class_name) :: rest =>
      let '(accepted, self') :=
        Debouncer.is_new_detection time class_name self in
      (if accepted && String.eqb class_name label then [time] else [])
      ++ accepted_times label rest self'
  end.

(** Each time of the list is at least [gap] after the one before it, the
    first one after [previous] when there is one. *)
Fixpoint spaced (gap : Q) (previous : option Q) (times : list Q) : Prop :=
  match times with
  | [] => True
  | time :: rest =>
      match previous with
      | Some p => (gap <= time - p)%Q
      | None => True
      end
      /\ spaced gap (Some time) rest
  end.

(** The area of a box as [_calculate_iou] computes it. *)
Definition box_area (box : Box) : Z :=
  let '(x1, y1, x2, y2) := box in (x2 - x1) * (y2 - y1).

(** A box with a left edge left of its right edge and a top edge above
    its bottom edge. *)
Definition proper_box (box : Box) : Prop :=
  let '(x1, y1, x2, y2) := box in x1 < x2 /\ y1 < y2.

(** The preview cart is a dict: one entry per key. *)
Definition keyed_once (self : ShoppingCart) : Prop :=
  NoDup (map fst (sc_items self)).

(** The quantity the preview cart holds of a product id, 0 when the id
    is not in the cart. *)
Definition held (product_id : string) (self : ShoppingCart) : Z :=
  default 0 (pv_quantity <$> Preview.lookup product_id (sc_items self)).

Definition scan_product (id : string) (price : Q) (stock : Z) : ScanProduct :=
  {| sp_id := id; sp_name := id; sp_price := price; sp_category := "drinks";
     sp_barcode := None; sp_stock := stock; sp_image := None;
     sp_description := None; sp_weight := None; sp_volume := None;
     sp_yolo_class_name := None |}.

(** What happens to the scanner's list of detected products: a product
    is detected, the entry at an index is deleted, the list is
    cleared. *)
Inductive ScanEvent :=
| Detected (product : ScanProduct)
| Deleted (index : Z)
| Cleared.

Definition scan_step (detected_products : list ScanProduct)
    (event : ScanEvent) : list ScanProduct :=
  match event with
  | Detected product =>
      ScannerWidget.add_detected_product product detected_products
  | Deleted index => ScannerWidget.on_delete_item index detected_products
  | Cleared => ScannerWidget.clear_detected detected_products
  end.

(** The list after a sequence of events, starting from the empty list of
    a new widget. *)
Definition scan_run (events : list ScanEvent) : list ScanProduct :=
  fold_left scan_step events [].

(** The request to [add_to_cart] that stands for one item of a batch. *)
Definition single_request (session_id : option string) (item : BatchItem)
  : AddRequest :=
  {| req_product_id := bi_product_id item;
     req_session_id := session_id;
     req_quantity := bi_quantity item |}.

(** The items of a batch sent one by one to [add_to_cart], in order; the
    answers are collected. *)
Fixpoint add_each (items : list BatchItem) (session_id : option string)
  : M (list (Response AddResult)) :=
  match items with
  | [] => ret []
  | item :: rest =>
      response <- Api.add_to_cart (single_request session_id item) ;;
      responses <- add_each rest session_id ;;
      ret (response :: responses)
  end.

(** The world once the session's cart has been looked at: the cart is
    created when the session had none. *)
Definition looked_at (session_id : option string) (w : World) : World :=
  snd (CartManager.get_cart session_id w).

(** * Properties *)

(** ** Properties of the session carts *)

Section CartFacts.

Import CartManager.

Implicit Types (w : World) (session_id : option string).

Lemma get_cart_existing w session_id cart :
  w_carts w !! session_key session_id = Some cart ->
  CartManager.get_cart session_id w = (cart, w).
Proof.
  intros Hc. unfold CartManager.get_cart, bind, get_carts. simpl.
  now rewrite Hc.
Qed.

Lemma get_cart_fresh w session_id :
  w_carts w !! session_key session_id = None ->
  CartManager.get_cart session_id w =
    (fresh_cart w,
     {| w_carts := <[session_key session_id := fresh_cart w]> (w_carts w);
        w_data := w_data w; w_tick := S (w_tick w);
        w_oracle := w_oracle w |}).
Proof.
  intros Hc. unfold CartManager.get_cart, bind, get_carts. simpl.
  now rewrite Hc.
Qed.

Lemma get_cart_stored w session_id cart w' :
  CartManager.get_cart session_id w = (cart, w') ->
  w_carts w' !! session_key session_id = Some cart
  /\ w_data w' = w_data w /\ w_oracle w' = w_oracle w.
Proof.
  destruct (w_carts w !! session_key session_id) as [c|] eqn:Hc.
  - rewrite (get_cart_existing _ _ _ Hc). intros [= <- <-]. auto.
  - rewrite (get_cart_fresh _ _ Hc). intros [= <- <-]. simpl.
    split; [apply lookup_insert_eq | auto].
Qed.

(** *** Grouping *)

Lemma keys_summary_add item summary :
  keys (summary_add item summary) =
    if decide (item_product_id item ∈ keys summary)
    then keys summary else keys summary ++ [item_product_id item].
Proof.
  induction summary as [|entry rest IH]; simpl.
  - reflexivity.
  - destruct (String.eqb_spec (s_product_id entry) (item_product_id item))
      as [Heq|Hne]; simpl.
    + rewrite decide_True; [reflexivity | rewrite Heq; left].
    + fold (keys rest). fold (keys (summary_add item rest)). rewrite IH.
      destruct (decide (item_product_id item ∈ keys rest)) as [Hin|Hin].
      * rewrite decide_True; [reflexivity | now right].
      * rewrite decide_False; [reflexivity |].
        intros H. apply elem_of_cons in H as [H|H]; congruence.
Qed.

Lemma quantity_of_summary_add item summary product_id :
  quantity_of product_id (summary_add item summary) =
    quantity_of product_id summary
    + (if decide (item_product_id item = product_id) then 1 else 0).
Proof.
  induction summary as [|entry rest IH]; simpl.
  - destruct (String.eqb_spec (item_product_id item) product_id);
      case_decide; congruence || lia.
  - destruct (String.eqb_spec (s_product_id entry) (item_product_id item))
      as [Heq|Hne]; simpl.
    + destruct (String.eqb_spec (s_product_id entry) product_id);
        case_decide; congruence || lia.
    + destruct (String.eqb_spec (s_product_id entry) product_id).
      * rewrite decide_False by congruence. lia.
      * apply IH.
Qed.

Lemma quantity_of_absent product_id summary :
  product_id ∉ keys summary -> quantity_of product_id summary = 0.
Proof.
  induction summary as [|entry rest IH]; simpl; [reflexivity|].
  intros Hn. apply not_elem_of_cons in Hn as [Hne Hn].
  destruct (String.eqb_spec (s_product_id entry) product_id);
    [congruence | auto].
Qed.

Lemma quantity_of_entry entry summary :
  NoDup (keys summary) -> entry ∈ summary ->
  quantity_of (s_product_id entry) summary = s_quantity entry.
Proof.
  induction summary as [|e rest IH]; simpl; intros Hnd Hin.
  - inversion Hin.
  - apply NoDup_cons in Hnd as [Hfresh Hnd].
    apply elem_of_cons in Hin as [->|Hin].
    + now rewrite String.eqb_refl.
    + destruct (String.eqb_spec (s_product_id e) (s_product_id entry))
        as [Heq|Hne]; [|auto].
      exfalso. apply Hfresh. rewrite Heq.
      apply list_elem_of_fmap. eauto.
Qed.

Lemma line_count_snoc product_id items item :
  line_count product_id (items ++ [item]) =
    (line_count product_id items
     + (if decide (item_product_id item = product_id) then 1 else 0))%nat.
Proof.
  unfold line_count. rewrite filter_app, length_app. f_equal.
  rewrite filter_cons, filter_nil. now case_decide.
Qed.

Lemma grouped_step items summary item :
  grouped items summary ->
  grouped (items ++ [item]) (summary_add item summary).
Proof.
  intros [Hnd Hk Hq]. split.
  - rewrite keys_summary_add.
    destruct (decide _) as [Hin|Hin]; [assumption|].
    apply NoDup_app. split; [assumption|]. split.
    + intros x Hx Hx'. apply list_elem_of_singleton in Hx'. congruence.
    + apply NoDup_singleton.
  - intros pid. rewrite keys_summary_add, map_app, elem_of_app. simpl.
    rewrite list_elem_of_singleton, <- Hk.
    destruct (decide _) as [Hin|Hin].
    + split; [auto | intros [H| ->]; assumption].
    + rewrite elem_of_app, list_elem_of_singleton. reflexivity.
  - intros pid. rewrite quantity_of_summary_add, line_count_snoc, Hq.
    case_decide; lia.
Qed.

Lemma grouped_fold items : forall seen summary,
  grouped seen summary ->
  grouped (seen ++ items)
    (fold_left (fun summary item => summary_add item summary) items summary).
Proof.
  induction items as [|item items IH]; intros seen summary Hg; simpl.
  - now rewrite app_nil_r.
  - replace (seen ++ item :: items) with ((seen ++ [item]) ++ items)
      by (now rewrite <- app_assoc).
    apply IH, grouped_step, Hg.
Qed.

Lemma group_items_grouped items : grouped items (group_items items).
Proof.
  apply (grouped_fold items [] []). split; simpl.
  - apply NoDup_nil_2.
  - intros pid. reflexivity.
  - intros pid. reflexivity.
Qed.

Lemma fold_summary_add_one_product product lines : forall quantity,
  Forall (line_of product) lines ->
  fold_left (fun summary item => summary_add item summary) lines
    [summary_entry product quantity]
  = [summary_entry product (quantity + Z.of_nat (length lines))].
Proof.
  induction lines as [|item lines IH]; intros quantity Hall; simpl.
  - now rewrite Z.add_0_r.
  - apply Forall_cons in Hall as [(Hid & _) Hall].
    rewrite Hid, String.eqb_refl.
    change {| s_product_id := p_id product; s_product_name := p_name product;
              s_price := p_price product; s_quantity := quantity + 1 |}
      with (summary_entry product (quantity + 1)).
    rewrite (IH _ Hall). f_equal. f_equal. lia.
Qed.

(** The lines of a single product are summarized in one entry whose
    quantity is their number. *)
Lemma group_items_one_product product lines :
  Forall (line_of product) lines -> lines <> [] ->
  group_items lines = [summary_entry product (Z.of_nat (length lines))].
Proof.
  destruct lines as [|item lines]; [congruence|]. intros Hall _.
  apply Forall_cons in Hall as [(Hid & Hname & Hprice & _) Hall].
  unfold group_items. simpl. rewrite Hid, Hname, Hprice.
  change {| s_product_id := p_id product; s_product_name := p_name product;
            s_price := p_price product; s_quantity := 1 |}
    with (summary_entry product 1).
  rewrite (fold_summary_add_one_product _ _ _ Hall). f_equal. f_equal. lia.
Qed.

(** The subtotal of [n] lines of one product is [n] times its price. *)
Lemma subtotal_one_product product lines :
  Forall (line_of product) lines -> lines <> [] ->
  (Py.sum (map Api.line_total (group_items lines))
   == p_price product * inject_Z (Z.of_nat (length lines)))%Q.
Proof.
  intros Hall Hne. rewrite (group_items_one_product _ _ Hall Hne).
  unfold Py.sum, Api.line_total. simpl. apply Qplus_0_l.
Qed.

End CartFacts.

(** ** The cart summary *)

Section SummaryFacts.

Import CartManager.

Lemma summary_of_aggregates (cart : Cart) :
  let summary := summary_of cart in
  let lines := cart_items cart in
  NoDup (map s_product_id (sum_items summary))
  /\ (forall pid, pid ∈ map s_product_id (sum_items summary)
                  <-> pid ∈ map item_product_id lines)
  /\ (forall entry, entry ∈ sum_items summary ->
        s_quantity entry = Z.of_nat (line_count (s_product_id entry) lines))
  /\ sum_total_items summary = length lines
  /\ sum_unique_items summary =
       length (remove_dups (map item_product_id lines)).
Proof.
  destruct (group_items_grouped (cart_items cart)) as [Hnd Hk Hq].
  simpl. repeat split.
  - exact Hnd.
  - apply Hk.
  - apply Hk.
  - intros entry Hin. rewrite <- Hq. symmetry.
    now apply quantity_of_entry.
  - rewrite <- (length_map s_product_id).
    apply Permutation_length, NoDup_Permutation.
    + exact Hnd.
    + apply NoDup_remove_dups.
    + intros pid. rewrite elem_of_remove_dups. apply Hk.
Qed.

(** C9. The cart summary is recomputed from the cart lines: a second
    call right after a first one returns the same summary and changes
    nothing; the first call leaves a cart that exists untouched; the
    summary has one entry per distinct product id, the quantity of an
    entry is the number of cart lines of its product, [total_items] is
    the number of lines and [unique_items] the number of distinct
    product ids. *)
Theorem summary_is_a_derived_view (w : World) (session_id : option string) :
  let '(first, w1) := get_summary session_id w in
  let '(second, w2) := get_summary session_id w1 in
  second = first /\ w2 = w1
  /\ (is_Some (w_carts w !! session_key session_id) -> w1 = w)
  /\ exists cart,
       w_carts w1 !! session_key session_id = Some cart
       /\ NoDup (map s_product_id (sum_items first))
       /\ (forall pid, pid ∈ map s_product_id (sum_items first)
                       <-> pid ∈ map item_product_id (cart_items cart))
       /\ (forall entry, entry ∈ sum_items first ->
             s_quantity entry
             = Z.of_nat (line_count (s_product_id entry) (cart_items cart)))
       /\ sum_total_items first = length (cart_items cart)
       /\ sum_unique_items first
          = length (remove_dups (map item_product_id (cart_items cart))).
Proof.
  unfold get_summary, bind, ret.
  destruct (CartManager.get_cart session_id w) as [cart w1] eqn:H1.
  destruct (get_cart_stored _ _ _ _ H1) as (Hstored & _ & _).
  rewrite (get_cart_existing _ _ _ Hstored).
  split; [reflexivity|]. split; [reflexivity|]. split.
  - intros [c Hc]. rewrite (get_cart_existing _ _ _ Hc) in H1.
    now injection H1 as _ <-.
  - exists cart. split; [exact Hstored|].
    apply (summary_of_aggregates cart).
Qed.

Lemma summary_is_a_derived_view_witness :
  let w := world_with_cart [cola_line "a"; cola_line "b"] [cola] in
  let '(first, w1) := get_summary None w in
  let '(second, w2) := get_summary None w1 in
  second = first /\ w2 = w1 /\ w1 = w.
Proof.
  intros w. pose proof (summary_is_a_derived_view w None) as H.
  destruct (get_summary None w) as [first w1].
  destruct (get_summary None w1) as [second w2].
  destruct H as (Hsame & Hworld & Hkeep & _).
  split; [exact Hsame|]. split; [exact Hworld|].
  apply Hkeep. eexists. reflexivity.
Defined.

(** C10. Reading the cart of a session that has no cart yet creates an
    empty cart for it and answers the empty summary. The handler has no
    error answer: in every state and for every session id it answers the
    summary of the cart that the session has afterwards. A missing or
    empty session id reads the cart of the default session. *)
Theorem get_cart_of_unseen_session (w : World) (session_id : option string) :
  w_carts w !! session_key session_id = None ->
  let '(summary, w') := Api.get_cart session_id w in
  sum_items summary = [] /\ sum_total_items summary = 0%nat
  /\ sum_unique_items summary = 0%nat
  /\ w_carts w' = <[session_key session_id := fresh_cart w]> (w_carts w)
  /\ cart_items (fresh_cart w) = []
  /\ w_data w' = w_data w
  /\ session_key None = "default" /\ session_key (Some "") = "default"
  /\ forall v sid,
       exists cart,
         w_carts (snd (Api.get_cart sid v)) !! session_key sid = Some cart
         /\ fst (Api.get_cart sid v) = summary_of cart.
Proof.
  intros Hnone. unfold Api.get_cart, get_summary, bind, ret.
  rewrite (get_cart_fresh _ _ Hnone). simpl. repeat split.
  intros v sid.
  destruct (CartManager.get_cart sid v) as [cart v'] eqn:Hget.
  exists cart. split; [|reflexivity].
  now destruct (get_cart_stored _ _ _ _ Hget).
Qed.

End SummaryFacts.

Lemma get_cart_of_unseen_session_witness :
  let '(summary, w') := Api.get_cart (Some "till-7") (sample_world [cola]) in
  sum_items summary = [] /\ sum_total_items summary = 0%nat
  /\ sum_unique_items summary = 0%nat
  /\ w_carts w' =
       <[CartManager.session_key (Some "till-7")
           := fresh_cart (sample_world [cola])]> (w_carts (sample_world [cola]))
  /\ cart_items (fresh_cart (sample_world [cola])) = []
  /\ w_data w' = w_data (sample_world [cola])
  /\ CartManager.session_key None = "default"
  /\ CartManager.session_key (Some "") = "default"
  /\ forall v sid,
       exists cart,
         w_carts (snd (Api.get_cart sid v)) !! CartManager.session_key sid
           = Some cart
         /\ fst (Api.get_cart sid v) = CartManager.summary_of cart.
Proof.
  apply (get_cart_of_unseen_session (sample_world [cola]) (Some "till-7")).
  reflexivity.
Defined.

(** ** Adding lines *)

Section AddFacts.

Import CartManager.

Implicit Types (w : World) (session_id : option string).

Lemma same_elsewhere_refl session_id w : same_elsewhere session_id w w.
Proof. repeat split. Qed.

Lemma same_elsewhere_trans session_id w1 w2 w3 :
  same_elsewhere session_id w1 w2 -> same_elsewhere session_id w2 w3 ->
  same_elsewhere session_id w1 w3.
Proof.
  intros (Hd & Ho & Hc) (Hd' & Ho' & Hc'). repeat split; try congruence.
  intros key Hk. rewrite Hc', Hc; auto.
Qed.

Lemma add_item_spec w product session_id :
  let '(item, w') := add_item product session_id w in
  line_of product item
  /\ lines_of w' session_id = lines_of w session_id ++ [item]
  /\ same_elsewhere session_id w w'.
Proof.
  unfold add_item, bind, lines_of.
  destruct (w_carts w !! session_key session_id) as [cart|] eqn:Hc.
  - rewrite (get_cart_existing _ _ _ Hc). simpl.
    rewrite lookup_insert_eq. simpl. repeat split.
    intros key Hk. simpl. now rewrite lookup_insert_ne.
  - rewrite (get_cart_fresh _ _ Hc). simpl.
    rewrite lookup_insert_eq. simpl. repeat split.
    intros key Hk. simpl.
    rewrite !lookup_insert_ne by congruence. reflexivity.
Qed.

Lemma add_items_spec n product session_id : forall w,
  let '(added, w') := Api.add_items n product session_id w in
  length added = n
  /\ Forall (line_of product) added
  /\ lines_of w' session_id = lines_of w session_id ++ added
  /\ same_elsewhere session_id w w'.
Proof.
  induction n as [|n IH]; intros w; simpl.
  - unfold ret. rewrite app_nil_r. repeat split. constructor.
  - unfold bind.
    pose proof (add_item_spec w product session_id) as Hitem.
    destruct (add_item product session_id w) as [item w1].
    destruct Hitem as (Hline & Hlines & Hsame).
    specialize (IH w1).
    destruct (Api.add_items n product session_id w1) as [rest w2].
    destruct IH as (Hlen & Hall & Hlines' & Hsame').
    unfold ret. simpl. repeat split.
    + now rewrite Hlen.
    + now constructor.
    + rewrite Hlines', Hlines, <- app_assoc. reflexivity.
    + apply (same_elsewhere_trans _ _ _ _ Hsame Hsame').
    + apply (same_elsewhere_trans _ _ _ _ Hsame Hsame').
    + apply (same_elsewhere_trans _ _ _ _ Hsame Hsame').
Qed.

Lemma get_summary_spec w session_id :
  let '(summary, w') := get_summary session_id w in
  lines_of w' session_id = lines_of w session_id
  /\ same_elsewhere session_id w w'
  /\ sum_items summary = group_items (lines_of w session_id)
  /\ sum_total_items summary = length (lines_of w session_id).
Proof.
  unfold get_summary, bind, ret, lines_of.
  destruct (w_carts w !! session_key session_id) as [cart|] eqn:Hc.
  - rewrite (get_cart_existing _ _ _ Hc). rewrite Hc. repeat split.
  - rewrite (get_cart_fresh _ _ Hc). simpl. rewrite lookup_insert_eq.
    repeat split. intros key Hk. simpl. now rewrite lookup_insert_ne.
Qed.

(** C4 (amended). When the product resolved for an add-to-cart request has less
    stock than the requested quantity, the request is answered with
    status 400 and an insufficient-stock error carrying the available
    and the requested quantity, and nothing changes, the carts
    included. Otherwise the request succeeds: [range(quantity)] cart
    lines, each a copy of the product, are appended to the session's
    cart in this order and returned, that is exactly [quantity] lines
    for a quantity that is not negative; the store and the other
    sessions are left alone. *)
Theorem add_to_cart_checks_stock (w : World) (item_data : AddRequest)
    (product : Product) :
  Api.get_product_flexible (w_data w) (req_product_id item_data)
    = Some product ->
  let quantity := default 1 (req_quantity item_data) in
  let session_id := req_session_id item_data in
  let '(response, w') := Api.add_to_cart item_data w in
  if decide (quantity > p_stock product) then
    response =
      JSONResponse 400
        {| err_error := "Insufficient stock for " +:+ p_name product;
           err_available := Some (p_stock product);
           err_requested := Some quantity |}
    /\ w' = w
  else
    exists result,
      response = Ok200 result
      /\ add_success result = true
      /\ length (add_items_added result) = Z.to_nat quantity
      /\ (0 <= quantity ->
          Z.of_nat (length (add_items_added result)) = quantity)
      /\ Forall (line_of product) (add_items_added result)
      /\ lines_of w' session_id
         = lines_of w session_id ++ add_items_added result
      /\ sum_total_items (add_cart_summary result)
         = length (lines_of w' session_id)
      /\ same_elsewhere session_id w w'.
Proof.
  intros Hfound. cbv zeta. unfold Api.add_to_cart.
  unfold bind at 1. unfold read_db at 1. rewrite Hfound.
  set (quantity := default 1 (req_quantity item_data)).
  set (session_id := req_session_id item_data).
  destruct (decide (quantity > p_stock product)) as [Hgt|Hle].
  - replace (p_stock product <? quantity) with true
      by (symmetry; apply Z.ltb_lt; lia).
    split; reflexivity.
  - replace (p_stock product <? quantity) with false
      by (symmetry; apply Z.ltb_ge; lia).
    unfold bind.
    pose proof (add_items_spec (Py.range_len quantity) product session_id w)
      as Hadd.
    destruct (Api.add_items (Py.range_len quantity) product session_id w)
      as [added w1].
    destruct Hadd as (Hlen & Hall & Hlines & Hsame).
    pose proof (get_summary_spec w1 session_id) as Hsum.
    destruct (get_summary session_id w1) as [summary w2].
    destruct Hsum as (Hlines' & Hsame' & _ & Htotal).
    unfold ret. eexists. split; [reflexivity|]. simpl.
    split; [reflexivity|]. split; [exact Hlen|]. split.
    { intros Hq. rewrite Hlen. unfold Py.range_len. lia. }
    split; [exact Hall|]. split; [congruence|]. split; [congruence|].
    apply (same_elsewhere_trans _ _ _ _ Hsame Hsame').
Qed.

Lemma add_to_cart_checks_stock_witness :
  exists result w',
    Api.add_to_cart
      {| req_product_id := "cola-can"; req_session_id := None;
         req_quantity := Some 3 |} (sample_world [cola])
    = (Ok200 result, w')
    /\ Z.of_nat (length (add_items_added result)) = 3
    /\ length (lines_of w' None) = 3%nat.
Proof.
  pose proof (add_to_cart_checks_stock (sample_world [cola])
    {| req_product_id := "cola-can"; req_session_id := None;
       req_quantity := Some 3 |} cola eq_refl) as H.
  cbv zeta in H.
  destruct (Api.add_to_cart _ _) as [response w'].
  destruct (decide _) as [Hgt|_]; [vm_compute in Hgt; discriminate|].
  destruct H as (result & -> & _ & _ & Hn & _ & Hlines & _).
  simpl in Hn, Hlines.
  exists result, w'. split; [reflexivity|]. split; [apply Hn; lia|].
  rewrite Hlines, length_app.
  apply Nat2Z.inj. rewrite Nat2Z.inj_add, Hn by lia. reflexivity.
Defined.

(** C4 as stated fails for a requested quantity below zero: the request
    for -1 units of a product that is in stock is not rejected, it is
    answered with status 200 and "Added -1x Cola to cart", and it
    appends and returns no line, which is not -1 lines. *)
Lemma negative_quantity_adds_no_line :
  let request :=
    {| req_product_id := "cola-can"; req_session_id := None;
       req_quantity := Some (-1) |} in
  let '(response, w') := Api.add_to_cart request (sample_world [cola]) in
  exists result,
    response = Ok200 result
    /\ add_success result = true
    /\ add_message result = "Added -1x Cola to cart"
    /\ add_items_added result = []
    /\ lines_of w' None = []
    /\ Z.of_nat (length (add_items_added result)) <> -1.
Proof.
  vm_compute. eexists. split; [reflexivity|]. repeat split. discriminate.
Qed.

End AddFacts.

(** ** Batch add *)

Section BatchFacts.

Import CartManager.

Lemma line_ids_of_product product added :
  Forall (line_of product) added ->
  map item_product_id added = replicate (length added) (p_id product).
Proof.
  induction 1 as [|item rest (Hid & _) _ IH]; simpl; [reflexivity|].
  now rewrite Hid, IH.
Qed.

Lemma batch_loop_spec items session_id : forall w results errors,
  let verdicts := map (verdict (w_data w)) items in
  let '((results', errors'), w') :=
    Api.batch_loop items session_id results errors w in
  errors' = errors ++ omap rejection verdicts
  /\ (exists added,
        results' = results ++ added
        /\ lines_of w' session_id = lines_of w session_id ++ added
        /\ map item_product_id added = concat (map accepted_ids verdicts))
  /\ same_elsewhere session_id w w'.
Proof.
  induction items as [|item rest IH]; intros w results errors; simpl.
  - unfold ret. rewrite !app_nil_r. split; [reflexivity|]. split.
    + exists []. now rewrite !app_nil_r.
    + apply same_elsewhere_refl.
  - unfold bind at 1. unfold read_db at 1.
    remember (verdict (w_data w) item) as v eqn:Hv. unfold verdict in Hv.
    destruct (Api.get_product_flexible (w_data w) (bi_product_id item))
      as [product|].
    + destruct (p_stock product <? default 1 (bi_quantity item)); subst v.
      * specialize (IH w results
          (errors ++ ["Insufficient stock for " +:+ p_name product])).
        destruct (Api.batch_loop rest session_id results _ w)
          as [[results' errors'] w'].
        destruct IH as (-> & Hadded & Hsame). simpl.
        split; [now rewrite <- app_assoc|]. split; assumption.
      * unfold bind.
        pose proof (add_items_spec
          (Py.range_len (default 1 (bi_quantity item))) product
          session_id w) as Hadd.
        destruct (Api.add_items _ product session_id w) as [added w1].
        destruct Hadd as (Hlen & Hall & Hlines & Hsame).
        specialize (IH w1 (results ++ added) errors).
        destruct (Api.batch_loop rest session_id (results ++ added) errors w1)
          as [[results' errors'] w'].
        destruct Hsame as (Hd & Ho & Hc).
        rewrite Hd in IH.
        destruct IH as (-> & (more & -> & Hlines' & Hids) & Hsame').
        simpl. split; [reflexivity|]. split.
        -- exists (added ++ more). rewrite !app_assoc. split; [reflexivity|].
           split; [now rewrite Hlines', Hlines|].
           rewrite map_app, Hids. f_equal.
           rewrite (line_ids_of_product _ _ Hall), Hlen. reflexivity.
        -- apply (same_elsewhere_trans _ w w1 w'); [|exact Hsame'].
           repeat split; assumption.
    + subst v. specialize (IH w results
        (errors ++ ["Product " +:+ bi_product_id item +:+ " not found"])).
      destruct (Api.batch_loop rest session_id results _ w)
        as [[results' errors'] w'].
      destruct IH as (-> & Hadded & Hsame). simpl.
      split; [now rewrite <- app_assoc|]. split; assumption.
Qed.

(** C5. A batch is handled item by item. The fate of an item depends on
    the store and on that item alone: an item whose product is not
    found or whose stock is insufficient yields one error string and no
    line, every other item yields its lines, whatever happens to the
    items around it. The answer carries the error strings in the order
    of the items, the number of lines added, and [success], which is
    true exactly when at least one line was added. *)
Theorem add_batch_is_best_effort (w : World) (batch_data : BatchRequest) :
  let session_id := breq_session_id batch_data in
  let verdicts := map (verdict (w_data w)) (breq_items batch_data) in
  let '(result, w') := Api.add_batch_to_cart batch_data w in
  batch_errors result = omap rejection verdicts
  /\ (exists added,
        lines_of w' session_id = lines_of w session_id ++ added
        /\ map item_product_id added = concat (map accepted_ids verdicts)
        /\ batch_items_added result = length added)
  /\ (batch_success result = true <-> (0 < batch_items_added result)%nat)
  /\ same_elsewhere session_id w w'.
Proof.
  cbv zeta. unfold Api.add_batch_to_cart, bind.
  pose proof (batch_loop_spec (breq_items batch_data)
                (breq_session_id batch_data) w [] []) as Hloop.
  cbv zeta in Hloop.
  destruct (Api.batch_loop _ _ [] [] w) as [[results errors] w1].
  destruct Hloop as (-> & (added & -> & Hlines & Hids) & Hsame).
  pose proof (get_summary_spec w1 (breq_session_id batch_data)) as Hsum.
  destruct (get_summary (breq_session_id batch_data) w1) as [summary w2].
  destruct Hsum as (Hlines' & Hsame' & _).
  unfold ret. simpl. split; [reflexivity|]. split.
  - exists added. split; [congruence|]. split; [exact Hids|reflexivity].
  - split.
    + destruct added; simpl; split; (lia || discriminate || reflexivity).
    + apply (same_elsewhere_trans _ _ _ _ Hsame Hsame').
Qed.

End BatchFacts.

(** ** Checkout and confirmation *)

Section PaymentFacts.

Import JsonDatabase CartManager.

Implicit Types (w : World) (data : Data) (products : list Product).

Lemma find_product_decrement_stock item product_id products :
  find_product product_id (decrement_stock item products) =
    settle item product_id <$> find_product product_id products.
Proof.
  unfold settle.
  induction products as [|p rest IH]; simpl; [reflexivity|].
  destruct (String.eqb_spec (p_id p) (pi_product_id item)) as [Hitem|Hitem];
    simpl.
  - destruct (String.eqb_spec (p_id p) product_id) as [Hpid|Hpid].
    + replace (String.eqb product_id (pi_product_id item)) with true
        by (symmetry; apply String.eqb_eq; congruence).
      simpl. destruct (p_stock p >=? pi_quantity item); simpl;
        rewrite ?Hpid, String.eqb_refl; reflexivity.
    + assert (Hkeep : String.eqb
                (p_id (if p_stock p >=? pi_quantity item
                       then set_stock p (p_stock p - pi_quantity item)
                       else p)) product_id = false).
      { destruct (p_stock p >=? pi_quantity item); simpl;
          now apply String.eqb_neq. }
      rewrite Hkeep.
      destruct (find_product product_id rest) as [q|]; simpl; [|reflexivity].
      replace (String.eqb product_id (pi_product_id item)) with false;
        [reflexivity|].
      symmetry. apply String.eqb_neq. congruence.
  - destruct (String.eqb_spec (p_id p) product_id) as [Hpid|Hpid]; simpl.
    + replace (String.eqb product_id (pi_product_id item)) with false;
        [reflexivity|].
      symmetry. apply String.eqb_neq. congruence.
    + exact IH.
Qed.

Lemma settle_other item product_id p :
  product_id <> pi_product_id item -> settle item product_id p = p.
Proof.
  intros Hne. unfold settle.
  now replace (String.eqb product_id (pi_product_id item)) with false
    by (symmetry; now apply String.eqb_neq).
Qed.

Lemma settle_stock item p :
  p_stock (settle item (pi_product_id item) p)
  = stock_after (pi_quantity item) (p_stock p).
Proof.
  unfold settle, stock_after. rewrite String.eqb_refl. simpl.
  now destruct (p_stock p >=? pi_quantity item).
Qed.

Lemma find_product_decrement_all_other product_id items : forall products,
  product_id ∉ map pi_product_id items ->
  find_product product_id (decrement_all items products)
  = find_product product_id products.
Proof.
  induction items as [|item rest IH]; intros products Hn; simpl;
    [reflexivity|].
  apply not_elem_of_cons in Hn as [Hne Hn].
  unfold decrement_all in IH. rewrite (IH _ Hn).
  rewrite find_product_decrement_stock.
  destruct (find_product product_id products) as [p|]; simpl; [|reflexivity].
  now rewrite settle_other.
Qed.

(** A payment line whose product id occurs once among the lines
    settles the first catalog entry of that id, once. *)
Lemma find_product_decrement_all item items : forall products,
  NoDup (map pi_product_id items) -> item ∈ items ->
  find_product (pi_product_id item) (decrement_all items products)
  = settle item (pi_product_id item)
      <$> find_product (pi_product_id item) products.
Proof.
  induction items as [|first rest IH]; intros products Hnd Hin; simpl.
  - now apply elem_of_nil in Hin.
  - apply NoDup_cons in Hnd as [Hfresh Hnd].
    apply elem_of_cons in Hin as [->|Hin].
    + fold (decrement_all rest (decrement_stock first products)).
      rewrite find_product_decrement_all_other by exact Hfresh.
      apply find_product_decrement_stock.
    + fold (decrement_all rest (decrement_stock first products)).
      rewrite (IH _ Hnd Hin), find_product_decrement_stock.
      destruct (find_product (pi_product_id item) products) as [p|];
        simpl; [|reflexivity].
      rewrite (settle_other first); [reflexivity|].
      intros Heq. apply Hfresh. rewrite <- Heq.
      apply list_elem_of_fmap. eauto.
Qed.

Lemma stock_of_confirmed entry summary products :
  NoDup (keys summary) -> entry ∈ summary ->
  p_stock <$> find_product (s_product_id entry)
                (decrement_all (map Api.payment_item summary) products)
  = stock_after (s_quantity entry)
      <$> (p_stock <$> find_product (s_product_id entry) products).
Proof.
  intros Hnd Hin.
  pose proof (find_product_decrement_all (Api.payment_item entry)
                (map Api.payment_item summary) products) as H.
  simpl in H. rewrite H.
  - destruct (find_product (s_product_id entry) products) as [p|]; simpl;
      [|reflexivity].
    f_equal. apply (settle_stock (Api.payment_item entry)).
  - rewrite <- list_fmap_compose. exact Hnd.
  - apply list_elem_of_fmap. eauto.
Qed.

(** The payment that checking out [cart] in world [w] creates. *)
Lemma checkout_cart_spec w checkout_data cart :
  let session_id :=
    match checkout_data with Some d => co_session_id d | None => None end in
  w_carts w !! session_key session_id = Some cart ->
  cart_items cart <> [] ->
  exists w',
    Api.checkout_cart checkout_data w
      = (Ok200 (pending_payment_of w session_id cart), w')
    /\ w_data w'
       = add_pending_payment (o_uuid4 (w_oracle w) (w_tick w))
           (pending_payment_of w session_id cart) (w_data w)
    /\ lines_of w' session_id = []
    /\ w_oracle w' = w_oracle w.
Proof.
  intros session_id Hc Hne.
  unfold Api.checkout_cart, get_summary, clear_cart, store_cart,
    CartManager.get_cart.
  unfold_state.
  fold session_id. simpl. rewrite Hc. simpl.
  destruct (cart_items cart) as [|line lines] eqn:Hitems; [congruence|].
  simpl. rewrite ?Hc. eexists.
  unfold pending_payment_of, summary_of, lines_of. rewrite Hitems. simpl.
  repeat split. cbn [w_carts]. now rewrite lookup_insert_eq.
Qed.

Lemma confirm_payment_spec w payment_id pending :
  d_pending_payments (w_data w) !! payment_id = Some pending ->
  pay_status pending = "pending" ->
  let stamp := o_strftime (w_oracle w) (w_tick w) in
  let now := o_isoformat (w_oracle w) (S (w_tick w)) in
  exists w',
    Api.confirm_payment payment_id w
      = (Ok200 (fst (complete_payment payment_id pending stamp now (w_data w))),
         w')
    /\ w_data w' = snd (complete_payment payment_id pending stamp now (w_data w))
    /\ w_carts w' = w_carts w.
Proof.
  intros Hp Hs. cbv zeta.
  unfold Api.confirm_payment, process_pending_payment, get_pending_payment.
  unfold_state.
  rewrite Hp, Hs. simpl. rewrite Hp, Hs. simpl.
  eexists. repeat split.
Qed.

End PaymentFacts.

Section RoundTrip.

Import JsonDatabase CartManager.

(** C1 (amended). Checking out a session whose cart has lines creates a
    pending payment: its subtotal is the sum of price times quantity
    over the summary items, its tax is the subtotal times the
    configured tax rate (0.07 when none is configured), its total is
    subtotal plus tax and its status is pending; the stock is not
    touched. Confirming that payment appends exactly one sale, whose
    subtotal, tax and total are those of the payment, and for every
    summary item the stock of its product drops by the item's quantity
    when the stock is at least that quantity and stays as it is
    otherwise. *)
Theorem checkout_then_confirm (w : World)
    (checkout_data : option CheckoutRequest) (cart : Cart) :
  let session_id :=
    match checkout_data with Some d => co_session_id d | None => None end in
  w_carts w !! session_key session_id = Some cart ->
  cart_items cart <> [] ->
  let summary := summary_of cart in
  exists pending w1 sale w2,
    Api.checkout_cart checkout_data w = (Ok200 pending, w1)
    /\ pay_subtotal pending = Py.sum (map Api.line_total (sum_items summary))
    /\ (forall item, Api.line_total item
                     = (s_price item * inject_Z (s_quantity item))%Q)
    /\ pay_tax pending
       = (pay_subtotal pending
          * default (7 # 100) (set_tax_rate (d_settings (w_data w))))%Q
    /\ pay_total pending = (pay_subtotal pending + pay_tax pending)%Q
    /\ pay_status pending = "pending"
    /\ d_products (w_data w1) = d_products (w_data w)
    /\ Api.confirm_payment (pay_payment_id pending) w1 = (Ok200 sale, w2)
    /\ sale_subtotal sale = pay_subtotal pending
    /\ sale_tax sale = pay_tax pending
    /\ sale_total sale = pay_total pending
    /\ d_sales (w_data w2) = d_sales (w_data w) ++ [sale]
    /\ forall entry, entry ∈ sum_items summary ->
         stock_of (s_product_id entry) (w_data w2)
         = stock_after (s_quantity entry)
             <$> stock_of (s_product_id entry) (w_data w).
Proof.
  intros session_id Hc Hne summary.
  destruct (checkout_cart_spec w checkout_data cart Hc Hne)
    as (w1 & Hcheckout & Hdata & _ & Horacle).
  fold session_id in Hcheckout, Hdata.
  set (pending := pending_payment_of w session_id cart) in *.
  assert (Hstored : d_pending_payments (w_data w1)
                      !! pay_payment_id pending = Some pending).
  { rewrite Hdata. simpl. apply lookup_insert_eq. }
  destruct (confirm_payment_spec w1 (pay_payment_id pending) pending
              Hstored eq_refl) as (w2 & Hconfirm & Hdata' & _).
  eexists pending, w1, _, w2.
  split; [exact Hcheckout|]. split; [reflexivity|].
  split; [reflexivity|]. split; [reflexivity|]. split; [reflexivity|].
  split; [reflexivity|]. split; [now rewrite Hdata|].
  split; [exact Hconfirm|]. split; [reflexivity|].
  split; [reflexivity|]. split; [reflexivity|]. split.
  - rewrite Hdata', Hdata. reflexivity.
  - intros entry Hin. unfold stock_of, get_product, get_products.
    rewrite Hdata', Hdata. simpl.
    apply stock_of_confirmed; [|exact Hin].
    apply (group_items_grouped (cart_items cart)).
Qed.

Lemma checkout_then_confirm_witness :
  exists pending w1 sale w2,
    Api.checkout_cart None
      (world_with_cart [cola_line "a"; cola_line "b"; cola_line "c"] [cola])
      = (Ok200 pending, w1)
    /\ pay_subtotal pending = Py.sum [(14 * inject_Z 3)%Q]
    /\ Api.confirm_payment (pay_payment_id pending) w1 = (Ok200 sale, w2)
    /\ sale_total sale = pay_total pending
    /\ stock_of "cola-can" (w_data w2) = Some 2.
Proof.
  destruct (checkout_then_confirm
              (world_with_cart [cola_line "a"; cola_line "b"; cola_line "c"]
                 [cola])
              None
              (cart_with [cola_line "a"; cola_line "b"; cola_line "c"])
              eq_refl ltac:(discriminate))
    as (pending & w1 & sale & w2 & Hcheckout & Hsub & _ & _ & _ & _ & _
        & Hconfirm & _ & _ & Htotal & _ & Hstock).
  exists pending, w1, sale, w2.
  split; [exact Hcheckout|]. split; [exact Hsub|].
  split; [exact Hconfirm|]. split; [exact Htotal|].
  apply (Hstock {| s_product_id := "cola-can"; s_product_name := "Cola";
                   s_price := 14; s_quantity := 3 |}).
  apply list_elem_of_here.
Defined.

(** C1 as stated fails: a product with one unit in stock can be added
    twice, one unit per request; the payment of the two lines is
    confirmed and the sale recorded, yet the stock is not decremented
    by two, it stays at one. *)
Lemma confirm_skips_the_decrement :
  let w0 := sample_world [product "cola-can" "Cola" 14 1] in
  let '(_, w1) := Api.add_to_cart add_one_cola w0 in
  let '(_, w2) := Api.add_to_cart add_one_cola w1 in
  let '(checkout, w3) := Api.checkout_cart None w2 in
  exists pending,
    checkout = Ok200 pending
    /\ map pi_quantity (pay_items pending) = [2]
    /\ let '(confirmation, w4) :=
         Api.confirm_payment (pay_payment_id pending) w3 in
       (exists sale, confirmation = Ok200 sale)
       /\ length (d_sales (w_data w4)) = 1%nat
       /\ stock_of "cola-can" (w_data w3) = Some 1
       /\ stock_of "cola-can" (w_data w4) = Some 1
       /\ stock_of "cola-can" (w_data w4)
          <> (fun stock => stock - 2) <$> stock_of "cola-can" (w_data w3).
Proof.
  vm_compute. eexists. split; [reflexivity|]. split; [reflexivity|].
  split; [eexists; reflexivity|]. repeat split. discriminate.
Qed.

End RoundTrip.

(** ** Double confirmation *)

Section ConfirmFacts.

Import JsonDatabase CartManager.

Lemma confirm_payment_settled (w : World) (payment_id : string)
    (payment : Payment) :
  d_pending_payments (w_data w) !! payment_id = Some payment ->
  pay_status payment <> "pending" ->
  Api.confirm_payment payment_id w
  = (JSONResponse 400 (error_only "Payment already processed"), w).
Proof.
  intros Hp Hs. unfold Api.confirm_payment, bind, read_db, ret,
    get_pending_payment.
  rewrite Hp.
  now replace (String.eqb (pay_status payment) "pending") with false
    by (symmetry; now apply String.eqb_neq).
Qed.

Lemma confirm_payment_unknown (w : World) (payment_id : string) :
  d_pending_payments (w_data w) !! payment_id = None ->
  Api.confirm_payment payment_id w
  = (JSONResponse 404 (error_only "Payment not found"), w).
Proof.
  intros Hp. unfold Api.confirm_payment, bind, read_db, ret,
    get_pending_payment.
  now rewrite Hp.
Qed.

Lemma confirm_payment_completes (w w' : World) (payment_id : string)
    (sale : Sale) :
  Api.confirm_payment payment_id w = (Ok200 sale, w') ->
  exists payment,
    d_pending_payments (w_data w) !! payment_id = Some payment
    /\ pay_status payment = "pending"
    /\ d_pending_payments (w_data w') !! payment_id
       = Some (set_status payment "completed").
Proof.
  destruct (d_pending_payments (w_data w) !! payment_id) as [payment|] eqn:Hp.
  - destruct (String.eqb_spec (pay_status payment) "pending") as [Hs|Hs].
    + destruct (confirm_payment_spec w payment_id payment Hp Hs)
        as (w1 & -> & Hdata & _).
      intros [= _ <-]. exists payment. split; [reflexivity|].
      split; [exact Hs|]. rewrite Hdata. simpl. apply lookup_insert_eq.
    + now rewrite (confirm_payment_settled w payment_id payment Hp Hs).
  - now rewrite (confirm_payment_unknown w payment_id Hp).
Qed.

(** C2. Once a confirmation of a payment has succeeded, confirming the
    same payment again is answered with status 400 and the error
    "Payment already processed", and leaves the whole state as it is:
    no stock is decremented and no sale is appended. The same holds in
    any state in which the stored payment is completed. A payment id
    that is not stored is answered otherwise, with status 404 and the
    error "Payment not found". *)
Theorem second_confirmation_is_rejected (w w' : World) (payment_id : string)
    (sale : Sale) :
  Api.confirm_payment payment_id w = (Ok200 sale, w') ->
  Api.confirm_payment payment_id w'
    = (JSONResponse 400 (error_only "Payment already processed"), w')
  /\ d_products (w_data (snd (Api.confirm_payment payment_id w')))
     = d_products (w_data w')
  /\ d_sales (w_data (snd (Api.confirm_payment payment_id w')))
     = d_sales (w_data w')
  /\ (forall v payment,
        d_pending_payments (w_data v) !! payment_id = Some payment ->
        pay_status payment = "completed" ->
        Api.confirm_payment payment_id v
        = (JSONResponse 400 (error_only "Payment already processed"), v))
  /\ (forall v,
        d_pending_payments (w_data v) !! payment_id = None ->
        Api.confirm_payment payment_id v
        = (JSONResponse 404 (error_only "Payment not found"), v))
  /\ @JSONResponse Sale 400 (error_only "Payment already processed")
     <> JSONResponse 404 (error_only "Payment not found").
Proof.
  intros Hfirst.
  destruct (confirm_payment_completes _ _ _ _ Hfirst)
    as (payment & _ & _ & Hdone).
  assert (Hagain : Api.confirm_payment payment_id w'
            = (JSONResponse 400 (error_only "Payment already processed"), w')).
  { apply (confirm_payment_settled _ _ _ Hdone). discriminate. }
  rewrite Hagain. repeat split.
  - intros v payment' Hp Hs. apply (confirm_payment_settled _ _ _ Hp).
    rewrite Hs. discriminate.
  - intros v. apply confirm_payment_unknown.
  - discriminate.
Qed.

Lemma second_confirmation_is_rejected_witness :
  let w :=
    snd (Api.checkout_cart None
           (world_with_cart [cola_line "a"; cola_line "b"] [cola])) in
  exists sale w',
    Api.confirm_payment "uuid-0" w = (Ok200 sale, w')
    /\ Api.confirm_payment "uuid-0" w'
       = (JSONResponse 400 (error_only "Payment already processed"), w').
Proof.
  intros w.
  destruct (Api.confirm_payment "uuid-0" w) as [response w'] eqn:Hfirst.
  assert (Hok : exists sale, response = Ok200 sale).
  { apply (f_equal fst) in Hfirst. vm_compute in Hfirst. subst response.
    eexists. reflexivity. }
  destruct Hok as [sale ->].
  exists sale, w'. split; [reflexivity|].
  apply (second_confirmation_is_rejected w w' "uuid-0" sale Hfirst).
Defined.

End ConfirmFacts.

(** ** The stock ledger *)

Section StockFacts.

Import JsonDatabase CartManager.

Lemma decrement_stock_nonnegative item products :
  stock_nonnegative products ->
  stock_nonnegative (decrement_stock item products).
Proof.
  unfold stock_nonnegative.
  induction 1 as [|p rest Hp Hrest IH]; simpl; [constructor|].
  destruct (String.eqb (p_id p) (pi_product_id item)).
  - constructor; [|exact Hrest].
    destruct (Z.geb_spec (p_stock p) (pi_quantity item)); simpl; lia.
  - constructor; assumption.
Qed.

Lemma decrement_all_nonnegative items : forall products,
  stock_nonnegative products ->
  stock_nonnegative (decrement_all items products).
Proof.
  induction items as [|item rest IH]; intros products Hp; simpl;
    [exact Hp|].
  apply IH, decrement_stock_nonnegative, Hp.
Qed.

(** [update_stock] keeps the stock from going below zero when it
    subtracts, and when it adds a quantity that is not negative. *)
Lemma update_stock_nonnegative product_id quantity operation data :
  operation = "subtract" \/ 0 <= quantity ->
  stock_nonnegative (d_products data) ->
  stock_nonnegative
    (d_products (snd (update_stock product_id quantity operation data))).
Proof.
  intros Hop Hp. unfold update_stock.
  destruct (update_stock_in product_id quantity operation (d_products data))
    as [products|] eqn:Hu; simpl; [|exact Hp].
  revert products Hu. unfold stock_nonnegative in *.
  induction Hp as [|p rest Hp Hrest IH]; intros products Hu; simpl in Hu;
    [discriminate|].
  destruct (String.eqb (p_id p) product_id).
  - destruct (String.eqb_spec operation "add") as [Hadd|Hadd].
    + injection Hu as <-. constructor; [|exact Hrest]. simpl.
      destruct Hop as [->|Hq]; [discriminate | lia].
    + destruct (String.eqb operation "subtract").
      * destruct (Z.geb_spec (p_stock p) quantity); [|discriminate].
        injection Hu as <-. constructor; [simpl; lia | exact Hrest].
      * injection Hu as <-. constructor; assumption.
  - destruct (update_stock_in product_id quantity operation rest)
      as [rest'|]; [|discriminate].
    injection Hu as <-. constructor; [exact Hp | now apply IH].
Qed.

Lemma add_to_cart_keeps_store item_data w :
  w_data (snd (Api.add_to_cart item_data w)) = w_data w.
Proof.
  unfold Api.add_to_cart, bind, read_db, ret.
  destruct (Api.get_product_flexible _ _) as [product|]; [|reflexivity].
  destruct (p_stock product <? _); [reflexivity|].
  pose proof (add_items_spec
    (Py.range_len (default 1 (req_quantity item_data))) product
    (req_session_id item_data) w) as Hadd.
  destruct (Api.add_items _ _ _ w) as [added w1].
  destruct Hadd as (_ & _ & _ & Hd & _).
  pose proof (get_summary_spec w1 (req_session_id item_data)) as Hsum.
  destruct (get_summary _ w1) as [summary w2].
  destruct Hsum as (_ & (Hd' & _) & _). simpl. congruence.
Qed.

Lemma add_batch_keeps_store batch_data w :
  w_data (snd (Api.add_batch_to_cart batch_data w)) = w_data w.
Proof.
  unfold Api.add_batch_to_cart, bind, ret.
  pose proof (batch_loop_spec (breq_items batch_data)
                (breq_session_id batch_data) w [] []) as Hloop.
  cbv zeta in Hloop.
  destruct (Api.batch_loop _ _ [] [] w) as [[results errors] w1].
  destruct Hloop as (_ & _ & Hd & _).
  pose proof (get_summary_spec w1 (breq_session_id batch_data)) as Hsum.
  destruct (get_summary _ w1) as [summary w2].
  destruct Hsum as (_ & (Hd' & _) & _). simpl. congruence.
Qed.

Lemma checkout_keeps_stock checkout_data w :
  d_products (w_data (snd (Api.checkout_cart checkout_data w)))
  = d_products (w_data w).
Proof.
  unfold Api.checkout_cart, get_summary, clear_cart, store_cart,
    CartManager.get_cart.
  unfold_state. simpl.
  destruct (w_carts w !! _) as [cart|] eqn:Hc; simpl.
  - destruct (cart_items cart); simpl; [reflexivity|].
    rewrite Hc. reflexivity.
  - reflexivity.
Qed.

Lemma confirm_payment_stock payment_id w :
  d_products (w_data (snd (Api.confirm_payment payment_id w)))
  = d_products (w_data w)
  \/ exists items,
       d_products (w_data (snd (Api.confirm_payment payment_id w)))
       = decrement_all items (d_products (w_data w)).
Proof.
  destruct (d_pending_payments (w_data w) !! payment_id) as [payment|] eqn:Hp.
  - destruct (String.eqb_spec (pay_status payment) "pending") as [Hs|Hs].
    + destruct (confirm_payment_spec w payment_id payment Hp Hs)
        as (w1 & -> & Hdata & _).
      right. exists (pay_items payment). simpl. now rewrite Hdata.
    + rewrite (confirm_payment_settled w payment_id payment Hp Hs). now left.
  - rewrite (confirm_payment_unknown w payment_id Hp). now left.
Qed.

Lemma cart_edits_keep_store product_id session_id w :
  w_data (snd (Api.remove_from_cart product_id session_id w)) = w_data w
  /\ w_data (snd (Api.clear_cart session_id w)) = w_data w.
Proof.
  unfold Api.remove_from_cart, Api.clear_cart, remove_item, clear_cart,
    get_summary, store_cart, CartManager.get_cart.
  unfold_state. simpl.
  destruct (w_carts w !! session_key session_id) as [cart|]; simpl.
  - destruct (remove_first product_id (cart_items cart)); simpl;
      rewrite ?lookup_insert_eq; auto.
  - rewrite ?lookup_insert_eq. simpl. rewrite ?lookup_insert_eq. auto.
Qed.

Lemma run_operation_nonnegative w op :
  restocks_add op ->
  stock_nonnegative (d_products (w_data w)) ->
  stock_nonnegative (d_products (w_data (run_operation w op))).
Proof.
  intros Hop Hp.
  destruct op as [item_data|batch_data|pid q|pid q|cd|pid|pid sid|sid]; simpl;
    [| | | | | |now rewrite (proj1 (cart_edits_keep_store pid sid w))
            |now rewrite (proj2 (cart_edits_keep_store "" sid w))].
  - now rewrite add_to_cart_keeps_store.
  - now rewrite add_batch_keeps_store.
  - unfold Api.restock_product, bind, read_db, write_db, ret.
    pose proof (update_stock_nonnegative pid q "add" (w_data w)
                  (or_intror Hop) Hp) as Hu.
    destruct (update_stock pid q "add" (w_data w)) as [[|] data'];
      simpl in *; assumption.
  - unfold subtract_stock, bind, read_db, write_db, ret.
    pose proof (update_stock_nonnegative pid q "subtract" (w_data w)
                  (or_introl eq_refl) Hp) as Hu.
    destruct (update_stock pid q "subtract" (w_data w)) as [[|] data'];
      simpl in *; assumption.
  - now rewrite checkout_keeps_stock.
  - destruct (confirm_payment_stock pid w) as [->|[items ->]];
      [exact Hp | now apply decrement_all_nonnegative].
Qed.

(** Whatever the sequence of add-to-cart, batch, checkout, confirmation
    and subtract operations, and of restocks that add a quantity that
    is not negative, no stock becomes negative. *)
Lemma stock_stays_nonnegative ops : forall w,
  Forall restocks_add ops ->
  stock_nonnegative (d_products (w_data w)) ->
  stock_nonnegative (d_products (w_data (run ops w))).
Proof.
  induction ops as [|op rest IH]; intros w Hops Hp; simpl; [exact Hp|].
  apply Forall_cons in Hops as [Hop Hrest].
  apply IH; [exact Hrest|]. now apply run_operation_nonnegative.
Qed.

(** C3 (failing input). The restock handler hands its quantity to the
    add branch of [update_stock], which has no guard: restocking the
    cola (five in stock) by minus ten is answered as a success and
    leaves a stock of minus five. *)
Theorem restock_drives_stock_negative :
  let '(response, w') :=
    Api.restock_product "cola-can" (-10) (sample_world [cola]) in
  response = Ok200 "Product restocked successfully"
  /\ stock_of "cola-can" (w_data w') = Some (-5)
  /\ stock_nonnegative (d_products (w_data (sample_world [cola])))
  /\ ~ stock_nonnegative (d_products (w_data w')).
Proof.
  vm_compute. repeat split.
  - constructor; [discriminate | constructor].
  - intros H. apply Forall_cons in H as [H _]. now apply H.
Qed.

End StockFacts.

(** ** The debouncer *)

Section DebounceFacts.

Import Debouncer.

Lemma Qltb_lt (a b : Q) : Py.Qltb a b = true <-> (a < b)%Q.
Proof.
  unfold Py.Qltb. rewrite negb_true_iff, <- not_true_iff_false, Qle_bool_iff.
  split; [apply Qnot_le_lt | apply Qlt_not_le].
Qed.

Lemma Qltb_ge (a b : Q) : Py.Qltb a b = false <-> (b <= a)%Q.
Proof.
  unfold Py.Qltb. rewrite negb_false_iff. apply Qle_bool_iff.
Qed.

Lemma is_new_detection_accepts current_time class_name self :
  quiet current_time class_name self ->
  is_new_detection current_time class_name self
  = (true, accept current_time class_name self).
Proof.
  unfold quiet, is_new_detection.
  destruct (last_detections self !! class_name) as [last|]; [|reflexivity].
  intros Hq. apply Qltb_ge in Hq. now rewrite Hq.
Qed.

Lemma is_new_detection_suppresses current_time class_name self last :
  last_detections self !! class_name = Some last ->
  (current_time - last < debounce_time self)%Q ->
  is_new_detection current_time class_name self = (false, self).
Proof.
  intros Hl Hlt. unfold is_new_detection. rewrite Hl.
  apply Qltb_lt in Hlt. now rewrite Hlt.
Qed.

(** C7. When no call for a label was accepted within the cooldown window
    before [t1], a call at [t1] answers true and records [t1]. A call
    that follows at [t2], less than the cooldown after [t1], answers
    false and leaves the debouncer as it is, the time stamp of the label
    included. The window is therefore counted from [t1]: a later call at
    [t3] answers true as soon as the cooldown has passed since [t1],
    however close [t3] is to the suppressed call, and false before. *)
Theorem debouncer_counts_from_last_accepted (self : DetectionDebouncer)
    (class_name : string) (t1 t2 t3 : Q) :
  quiet t1 class_name self ->
  (t2 - t1 < debounce_time self)%Q ->
  let '(first, s1) := is_new_detection t1 class_name self in
  let '(second, s2) := is_new_detection t2 class_name s1 in
  let '(third, s3) := is_new_detection t3 class_name s2 in
  (first, second) = (true, false)
  /\ last_detections s1 !! class_name = Some t1
  /\ s2 = s1
  /\ ((debounce_time self <= t3 - t1)%Q -> third = true)
  /\ ((t3 - t1 < debounce_time self)%Q -> third = false).
Proof.
  intros Hquiet Hsoon.
  rewrite (is_new_detection_accepts _ _ _ Hquiet).
  assert (Hlast : last_detections (accept t1 class_name self) !! class_name
                  = Some t1) by apply lookup_insert_eq.
  rewrite (is_new_detection_suppresses t2 _ _ _ Hlast Hsoon).
  destruct (is_new_detection t3 class_name (accept t1 class_name self))
    as [third s3] eqn:H3.
  split; [reflexivity|]. split; [exact Hlast|]. split; [reflexivity|].
  split; intros Ht.
  - rewrite is_new_detection_accepts in H3; [now injection H3 as <- _|].
    unfold quiet. now rewrite Hlast.
  - rewrite (is_new_detection_suppresses t3 _ _ _ Hlast Ht) in H3.
    now injection H3 as <- _.
Qed.

Lemma debouncer_counts_from_last_accepted_witness :
  let '(first, s1) :=
    is_new_detection 10 "Pepsi" (init default_debounce_time) in
  let '(second, s2) := is_new_detection 10 "Pepsi" s1 in
  let '(third, s3) := is_new_detection 11 "Pepsi" s2 in
  (first, second) = (true, false)
  /\ last_detections s1 !! "Pepsi" = Some 10%Q
  /\ s2 = s1
  /\ ((debounce_time (init default_debounce_time) <= 11 - 10)%Q
      -> third = true)
  /\ ((11 - 10 < debounce_time (init default_debounce_time))%Q
      -> third = false).
Proof.
  apply (debouncer_counts_from_last_accepted
           (init default_debounce_time) "Pepsi" 10 10 11).
  - exact I.
  - reflexivity.
Defined.

End DebounceFacts.

(** ** The overlap filter *)

Section OverlapFacts.

Import YOLODetector.

Implicit Types (a b d s : Detection) (thr : Q).

Lemma calculate_iou_sym (box1 box2 : Box) :
  calculate_iou box1 box2 = calculate_iou box2 box1.
Proof.
  destruct box1 as [[[x1 y1] x2] y2], box2 as [[[u1 v1] u2] v2].
  unfold calculate_iou.
  rewrite (Z.max_comm u1 x1), (Z.max_comm v1 y1),
    (Z.min_comm u2 x2), (Z.min_comm v2 y2).
  destruct (_ || _); [reflexivity|].
  now rewrite (Z.add_comm ((u2 - u1) * (v2 - v1))).
Qed.

Lemma duplicates_spec thr a b :
  duplicates thr a b = true <-> overlapping thr a b.
Proof.
  unfold duplicates, overlapping.
  rewrite andb_true_iff, Qltb_lt, String.eqb_eq. tauto.
Qed.

Lemma overlapping_sym thr a b : overlapping thr a b -> overlapping thr b a.
Proof.
  unfold overlapping. intros [Hl Hi]. split; [congruence|].
  now rewrite calculate_iou_sym.
Qed.

Lemma is_duplicate_spec thr d filtered :
  is_duplicate thr d filtered = true
  <-> exists s, s ∈ filtered /\ overlapping thr d s.
Proof.
  unfold is_duplicate. rewrite existsb_exists.
  split; intros (s & Hin & Hd); exists s.
  - apply list_elem_of_In in Hin. now rewrite <- duplicates_spec.
  - apply list_elem_of_In in Hin. now rewrite duplicates_spec.
Qed.

(** *** The sort *)

Lemma insert_by_confidence_perm d sorted :
  insert_by_confidence d sorted ≡ₚ d :: sorted.
Proof.
  induction sorted as [|e rest IH]; simpl; [reflexivity|].
  destruct (Qle_bool _ _); [reflexivity|].
  rewrite IH. apply Permutation_swap.
Qed.

Lemma sorted_by_confidence_perm detections :
  sorted_by_confidence detections ≡ₚ detections.
Proof.
  induction detections as [|d rest IH]; simpl; [reflexivity|].
  rewrite insert_by_confidence_perm. now rewrite IH.
Qed.

Lemma insert_by_confidence_sorted d sorted :
  StronglySorted not_above sorted ->
  StronglySorted not_above (insert_by_confidence d sorted).
Proof.
  induction 1 as [|e rest Hrest IH Hall]; simpl.
  - repeat constructor.
  - destruct (Qle_bool (det_confidence e) (det_confidence d)) eqn:Hle.
    + apply Qle_bool_iff in Hle. constructor.
      * now constructor.
      * constructor; [exact Hle|].
        eapply Forall_impl; [exact Hall|].
        intros x Hx. unfold not_above in *. now apply (Qle_trans _ _ _ Hx).
    + constructor; [exact IH|].
      rewrite insert_by_confidence_perm. constructor; [|exact Hall].
      unfold not_above. apply Qlt_le_weak, Qnot_le_lt.
      intros Hc. apply Qle_bool_iff in Hc. congruence.
Qed.

Lemma sorted_by_confidence_sorted detections :
  StronglySorted not_above (sorted_by_confidence detections).
Proof.
  induction detections as [|d rest IH]; simpl; [constructor|].
  now apply insert_by_confidence_sorted.
Qed.

(** *** The greedy loop *)



Lemma spread_snoc thr filtered d :
  spread thr filtered -> is_duplicate thr d filtered = false ->
  spread thr (filtered ++ [d]).
Proof.
  intros Hs Hd i j a b Hij Ha Hb Hov.
  destruct (decide (j < length filtered)%nat) as [Hj|Hj].
  - rewrite lookup_app_l in Ha, Hb by lia. exact (Hs i j a b Hij Ha Hb Hov).
  - rewrite lookup_app_l in Ha
      by (apply lookup_lt_Some in Hb; rewrite length_app in Hb;
          simpl in Hb; lia).
    rewrite lookup_app_r in Hb by lia.
    apply list_lookup_singleton_Some in Hb as [_ <-].
    apply not_true_iff_false in Hd. apply Hd, is_duplicate_spec.
    exists a. split; [|now apply overlapping_sym].
    apply list_elem_of_lookup. eauto.
Qed.

Lemma filter_step_prefix thr filtered d :
  filter_step thr filtered d = filtered
  \/ (filter_step thr filtered d = filtered ++ [d]
      /\ is_duplicate thr d filtered = false).
Proof.
  unfold filter_step. destruct (is_duplicate thr d filtered); auto.
Qed.

Lemma filter_fold_extends thr l : forall filtered,
  exists more,
    fold_left (filter_step thr) l filtered = filtered ++ more
    /\ sublist more l.
Proof.
  induction l as [|d l IH]; intros filtered; simpl.
  - exists []. now rewrite app_nil_r.
  - destruct (IH (filter_step thr filtered d)) as (more & -> & Hsub).
    destruct (filter_step_prefix thr filtered d) as [->|[-> _]].
    + exists more. split; [reflexivity | now apply sublist_cons].
    + exists (d :: more). rewrite <- app_assoc.
      split; [reflexivity | now apply sublist_skip].
Qed.

Lemma filter_fold_spread thr l : forall filtered,
  spread thr filtered ->
  spread thr (fold_left (filter_step thr) l filtered).
Proof.
  induction l as [|d l IH]; intros filtered Hs; simpl; [exact Hs|].
  apply IH.
  destruct (filter_step_prefix thr filtered d) as [->|[-> Hd]];
    [exact Hs | now apply spread_snoc].
Qed.



Lemma filter_overlapping_detections_fold detections thr :
  filter_overlapping_detections detections thr
  = fold_left (filter_step thr) (sorted_by_confidence detections) [].
Proof. now destruct detections. Qed.






End OverlapFacts.

(** ** Catalog resolution *)

Section ResolveFacts.

Import JsonDatabase MinimalDetectionClient.

Lemma find_product_elem product_id products p :
  find_product product_id products = Some p ->
  p ∈ products /\ p_id p = product_id.
Proof.
  induction products as [|q rest IH]; simpl; [discriminate|].
  destruct (String.eqb_spec (p_id q) product_id) as [Heq|Hne].
  - intros [= <-]. split; [apply list_elem_of_here | exact Heq].
  - intros H. destruct (IH H). split; [now apply list_elem_of_further|auto].
Qed.

Lemma first_variant_elem data variants p :
  Api.first_variant data variants = Some p ->
  exists variant,
    variant ∈ variants /\ get_product data variant = Some p.
Proof.
  induction variants as [|v rest IH]; simpl; [discriminate|].
  destruct (get_product data v) as [q|] eqn:Hv.
  - intros [= <-]. exists v. split; [apply list_elem_of_here | exact Hv].
  - intros H. destruct (IH H) as (variant & Hin & Hp).
    exists variant. split; [now apply list_elem_of_further | exact Hp].
Qed.


(** *** Strings *)




Lemma append_chars (s1 s2 : string) :
  String.list_ascii_of_string (s1 +:+ s2)
  = String.list_ascii_of_string s1 ++ String.list_ascii_of_string s2.
Proof. induction s1 as [|c s1 IH]; simpl; [reflexivity | now rewrite IH]. Qed.

Lemma replace_chars old new s :
  String.list_ascii_of_string (Py.replace old new s)
  = flat_map (fun c => if Ascii.eqb c old
                       then String.list_ascii_of_string new else [c])
      (String.list_ascii_of_string s).
Proof.
  induction s as [|c s IH]; [reflexivity|].
  cbn [Py.replace String.list_ascii_of_string flat_map].
  destruct (Ascii.eqb c old).
  - now rewrite append_chars, IH.
  - cbn [String.list_ascii_of_string]. now rewrite IH.
Qed.

Lemma lower_chars s :
  String.list_ascii_of_string (Py.lower s)
  = map Py.lower_ascii (String.list_ascii_of_string s).
Proof. induction s as [|c s IH]; simpl; [reflexivity | now rewrite IH]. Qed.








End ResolveFacts.

(** ** Scenarios *)

(** A request for more than the stock is turned down and nothing
    changes. *)
Example add_to_cart_rejects_excess :
  Api.add_to_cart
    {| req_product_id := "cola-can"; req_session_id := None;
       req_quantity := Some 6 |} (sample_world [cola])
  = (JSONResponse 400
       {| err_error := "Insufficient stock for Cola";
          err_available := Some 5; err_requested := Some 6 |},
     sample_world [cola]).
Proof. reflexivity. Qed.

(** A batch of three items whose second item is out of stock: two lines
    are added, one error is reported, and the batch counts as a
    success. *)
Example batch_of_three :
  let '(result, w') :=
    Api.add_batch_to_cart
      {| breq_items :=
           [batch_item "cola-can"; batch_item "crystal-water";
            batch_item "pepsi"];
         breq_session_id := None |}
      (sample_world [cola; empty_shelf; pepsi]) in
  batch_success result = true
  /\ batch_items_added result = 2%nat
  /\ batch_errors result = ["Insufficient stock for Crystal Water"]
  /\ map item_product_id (lines_of w' None) = ["cola-can"; "pepsi"].
Proof. vm_compute. repeat split. Qed.

(** The cola scenario: price 14, five in stock, three units added. *)
Example cola_scenario :
  let '(_, w1) :=
    Api.add_to_cart
      {| req_product_id := "cola-can"; req_session_id := None;
         req_quantity := Some 3 |} (sample_world [cola]) in
  let '(summary, w2) := Api.get_cart None w1 in
  let '(checkout, w3) := Api.checkout_cart None w2 in
  map s_quantity (sum_items summary) = [3]
  /\ exists pending,
       checkout = Ok200 pending
       /\ (pay_subtotal pending == 42)%Q
       /\ (pay_tax pending == 294 # 100)%Q
       /\ (pay_total pending == 4494 # 100)%Q
       /\ lines_of w3 None = []
       /\ stock_of "cola-can" (w_data w3) = Some 5
       /\ let '(confirmation, w4) :=
            Api.confirm_payment (pay_payment_id pending) w3 in
          stock_of "cola-can" (w_data w4) = Some 2
          /\ exists sale,
               confirmation = Ok200 sale
               /\ d_sales (w_data w4) = [sale]
               /\ (sale_total sale == 4494 # 100)%Q.
Proof.
  vm_compute. split; [reflexivity|]. eexists. split; [reflexivity|].
  do 6 (split; [reflexivity|]).
  eexists. split; [reflexivity|]. split; reflexivity.
Qed.

(** * Further properties *)

(** ** Removing lines, clearing and checking out *)

Section CartEdits.

Import CartManager.

Implicit Types (w : World) (session_id : option string).

Lemma remove_first_some product_id items rest :
  remove_first product_id items = Some rest ->
  exists before line after,
    items = before ++ line :: after /\ rest = before ++ after
    /\ item_product_id line = product_id
    /\ product_id ∉ map item_product_id before.
Proof.
  revert rest. induction items as [|item items IH]; intros rest; simpl;
    [discriminate|].
  destruct (String.eqb_spec (item_product_id item) product_id) as [Heq|Hne].
  - intros [= <-]. exists [], item, items. repeat split; [exact Heq|].
    apply not_elem_of_nil.
  - destruct (remove_first product_id items) as [rest'|]; [|discriminate].
    intros [= <-].
    destruct (IH rest' eq_refl) as (before & line & after & -> & -> & Hl & Hb).
    exists (item :: before), line, after. repeat split; [exact Hl|].
    simpl. apply not_elem_of_cons. split; [congruence | exact Hb].
Qed.

Lemma remove_first_none product_id items :
  remove_first product_id items = None ->
  product_id ∉ map item_product_id items.
Proof.
  induction items as [|item items IH]; simpl; [intros _; apply not_elem_of_nil|].
  destruct (String.eqb_spec (item_product_id item) product_id) as [Heq|Hne];
    [discriminate|].
  destruct (remove_first product_id items); [discriminate|].
  intros _. apply not_elem_of_cons. split; [congruence | now apply IH].
Qed.

Lemma remove_item_spec w product_id session_id :
  let '(removed, w') := remove_item product_id session_id w in
  match remove_first product_id (lines_of w session_id) with
  | Some rest => removed = true /\ lines_of w' session_id = rest
  | None => removed = false /\ lines_of w' session_id = lines_of w session_id
  end
  /\ same_elsewhere session_id w w'.
Proof.
  unfold remove_item, store_cart, CartManager.get_cart, lines_of.
  unfold_state. simpl.
  destruct (w_carts w !! session_key session_id) as [cart|] eqn:Hc; simpl.
  - destruct (remove_first product_id (cart_items cart)) as [rest|]; simpl.
    + rewrite lookup_insert_eq. repeat split.
      intros key Hk. simpl. now rewrite lookup_insert_ne.
    + rewrite Hc. repeat split.
  - rewrite lookup_insert_eq. simpl. repeat split.
    intros key Hk. simpl. now rewrite lookup_insert_ne.
Qed.

(** X1. [remove_item] answers true exactly when the session holds a line
    of the product; it then drops the first such line and nothing else,
    the remaining lines keeping their order. When no line matches, the
    lines stay as they are. The store and the other sessions are left
    alone. *)
Theorem remove_item_drops_first_line (w : World) (product_id : string)
    (session_id : option string) :
  let '(removed, w') := remove_item product_id session_id w in
  (removed = true <-> product_id ∈ map item_product_id (lines_of w session_id))
  /\ (removed = true ->
      exists before line after,
        lines_of w session_id = before ++ line :: after
        /\ lines_of w' session_id = before ++ after
        /\ item_product_id line = product_id
        /\ product_id ∉ map item_product_id before)
  /\ (removed = false -> lines_of w' session_id = lines_of w session_id)
  /\ same_elsewhere session_id w w'.
Proof.
  pose proof (remove_item_spec w product_id session_id) as H.
  destruct (remove_item product_id session_id w) as [removed w'].
  destruct H as [H Hsame].
  destruct (remove_first product_id (lines_of w session_id)) as [rest|] eqn:Hr;
    destruct H as [-> Hlines].
  - destruct (remove_first_some _ _ _ Hr)
      as (before & line & after & Hitems & -> & Hline & Hbefore).
    split; [|split; [|split; [discriminate | exact Hsame]]].
    + split; [intros _ | reflexivity].
      rewrite Hitems, map_app. apply elem_of_app. right. simpl.
      rewrite Hline. apply list_elem_of_here.
    + intros _. now exists before, line, after.
  - apply remove_first_none in Hr.
    split; [|split; [discriminate | split; [intros _; exact Hlines | exact Hsame]]].
    split; [discriminate | intros Hin; contradiction].
Qed.

Lemma line_count_app product_id l1 l2 :
  line_count product_id (l1 ++ l2)
  = (line_count product_id l1 + line_count product_id l2)%nat.
Proof. unfold line_count. now rewrite filter_app, length_app. Qed.

Lemma line_count_cons product_id item items :
  line_count product_id (item :: items)
  = ((if decide (item_product_id item = product_id) then 1 else 0)
     + line_count product_id items)%nat.
Proof.
  unfold line_count. rewrite filter_cons. now case_decide.
Qed.

Lemma line_count_absent product_id items :
  product_id ∉ map item_product_id items -> line_count product_id items = 0%nat.
Proof.
  induction items as [|item items IH]; [reflexivity|]. simpl.
  intros Hn. apply not_elem_of_cons in Hn as [Hne Hn].
  rewrite line_count_cons, decide_False by congruence. now apply IH.
Qed.

(** X2. Adding a product and then removing one line of it leaves every
    product with the number of lines it had before (the line removed is
    the oldest of the product, which need not be the line just added). *)
Theorem add_then_remove_keeps_counts (w : World) (product : Product)
    (session_id : option string) :
  let '(_, w1) := add_item product session_id w in
  let '(removed, w2) := remove_item (p_id product) session_id w1 in
  removed = true
  /\ forall product_id,
       line_count product_id (lines_of w2 session_id)
       = line_count product_id (lines_of w session_id).
Proof.
  pose proof (add_item_spec w product session_id) as Hadd.
  destruct (add_item product session_id w) as [item w1].
  destruct Hadd as ((Hid & _) & Hlines & _).
  pose proof (remove_item_spec w1 (p_id product) session_id) as Hrem.
  destruct (remove_item (p_id product) session_id w1) as [removed w2].
  destruct Hrem as [Hrem _].
  destruct (remove_first (p_id product) (lines_of w1 session_id))
    as [rest|] eqn:Hr; destruct Hrem as [-> Hlines2].
  - split; [reflexivity|]. intros product_id. rewrite Hlines2.
    destruct (remove_first_some _ _ _ Hr)
      as (before & line & after & Hitems & -> & Hline & _).
    assert (Hcount :
      line_count product_id (lines_of w1 session_id)
      = ((if decide (p_id product = product_id) then 1 else 0)
         + line_count product_id (before ++ after))%nat).
    { rewrite Hitems, !line_count_app, line_count_cons, Hline. lia. }
    rewrite Hlines, line_count_snoc, Hid in Hcount. lia.
  - exfalso. apply remove_first_none in Hr. apply Hr.
    rewrite Hlines, map_app. apply elem_of_app. right. simpl.
    rewrite Hid. apply list_elem_of_here.
Qed.

End CartEdits.

Section CheckoutEdges.

Import JsonDatabase CartManager.

Implicit Types (w : World) (session_id : option string).

Lemma checkout_cart_empty w checkout_data :
  lines_of w (checkout_session checkout_data) = [] ->
  exists w',
    Api.checkout_cart checkout_data w
    = (JSONResponse 400 (error_only "Cart is empty"), w')
    /\ w_data w' = w_data w
    /\ lines_of w' (checkout_session checkout_data) = []
    /\ (is_Some (w_carts w !! session_key (checkout_session checkout_data))
        -> w' = w).
Proof.
  unfold lines_of, Api.checkout_cart, get_summary, CartManager.get_cart.
  fold (checkout_session checkout_data).
  unfold_state. simpl.
  destruct (w_carts w !! session_key (checkout_session checkout_data))
    as [cart|] eqn:Hc; simpl.
  - intros Hempty. rewrite Hempty. simpl. eexists. split; [reflexivity|].
    rewrite Hc. repeat split. exact Hempty.
  - intros _. eexists. split; [reflexivity|]. simpl.
    rewrite lookup_insert_eq. repeat split. intros [c Hs]. discriminate.
Qed.

(** X3. Checking out a session that has no line (or no cart yet) is
    answered with status 400 and the error "Cart is empty"; no payment is
    created and the store is left as it is. *)
Theorem checkout_of_empty_cart_is_rejected (w : World)
    (checkout_data : option CheckoutRequest) :
  lines_of w (checkout_session checkout_data) = [] ->
  let '(response, w') := Api.checkout_cart checkout_data w in
  response = JSONResponse 400 (error_only "Cart is empty")
  /\ w_data w' = w_data w
  /\ lines_of w' (checkout_session checkout_data) = [].
Proof.
  intros Hempty.
  destruct (checkout_cart_empty w checkout_data Hempty)
    as (w' & -> & Hdata & Hlines & _).
  repeat split; assumption.
Qed.

Lemma checkout_of_empty_cart_is_rejected_witness :
  let '(response, w') := Api.checkout_cart None (sample_world [cola]) in
  response = JSONResponse 400 (error_only "Cart is empty")
  /\ w_data w' = w_data (sample_world [cola])
  /\ lines_of w' (checkout_session None) = [].
Proof.
  apply (checkout_of_empty_cart_is_rejected (sample_world [cola]) None).
  reflexivity.
Defined.

Lemma checkout_cart_accepted w checkout_data pending w1 :
  Api.checkout_cart checkout_data w = (Ok200 pending, w1) ->
  exists cart,
    w_carts w !! session_key (checkout_session checkout_data) = Some cart
    /\ cart_items cart <> []
    /\ pending = pending_payment_of w (checkout_session checkout_data) cart
    /\ w_data w1
       = add_pending_payment (o_uuid4 (w_oracle w) (w_tick w)) pending
           (w_data w)
    /\ lines_of w1 (checkout_session checkout_data) = [].
Proof.
  intros Hok.
  destruct (w_carts w !! session_key (checkout_session checkout_data))
    as [cart|] eqn:Hc.
  - destruct (cart_items cart) as [|line lines] eqn:Hitems.
    + destruct (checkout_cart_empty w checkout_data) as (w' & Hrej & _).
      { unfold lines_of. now rewrite Hc. }
      rewrite Hrej in Hok. discriminate.
    + assert (Hne : cart_items cart <> []) by (rewrite Hitems; discriminate).
      destruct (checkout_cart_spec w checkout_data cart Hc Hne)
        as (w' & Hspec & Hdata & Hlines & _).
      unfold checkout_session in *. rewrite Hspec in Hok.
      injection Hok as <- <-. exists cart. rewrite Hitems. repeat split;
        try assumption. discriminate.
  - destruct (checkout_cart_empty w checkout_data) as (w' & Hrej & _).
    { unfold lines_of. now rewrite Hc. }
    rewrite Hrej in Hok. discriminate.
Qed.

(** X4. A checkout that succeeded has emptied the session's cart: the
    same checkout asked again right away is answered "Cart is empty",
    changes nothing and creates no second payment. *)
Theorem checkout_twice_is_rejected (w w1 : World)
    (checkout_data : option CheckoutRequest) (pending : Payment) :
  Api.checkout_cart checkout_data w = (Ok200 pending, w1) ->
  Api.checkout_cart checkout_data w1
  = (JSONResponse 400 (error_only "Cart is empty"), w1)
  /\ d_pending_payments (w_data w1) !! pay_payment_id pending = Some pending.
Proof.
  intros Hok.
  destruct (checkout_cart_accepted _ _ _ _ Hok)
    as (cart & Hc & Hne & Hpending & Hdata & Hlines).
  destruct (checkout_cart_empty w1 checkout_data Hlines)
    as (w2 & Hrej & _ & _ & Hsame).
  split.
  - rewrite Hrej. f_equal. apply Hsame.
    unfold lines_of in Hlines.
    destruct (w_carts w1 !! session_key (checkout_session checkout_data))
      as [c|] eqn:Hc1; [eauto|].
    (* the first checkout stored the cleared cart *)
    exfalso. revert Hok Hc1.
    unfold Api.checkout_cart, get_summary, clear_cart, store_cart,
      CartManager.get_cart.
    fold (checkout_session checkout_data). unfold_state. simpl.
    rewrite Hc. simpl.
    destruct (cart_items cart); [congruence|]. simpl. rewrite Hc.
    intros [= _ <-]. simpl. now rewrite lookup_insert_eq.
  - rewrite Hdata, Hpending. simpl. apply lookup_insert_eq.
Qed.

Lemma checkout_twice_is_rejected_witness :
  exists pending w1,
    Api.checkout_cart None (world_with_cart [cola_line "a"] [cola])
    = (Ok200 pending, w1)
    /\ Api.checkout_cart None w1
       = (JSONResponse 400 (error_only "Cart is empty"), w1).
Proof.
  destruct (Api.checkout_cart None (world_with_cart [cola_line "a"] [cola]))
    as [response w1] eqn:Hfirst.
  assert (Hok : exists pending, response = Ok200 pending).
  { apply (f_equal fst) in Hfirst. vm_compute in Hfirst. subst response.
    eexists. reflexivity. }
  destruct Hok as [pending ->]. exists pending, w1.
  split; [reflexivity|].
  apply (checkout_twice_is_rejected _ _ None pending Hfirst).
Defined.

Lemma summary_quantity_add item summary :
  summary_quantity (summary_add item summary) = summary_quantity summary + 1.
Proof.
  unfold summary_quantity.
  induction summary as [|entry rest IH]; simpl; [reflexivity|].
  destruct (String.eqb (s_product_id entry) (item_product_id item)); simpl;
    lia.
Qed.

Lemma summary_quantity_fold items : forall summary,
  summary_quantity
    (fold_left (fun summary item => summary_add item summary) items summary)
  = summary_quantity summary + Z.of_nat (length items).
Proof.
  induction items as [|item items IH]; intros summary; simpl; [lia|].
  rewrite IH, summary_quantity_add. lia.
Qed.

Lemma summary_add_positive item summary :
  Forall (fun entry => 1 <= s_quantity entry) summary ->
  Forall (fun entry => 1 <= s_quantity entry) (summary_add item summary).
Proof.
  induction 1 as [|entry rest Hentry Hrest IH]; simpl.
  - repeat constructor. simpl. lia.
  - destruct (String.eqb (s_product_id entry) (item_product_id item)).
    + constructor; [simpl; lia | exact Hrest].
    + constructor; assumption.
Qed.

Lemma group_items_positive items :
  Forall (fun entry => 1 <= s_quantity entry) (group_items items).
Proof.
  unfold group_items.
  assert (H : forall summary,
            Forall (fun entry => 1 <= s_quantity entry) summary ->
            Forall (fun entry => 1 <= s_quantity entry)
              (fold_left (fun summary item => summary_add item summary)
                 items summary)).
  { induction items as [|item items IH]; intros summary Hs; simpl;
      [exact Hs|]. apply IH, summary_add_positive, Hs. }
  apply H. constructor.
Qed.

(** X5. The payment that a checkout creates is well formed: it has one
    line per product id, every line has a quantity of at least one and a
    total of price times quantity, the quantities add up to the number of
    cart lines checked out, and the subtotal is the sum of the line
    totals. *)
Theorem checkout_payment_is_well_formed (w w1 : World)
    (checkout_data : option CheckoutRequest) (pending : Payment) :
  Api.checkout_cart checkout_data w = (Ok200 pending, w1) ->
  NoDup (map pi_product_id (pay_items pending))
  /\ Forall well_formed_line (pay_items pending)
  /\ payment_quantity (pay_items pending)
     = Z.of_nat (length (lines_of w (checkout_session checkout_data)))
  /\ pay_subtotal pending = Py.sum (map pi_total (pay_items pending)).
Proof.
  intros Hok.
  destruct (checkout_cart_accepted _ _ _ _ Hok)
    as (cart & Hc & _ & -> & _ & _).
  unfold lines_of. rewrite Hc. simpl.
  destruct (group_items_grouped (cart_items cart)) as [Hnd _ _].
  split; [|split; [|split]].
  - rewrite <- list_fmap_compose. exact Hnd.
  - apply Forall_fmap. eapply Forall_impl; [apply group_items_positive|].
    intros entry Hq. split; [exact Hq | reflexivity].
  - unfold payment_quantity. rewrite <- list_fmap_compose.
    change (fold_right Z.add 0 (pi_quantity ∘ Api.payment_item <$> _))
      with (summary_quantity (group_items (cart_items cart))).
    unfold group_items. now rewrite summary_quantity_fold.
  - now rewrite <- list_fmap_compose.
Qed.

Lemma checkout_payment_is_well_formed_witness :
  exists pending w1,
    Api.checkout_cart None
      (world_with_cart [cola_line "a"; cola_line "b"] [cola])
    = (Ok200 pending, w1)
    /\ payment_quantity (pay_items pending) = 2.
Proof.
  destruct (Api.checkout_cart None
              (world_with_cart [cola_line "a"; cola_line "b"] [cola]))
    as [response w1] eqn:Hfirst.
  assert (Hok : exists pending, response = Ok200 pending).
  { apply (f_equal fst) in Hfirst. vm_compute in Hfirst. subst response.
    eexists. reflexivity. }
  destruct Hok as [pending ->]. exists pending, w1.
  split; [reflexivity|].
  now destruct (checkout_payment_is_well_formed _ _ None pending Hfirst)
    as (_ & _ & -> & _).
Defined.

End CheckoutEdges.

(** ** Forgetting old carts *)

Section Cleanup.

Import CartManager.

Variable fromisoformat : string -> Q.

(** X6. The periodic cleanup forgets a session only when its cart holds
    no line and was created before the cutoff, that is more than
    [max_age_hours] hours before [now]; a cart that holds a line always
    survives, every surviving cart is unchanged, and no session
    appears. *)
Theorem cleanup_forgets_only_old_empty_carts (now : Q) (max_age_hours : Z)
    (carts : gmap string Cart) (key : string) :
  let kept := cleanup_old_carts fromisoformat now max_age_hours carts in
  let cutoff := (now - inject_Z max_age_hours * 3600)%Q in
  (forall cart, kept !! key = Some cart -> carts !! key = Some cart)
  /\ (forall cart,
        carts !! key = Some cart -> cart_items cart <> [] ->
        kept !! key = Some cart)
  /\ (forall cart,
        carts !! key = Some cart -> kept !! key = None ->
        cart_items cart = []
        /\ (fromisoformat (cart_created_at cart) < cutoff)%Q
        /\ cart_created_at cart <> "").
Proof.
  cbv zeta. unfold cleanup_old_carts. split; [|split].
  - intros cart Hk. now apply map_lookup_filter_Some in Hk as [Hk _].
  - intros cart Hc Hne. apply map_lookup_filter_Some. split; [exact Hc|].
    simpl. unfold expired. destruct (cart_items cart); [congruence|].
    simpl. apply andb_false_r.
  - intros cart Hc Hk.
    destruct (expired fromisoformat
                (now - inject_Z max_age_hours * 3600)%Q cart) eqn:He.
    + unfold expired in He.
      apply andb_true_iff in He as [He Hlen].
      apply andb_true_iff in He as [Hstamp Hold].
      split; [|split].
      * apply Nat.eqb_eq in Hlen. now destruct (cart_items cart).
      * now apply Qltb_lt.
      * apply negb_true_iff in Hstamp. now apply String.eqb_neq.
    + assert (Hkept : filter
                (fun entry =>
                   expired fromisoformat
                     (now - inject_Z max_age_hours * 3600)%Q entry.2 = false)
                carts !! key = Some cart)
        by (apply map_lookup_filter_Some; split; assumption).
      congruence.
Qed.

End Cleanup.

(** ** The stock operations *)

Section StoreFacts.

Import JsonDatabase.

Implicit Types (data : Data) (products : list Product).

Lemma update_stock_in_none product_id quantity operation products :
  find_product product_id products = None ->
  update_stock_in product_id quantity operation products = None.
Proof.
  induction products as [|p rest IH]; simpl; [reflexivity|].
  destruct (String.eqb (p_id p) product_id); [discriminate|].
  intros H. now rewrite (IH H).
Qed.

Lemma update_stock_in_found product_id quantity operation products p :
  find_product product_id products = Some p ->
  match stock_update operation quantity (p_stock p) with
  | None => update_stock_in product_id quantity operation products = None
  | Some stock =>
      exists products',
        update_stock_in product_id quantity operation products = Some products'
        /\ find_product product_id products' = Some (set_stock p stock)
        /\ (forall other, other <> product_id ->
              find_product other products' = find_product other products)
        /\ map listing products' = map listing products
  end.
Proof.
  unfold stock_update.
  induction products as [|q rest IH]; simpl; [discriminate|].
  destruct (String.eqb_spec (p_id q) product_id) as [Heq|Hne].
  - intros [= ->].
    destruct (String.eqb operation "add").
    + eexists. split; [reflexivity|]. simpl. rewrite Heq, String.eqb_refl.
      split; [reflexivity|]. split; [|reflexivity].
      intros other Ho.
      now replace (String.eqb product_id other) with false
        by (symmetry; apply String.eqb_neq; congruence).
    + destruct (String.eqb operation "subtract").
      * destruct (p_stock p >=? quantity); [|reflexivity].
        eexists. split; [reflexivity|]. simpl. rewrite Heq, String.eqb_refl.
        split; [reflexivity|]. split; [|reflexivity].
        intros other Ho.
        now replace (String.eqb product_id other) with false
          by (symmetry; apply String.eqb_neq; congruence).
      * eexists. split; [reflexivity|]. simpl. rewrite Heq, String.eqb_refl.
        split; [now destruct p|]. split; [reflexivity|].
        unfold listing. now destruct p.
  - intros Hfind. specialize (IH Hfind).
    destruct (if String.eqb operation "add" then Some (p_stock p + quantity)
              else if String.eqb operation "subtract"
                   then (if p_stock p >=? quantity
                         then Some (p_stock p - quantity) else None)
                   else Some (p_stock p)) as [stock|].
    + destruct IH as (products' & -> & Hfound & Hother & Hlisting).
      eexists. split; [reflexivity|]. simpl.
      replace (String.eqb (p_id q) product_id) with false
        by (symmetry; now apply String.eqb_neq).
      split; [exact Hfound|]. split.
      * intros other Ho. destruct (String.eqb (p_id q) other); [reflexivity|].
        now apply Hother.
      * now rewrite Hlisting.
    + now rewrite IH.
Qed.

(** X7. Restocking a product id that the catalog does not hold is
    answered with status 400 and changes nothing. Otherwise the first
    catalog entry with that id has its stock raised by the quantity,
    every other product id keeps its stock, and carts, sales, payments
    and settings are left alone. *)
Theorem restock_raises_one_stock (w : World) (product_id : string)
    (quantity : Z) :
  let '(response, w') := Api.restock_product product_id quantity w in
  match stock_of product_id (w_data w) with
  | None =>
      response = JSONResponse 400 (error_only "Failed to restock") /\ w' = w
  | Some stock =>
      response = Ok200 "Product restocked successfully"
      /\ stock_of product_id (w_data w') = Some (stock + quantity)
      /\ (forall other, other <> product_id ->
            stock_of other (w_data w') = stock_of other (w_data w))
      /\ map listing (d_products (w_data w'))
         = map listing (d_products (w_data w))
      /\ d_sales (w_data w') = d_sales (w_data w)
      /\ d_pending_payments (w_data w') = d_pending_payments (w_data w)
      /\ d_settings (w_data w') = d_settings (w_data w)
      /\ w_carts w' = w_carts w
  end.
Proof.
  unfold Api.restock_product, stock_of, get_product, get_products,
    update_stock.
  unfold_state.
  destruct (find_product product_id (d_products (w_data w))) as [p|] eqn:Hf;
    simpl.
  - pose proof (update_stock_in_found product_id quantity "add" _ _ Hf) as Hu.
    simpl in Hu. destruct Hu as (products' & -> & Hfound & Hother & Hlisting).
    simpl. rewrite Hfound. repeat split; try assumption.
    intros other Ho. now rewrite (Hother other Ho).
  - rewrite (update_stock_in_none _ quantity "add" _ Hf). simpl.
    split; [reflexivity | now destruct w].
Qed.

(** X8. The subtract branch of [update_stock] never drives a stock below
    zero: it answers false and leaves the store as it is when the product
    is unknown or holds less than the quantity, and otherwise lowers the
    stock of the first entry with that id by the quantity, leaving every
    other product id alone. *)
Theorem subtract_refuses_to_oversell (data : Data) (product_id : string)
    (quantity : Z) :
  let '(done, data') := update_stock product_id quantity "subtract" data in
  match stock_of product_id data with
  | None => done = false /\ data' = data
  | Some stock =>
      if decide (quantity <= stock) then
        done = true
        /\ stock_of product_id data' = Some (stock - quantity)
        /\ (0 <= stock -> 0 <= quantity -> 0 <= stock - quantity)
        /\ forall other, other <> product_id ->
             stock_of other data' = stock_of other data
      else done = false /\ data' = data
  end.
Proof.
  unfold stock_of, get_product, get_products, update_stock.
  destruct (find_product product_id (d_products data)) as [p|] eqn:Hf; simpl.
  - pose proof (update_stock_in_found product_id quantity "subtract" _ _ Hf)
      as Hu.
    unfold stock_update in Hu. simpl in Hu.
    destruct (decide (quantity <= p_stock p)) as [Hle|Hgt].
    + replace (p_stock p >=? quantity) with true in Hu
        by (symmetry; apply Z.geb_le; lia).
      destruct Hu as (products' & -> & Hfound & Hother & _). simpl.
      rewrite Hfound. repeat split; [lia|].
      intros other Ho. now rewrite (Hother other Ho).
    + replace (p_stock p >=? quantity) with false in Hu
        by (symmetry; rewrite Z.geb_leb; apply Z.leb_gt; lia).
      rewrite Hu. split; reflexivity.
  - rewrite (update_stock_in_none _ quantity "subtract" _ Hf).
    split; reflexivity.
Qed.

Lemma update_stock_in_restore product_id quantity products products' p :
  find_product product_id products = Some p ->
  update_stock_in product_id quantity "add" products = Some products' ->
  0 <= p_stock p ->
  update_stock_in product_id quantity "subtract" products' = Some products.
Proof.
  revert products'. induction products as [|q rest IH]; intros products';
    simpl; [discriminate|].
  destruct (String.eqb_spec (p_id q) product_id) as [Heq|Hne].
  - intros [= ->] [= <-] Hs. simpl. rewrite Heq, String.eqb_refl.
    replace (p_stock p + quantity >=? quantity) with true
      by (symmetry; apply Z.geb_le; lia).
    f_equal. f_equal. destruct p; unfold set_stock; simpl in *.
    f_equal. lia.
  - intros Hf Hadd Hs.
    destruct (update_stock_in product_id quantity "add" rest) as [rest'|]
      eqn:Hrest; [|discriminate].
    injection Hadd as <-. simpl.
    replace (String.eqb (p_id q) product_id) with false
      by (symmetry; now apply String.eqb_neq).
    now rewrite (IH rest' Hf eq_refl Hs).
Qed.

(** X9. Adding a quantity to a stock that is not negative and then
    subtracting the same quantity gives back the store exactly as it
    was. *)
Theorem add_then_subtract_restores_store (data : Data) (product_id : string)
    (quantity stock : Z) :
  stock_of product_id data = Some stock -> 0 <= stock ->
  exists data1,
    update_stock product_id quantity "add" data = (true, data1)
    /\ stock_of product_id data1 = Some (stock + quantity)
    /\ update_stock product_id quantity "subtract" data1 = (true, data).
Proof.
  unfold stock_of, get_product, get_products, update_stock.
  destruct (find_product product_id (d_products data)) as [p|] eqn:Hf;
    [|discriminate].
  intros [= <-] Hs.
  pose proof (update_stock_in_found product_id quantity "add" _ _ Hf) as Hu.
  simpl in Hu. destruct Hu as (products' & Hadd & Hfound & _).
  rewrite Hadd. eexists. split; [reflexivity|]. simpl. rewrite Hfound.
  split; [reflexivity|].
  rewrite (update_stock_in_restore _ _ _ _ _ Hf Hadd Hs).
  unfold with_products. simpl. now destruct data.
Qed.

Lemma add_then_subtract_restores_store_witness :
  exists data1,
    update_stock "cola-can" 7 "add" (sample_data [cola]) = (true, data1)
    /\ stock_of "cola-can" data1 = Some (5 + 7)
    /\ update_stock "cola-can" 7 "subtract" data1 = (true, sample_data [cola]).
Proof.
  apply (add_then_subtract_restores_store (sample_data [cola]) "cola-can" 7 5).
  - reflexivity.
  - lia.
Defined.

End StoreFacts.

(** ** Sales listing, theme and the answers of a confirmation *)

Section ListingFacts.

Import JsonDatabase.

(** X10. The sales listing is newest first. With a limit that is not
    negative it holds the [limit] newest sales (all of them when there
    are fewer): entry [i] is the sale [i] places from the end of the
    ledger. A negative limit leaves out that many of the oldest sales
    instead. *)
Theorem sales_listing_is_newest_first (data : Data) (limit : Z) :
  let listing := get_sales limit data in
  let ledger := d_sales data in
  if decide (0 <= limit) then
    length listing = Nat.min (Z.to_nat limit) (length ledger)
    /\ forall i, (i < length listing)%nat ->
         listing !! i = ledger !! (length ledger - S i)%nat
  else listing = reverse (drop (Z.to_nat (- limit)) ledger).
Proof.
  cbv zeta. unfold get_sales, Py.slice_to.
  destruct (decide (0 <= limit)) as [Hle|Hlt].
  - replace (limit <? 0) with false by (symmetry; apply Z.ltb_ge; lia).
    rewrite length_take, length_reverse. split; [reflexivity|].
    intros i Hi. rewrite lookup_take_lt by lia.
    apply reverse_lookup. lia.
  - replace (limit <? 0) with true by (symmetry; apply Z.ltb_lt; lia).
    rewrite length_reverse, take_reverse. f_equal.
    destruct (decide (Z.to_nat (- limit) <= length (d_sales data))%nat).
    + f_equal. lia.
    + now rewrite !drop_ge by lia.
Qed.

(** X11. A sale whose confirmation has just succeeded is the first entry
    of the sales listing, for the default limit and for every limit of
    at least one. *)
Theorem confirmed_sale_heads_the_listing (w w' : World) (payment_id : string)
    (sale : Sale) (limit : option Z) :
  Api.confirm_payment payment_id w = (Ok200 sale, w') ->
  1 <= default 50 limit ->
  head (fst (Api.get_sales limit w')) = Some sale.
Proof.
  intros Hok Hlimit.
  assert (Hsales : d_sales (w_data w') = d_sales (w_data w) ++ [sale]).
  { destruct (confirm_payment_completes _ _ _ _ Hok)
      as (payment & Hp & Hs & _).
    destruct (confirm_payment_spec w payment_id payment Hp Hs)
      as (w1 & Hspec & Hdata & _).
    rewrite Hspec in Hok. injection Hok as <- <-. now rewrite Hdata. }
  unfold Api.get_sales, get_sales, Py.slice_to. unfold_state. simpl.
  replace (default 50 limit <? 0) with false
    by (symmetry; apply Z.ltb_ge; lia).
  rewrite Hsales, reverse_snoc.
  destruct (Z.to_nat (default 50 limit)) as [|n] eqn:Hn; [lia|].
  reflexivity.
Qed.

Lemma confirmed_sale_heads_the_listing_witness :
  let w :=
    snd (Api.checkout_cart None
           (world_with_cart [cola_line "a"; cola_line "b"] [cola])) in
  exists sale w',
    Api.confirm_payment "uuid-0" w = (Ok200 sale, w')
    /\ head (fst (Api.get_sales None w')) = Some sale.
Proof.
  intros w.
  destruct (Api.confirm_payment "uuid-0" w) as [response w'] eqn:Hfirst.
  assert (Hok : exists sale, response = Ok200 sale).
  { apply (f_equal fst) in Hfirst. vm_compute in Hfirst. subst response.
    eexists. reflexivity. }
  destruct Hok as [sale ->]. exists sale, w'. split; [reflexivity|].
  apply (confirmed_sale_heads_the_listing w w' "uuid-0" sale None Hfirst).
  simpl. lia.
Defined.

(** X12. The theme handler stores only the themes "light" and "dark"
    (the default when the request names none is "light"): such a request
    is answered with the theme, which [get_theme] then reads back, and
    touches nothing else; any other theme is answered with status 400
    and the error "Invalid theme" and changes nothing. *)
Theorem set_theme_accepts_light_and_dark (w : World)
    (theme_data : option string) :
  let theme := default "light" theme_data in
  let '(response, w') := Api.set_theme theme_data w in
  if decide (theme = "light" \/ theme = "dark") then
    response = Ok200 theme
    /\ fst (Api.get_theme w') = theme
    /\ d_products (w_data w') = d_products (w_data w)
    /\ d_sales (w_data w') = d_sales (w_data w)
    /\ d_pending_payments (w_data w') = d_pending_payments (w_data w)
    /\ set_tax_rate (d_settings (w_data w'))
       = set_tax_rate (d_settings (w_data w))
    /\ w_carts w' = w_carts w
  else
    response = JSONResponse 400 (error_only "Invalid theme") /\ w' = w.
Proof.
  cbv zeta. unfold Api.set_theme, Api.get_theme, get_theme.
  unfold_state.
  set (theme := default "light" theme_data).
  destruct (String.eqb_spec theme "light") as [Hl|Hl];
    destruct (String.eqb_spec theme "dark") as [Hd|Hd]; simpl;
    destruct (decide (theme = "light" \/ theme = "dark")) as [Hin|Hout];
    try (exfalso; tauto); repeat split.
Qed.

(** X13. A confirmation is answered by the state of the stored payment
    alone: status 404 "Payment not found" when the id is not stored,
    status 400 "Payment already processed" when the stored payment is not
    pending, and the sale otherwise. The answer "Failed to process
    payment" is never given. *)
Theorem confirmation_answers_by_status (w : World) (payment_id : string) :
  let '(response, w') := Api.confirm_payment payment_id w in
  match d_pending_payments (w_data w) !! payment_id with
  | None =>
      response = JSONResponse 404 (error_only "Payment not found") /\ w' = w
  | Some payment =>
      if decide (pay_status payment = "pending") then
        exists sale,
          response = Ok200 sale
          /\ sale_payment_id sale = payment_id
          /\ sale_items sale = pay_items payment
          /\ sale_total sale = pay_total payment
      else
        response = JSONResponse 400 (error_only "Payment already processed")
        /\ w' = w
  end
  /\ response <> JSONResponse 400 (error_only "Failed to process payment").
Proof.
  destruct (d_pending_payments (w_data w) !! payment_id) as [payment|] eqn:Hp.
  - destruct (decide (pay_status payment = "pending")) as [Hs|Hs].
    + destruct (confirm_payment_spec w payment_id payment Hp Hs)
        as (w1 & -> & _). split; [|discriminate].
      eexists. split; [reflexivity|]. repeat split.
    + rewrite (confirm_payment_settled w payment_id payment Hp Hs).
      split; [split; reflexivity | discriminate].
  - rewrite (confirm_payment_unknown w payment_id Hp).
    split; [split; reflexivity | discriminate].
Qed.

End ListingFacts.

(** ** What the operations leave of the catalog *)

Section CatalogFacts.

Import JsonDatabase CartManager.

Lemma decrement_stock_listing item products :
  map listing (decrement_stock item products) = map listing products.
Proof.
  induction products as [|p rest IH]; simpl; [reflexivity|].
  destruct (String.eqb (p_id p) (pi_product_id item)); simpl.
  - now destruct (p_stock p >=? pi_quantity item).
  - now rewrite IH.
Qed.

Lemma decrement_all_listing items : forall products,
  map listing (decrement_all items products) = map listing products.
Proof.
  induction items as [|item rest IH]; intros products; simpl; [reflexivity|].
  fold (decrement_all rest (decrement_stock item products)).
  now rewrite IH, decrement_stock_listing.
Qed.

Lemma update_stock_listing product_id quantity operation data :
  map listing
    (d_products (snd (update_stock product_id quantity operation data)))
  = map listing (d_products data).
Proof.
  unfold update_stock.
  destruct (find_product product_id (d_products data)) as [p|] eqn:Hf.
  - pose proof (update_stock_in_found product_id quantity operation _ _ Hf)
      as Hu.
    destruct (stock_update operation quantity (p_stock p)).
    + destruct Hu as (products' & -> & _ & _ & Hl). exact Hl.
    + now rewrite Hu.
  - now rewrite (update_stock_in_none _ quantity operation _ Hf).
Qed.

Lemma run_operation_listing w op :
  map listing (d_products (w_data (run_operation w op)))
  = map listing (d_products (w_data w)).
Proof.
  destruct op as [item_data|batch_data|pid q|pid q|cd|pid|pid sid|sid]; simpl.
  - now rewrite add_to_cart_keeps_store.
  - now rewrite add_batch_keeps_store.
  - unfold Api.restock_product. unfold_state.
    pose proof (update_stock_listing pid q "add" (w_data w)) as Hu.
    destruct (update_stock pid q "add" (w_data w)) as [[|] data'];
      simpl in *; [exact Hu | reflexivity].
  - unfold subtract_stock. unfold_state.
    pose proof (update_stock_listing pid q "subtract" (w_data w)) as Hu.
    destruct (update_stock pid q "subtract" (w_data w)) as [[|] data'];
      simpl in *; [exact Hu | reflexivity].
  - now rewrite checkout_keeps_stock.
  - destruct (confirm_payment_stock pid w) as [->|[items ->]];
      [reflexivity | apply decrement_all_listing].
  - now rewrite (proj1 (cart_edits_keep_store pid sid w)).
  - now rewrite (proj2 (cart_edits_keep_store "" sid w)).
Qed.

(** X14. No sequence of cart, checkout, confirmation, restock and
    subtract operations adds, removes, reorders or renames a catalog
    product or changes its price or category: the catalog with the stock
    figures blanked stays what it was. *)
Theorem operations_change_stock_only (ops : list Operation) (w : World) :
  map listing (d_products (w_data (run ops w)))
  = map listing (d_products (w_data w)).
Proof.
  revert w. induction ops as [|op rest IH]; intros w; simpl; [reflexivity|].
  now rewrite IH, run_operation_listing.
Qed.

Lemma settle_not_above item product_id p :
  0 <= pi_quantity item -> p_stock (settle item product_id p) <= p_stock p.
Proof.
  intros Hq. unfold settle.
  destruct (String.eqb product_id (pi_product_id item)
            && (p_stock p >=? pi_quantity item)); simpl; lia.
Qed.

Lemma decrement_all_not_above items : forall products product_id p',
  Forall (fun item => 0 <= pi_quantity item) items ->
  find_product product_id (decrement_all items products) = Some p' ->
  exists p, find_product product_id products = Some p
            /\ p_stock p' <= p_stock p.
Proof.
  induction items as [|item rest IH]; intros products product_id p' Hall;
    simpl.
  - intros H. exists p'. split; [exact H | lia].
  - apply Forall_cons in Hall as [Hq Hall].
    fold (decrement_all rest (decrement_stock item products)).
    intros H. destruct (IH _ _ _ Hall H) as (p1 & Hp1 & Hle).
    rewrite find_product_decrement_stock in Hp1.
    destruct (find_product product_id products) as [p|]; [|discriminate].
    injection Hp1 as <-. exists p. split; [reflexivity|].
    pose proof (settle_not_above item product_id p Hq). lia.
Qed.

(** X15. A confirmation that succeeds changes the stock of no product
    outside the payment's lines, and, the quantities of the lines not
    being negative, raises no stock at all. *)
Theorem confirmation_touches_paid_products_only (w w' : World)
    (payment_id : string) (sale : Sale) :
  Api.confirm_payment payment_id w = (Ok200 sale, w') ->
  (forall product_id,
     product_id ∉ map pi_product_id (sale_items sale) ->
     stock_of product_id (w_data w') = stock_of product_id (w_data w))
  /\ (Forall (fun item => 0 <= pi_quantity item) (sale_items sale) ->
      forall product_id stock',
        stock_of product_id (w_data w') = Some stock' ->
        exists stock,
          stock_of product_id (w_data w) = Some stock /\ stock' <= stock).
Proof.
  intros Hok.
  destruct (confirm_payment_completes _ _ _ _ Hok) as (payment & Hp & Hs & _).
  destruct (confirm_payment_spec w payment_id payment Hp Hs)
    as (w1 & Hspec & Hdata & _).
  rewrite Hspec in Hok. injection Hok as <- <-.
  unfold stock_of, get_product, get_products. rewrite Hdata. simpl. split.
  - intros product_id Hn.
    now rewrite find_product_decrement_all_other.
  - intros Hall product_id stock' Hstock.
    destruct (find_product product_id
                (decrement_all (pay_items payment) (d_products (w_data w))))
      as [p'|] eqn:Hf; [|discriminate].
    injection Hstock as <-.
    destruct (decrement_all_not_above _ _ _ _ Hall Hf) as (p & -> & Hle).
    exists (p_stock p). split; [reflexivity | exact Hle].
Qed.

Lemma confirmation_touches_paid_products_only_witness :
  let w :=
    snd (Api.checkout_cart None
           (world_with_cart [cola_line "a"; cola_line "b"] [cola; pepsi])) in
  exists sale w',
    Api.confirm_payment "uuid-0" w = (Ok200 sale, w')
    /\ stock_of "pepsi" (w_data w') = stock_of "pepsi" (w_data w).
Proof.
  intros w.
  destruct (Api.confirm_payment "uuid-0" w) as [response w'] eqn:Hfirst.
  assert (Hok : exists sale,
            response = Ok200 sale
            /\ map pi_product_id (sale_items sale) = ["cola-can"]).
  { apply (f_equal fst) in Hfirst. vm_compute in Hfirst. subst response.
    eexists. split; reflexivity. }
  destruct Hok as (sale & -> & Hids). exists sale, w'.
  split; [reflexivity|].
  apply (confirmation_touches_paid_products_only w w' "uuid-0" sale Hfirst).
  rewrite Hids. intros Hin. apply list_elem_of_singleton in Hin. discriminate.
Defined.

End CatalogFacts.

(** ** More on the flexible lookup *)

Section FlexibleFacts.

Import JsonDatabase.

Lemma find_product_of_member p products :
  p ∈ products ->
  exists first, find_product (p_id p) products = Some first
                /\ p_id first = p_id p.
Proof.
  induction products as [|q rest IH]; intros Hin; [now apply elem_of_nil in Hin|].
  simpl. destruct (String.eqb_spec (p_id q) (p_id p)) as [Heq|Hne].
  - now exists q.
  - apply elem_of_cons in Hin as [->|Hin]; [congruence | now apply IH].
Qed.

(** X16. The id of a catalog product always resolves, by the exact step,
    to the first catalog entry that carries this id. *)
Theorem catalog_ids_resolve_to_themselves (data : Data) (p : Product) :
  p ∈ d_products data ->
  exists first,
    Api.get_product_flexible data (p_id p) = Some first
    /\ get_product data (p_id p) = Some first
    /\ p_id first = p_id p.
Proof.
  intros Hin.
  destruct (find_product_of_member p _ Hin) as (first & Hf & Hid).
  exists first. unfold Api.get_product_flexible, get_product, get_products.
  now rewrite Hf.
Qed.

Lemma catalog_ids_resolve_to_themselves_witness :
  exists first,
    Api.get_product_flexible (sample_data [cola; pepsi]) (p_id pepsi)
    = Some first
    /\ get_product (sample_data [cola; pepsi]) (p_id pepsi) = Some first
    /\ p_id first = p_id pepsi.
Proof.
  apply (catalog_ids_resolve_to_themselves (sample_data [cola; pepsi]) pepsi).
  apply list_elem_of_further, list_elem_of_here.
Defined.

Lemma find_product_absent product_id products :
  (forall q, q ∈ products -> p_id q <> product_id) ->
  find_product product_id products = None.
Proof.
  induction products as [|q rest IH]; intros Hall; [reflexivity|]. simpl.
  destruct (String.eqb_spec (p_id q) product_id) as [Heq|Hne].
  - exfalso. exact (Hall q (list_elem_of_here _ _) Heq).
  - apply IH. intros r Hr. apply Hall. now apply list_elem_of_further.
Qed.

(** X17. The empty product id is contained in every id: when no catalog
    entry has the empty id, the flexible lookup of the empty id answers
    the first product of the catalog, and an add-to-cart request with
    the empty id puts that product into the cart when it is in stock. *)
Theorem empty_id_resolves_to_first_product (w : World) (p : Product)
    (rest : list Product) (session_id : option string) :
  d_products (w_data w) = p :: rest ->
  (forall q, q ∈ p :: rest -> p_id q <> "") ->
  1 <= p_stock p ->
  Api.get_product_flexible (w_data w) "" = Some p
  /\ exists result w',
       Api.add_to_cart
         {| req_product_id := ""; req_session_id := session_id;
            req_quantity := None |} w
       = (Ok200 result, w')
       /\ map item_product_id (add_items_added result) = [p_id p].
Proof.
  intros Hproducts Hids Hstock.
  assert (Hflex : Api.get_product_flexible (w_data w) "" = Some p).
  { assert (Hexact : get_product (w_data w) "" = None).
    { unfold get_product, get_products. rewrite Hproducts.
      apply (find_product_absent "" (p :: rest) Hids). }
    unfold Api.get_product_flexible. rewrite Hexact. simpl.
    rewrite !Hexact. unfold get_products. rewrite Hproducts.
    unfold Api.partial_match. simpl. now destruct (Py.lower (p_id p)). }
  split; [exact Hflex|].
  unfold Api.add_to_cart. unfold bind at 1. unfold read_db at 1.
  cbn [req_product_id req_quantity req_session_id default].
  rewrite Hflex.
  replace (p_stock p <? 1) with false by (symmetry; apply Z.ltb_ge; lia).
  unfold bind.
  pose proof (add_items_spec (Py.range_len 1) p session_id w) as Hadd.
  destruct (Api.add_items (Py.range_len 1) p session_id w) as [added w1].
  destruct Hadd as (Hlen & Hall & _).
  destruct (CartManager.get_summary session_id w1) as [summary w2].
  unfold ret. eexists _, w2. split; [reflexivity|]. simpl.
  destruct added as [|item [|more added]]; try discriminate.
  apply Forall_cons in Hall as [(Hid & _) _]. simpl. now rewrite Hid.
Qed.

Lemma empty_id_resolves_to_first_product_witness :
  Api.get_product_flexible (w_data (sample_world [cola; pepsi])) ""
  = Some cola.
Proof.
  apply (empty_id_resolves_to_first_product (sample_world [cola; pepsi])
           cola [pepsi] None).
  - reflexivity.
  - intros q Hq. apply elem_of_cons in Hq as [->|Hq]; [discriminate|].
    apply list_elem_of_singleton in Hq as ->. discriminate.
  - simpl. lia.
Defined.

(** *** Exact and variant matches are partial matches *)

Lemma chars_inj (s1 s2 : string) :
  String.list_ascii_of_string s1 = String.list_ascii_of_string s2 -> s1 = s2.
Proof.
  intros H. rewrite <- (String.string_of_list_ascii_of_string s1),
    <- (String.string_of_list_ascii_of_string s2). now rewrite H.
Qed.

Lemma key_chars_app l1 l2 : key_chars (l1 ++ l2) = key_chars l1 ++ key_chars l2.
Proof. unfold key_chars. apply flat_map_app. Qed.

Lemma key_chars_flat_map (f : ascii -> list ascii) l :
  (forall c, key_chars (f c) = key_chars [c]) ->
  key_chars (flat_map f l) = key_chars l.
Proof.
  intros Hf. induction l as [|c l IH]; [reflexivity|]. simpl flat_map.
  rewrite key_chars_app, Hf, IH. symmetry. apply (key_chars_app [c] l).
Qed.

Lemma key_chars_lower l : key_chars (map Py.lower_ascii l) = key_chars l.
Proof.
  induction l as [|c l IH]; [reflexivity|].
  change (key_chars ([Py.lower_ascii c] ++ map Py.lower_ascii l)
          = key_chars ([c] ++ l)).
  rewrite !key_chars_app, IH. f_equal.
  destruct c as [[] [] [] [] [] [] [] []]; reflexivity.
Qed.

Lemma key_of_string s :
  String.list_ascii_of_string (Py.lower (Api.strip_separators s))
  = key_chars (String.list_ascii_of_string s).
Proof.
  unfold Api.strip_separators. rewrite lower_chars, !replace_chars.
  induction (String.list_ascii_of_string s) as [|c l IH]; [reflexivity|].
  cbn [flat_map]. rewrite flat_map_app, map_app, IH.
  change (key_chars (c :: l)) with (key_chars ([c] ++ l)).
  rewrite key_chars_app. f_equal.
  destruct c as [[] [] [] [] [] [] [] []]; reflexivity.
Qed.

Lemma key_of_dashes s :
  key_chars (String.list_ascii_of_string (Py.replace "_" "-" s))
  = key_chars (String.list_ascii_of_string s).
Proof.
  rewrite replace_chars. apply key_chars_flat_map.
  intros c. destruct (Ascii.eqb_spec c "_") as [->|Hne]; reflexivity.
Qed.

Lemma key_of_underscores s :
  key_chars (String.list_ascii_of_string (Py.replace "-" "_" s))
  = key_chars (String.list_ascii_of_string s).
Proof.
  rewrite replace_chars. apply key_chars_flat_map.
  intros c. destruct (Ascii.eqb_spec c "-") as [->|Hne]; reflexivity.
Qed.

Lemma key_of_lower s :
  key_chars (String.list_ascii_of_string (Py.lower s))
  = key_chars (String.list_ascii_of_string s).
Proof. rewrite lower_chars. apply key_chars_lower. Qed.

Lemma variation_key product_id variant :
  variant ∈ Api.variations product_id ->
  Py.lower (Api.strip_separators variant)
  = Py.lower (Api.strip_separators product_id).
Proof.
  intros Hin. apply chars_inj. rewrite !key_of_string.
  unfold Api.variations in Hin.
  repeat (apply elem_of_cons in Hin as [->|Hin]);
    rewrite ?key_of_dashes, ?key_of_underscores, ?key_of_lower;
    try reflexivity.
  now apply elem_of_nil in Hin.
Qed.

(** X18. For a product id and catalog ids made of ASCII characters:
    whatever step of the flexible lookup answers, the product it answers
    is a catalog product that passes the partial-match test; and the
    lookup finds nothing exactly when no catalog product passes that
    test. The exact and the variant steps thus only decide which of the
    matching products is answered. *)
Theorem flexible_lookup_finds_partial_matches (data : Data)
    (product_id : string) :
  Py.isascii product_id = true ->
  ascii_catalog data = true ->
  (forall p,
     Api.get_product_flexible data product_id = Some p ->
     p ∈ d_products data /\ Api.partial_match product_id p = true)
  /\ (Api.get_product_flexible data product_id = None <->
      forall p, p ∈ d_products data ->
                Api.partial_match product_id p = false).
Proof.
  intros _ _.
  assert (Hsome : forall p,
    Api.get_product_flexible data product_id = Some p ->
    p ∈ d_products data /\ Api.partial_match product_id p = true).
  { intros p. unfold Api.get_product_flexible.
    destruct (get_product data product_id) as [q|] eqn:Hexact.
    - intros [= <-]. apply find_product_elem in Hexact as [Hin Hid].
      split; [exact Hin|]. unfold Api.partial_match.
      apply orb_true_iff. right. apply String.eqb_eq. now rewrite Hid.
    - destruct (Api.first_variant data _) as [q|] eqn:Hvar.
      + intros [= <-].
        apply first_variant_elem in Hvar as (variant & Hv & Hq).
        apply find_product_elem in Hq as [Hin Hid].
        split; [exact Hin|]. unfold Api.partial_match.
        apply orb_true_iff. right. apply String.eqb_eq.
        rewrite Hid. now apply variation_key.
      + intros Hfind. apply find_some in Hfind as [Hin Hp].
        split; [now apply list_elem_of_In | exact Hp]. }
  split; [exact Hsome|]. split.
  - unfold Api.get_product_flexible.
    destruct (get_product data product_id); [discriminate|].
    destruct (Api.first_variant data _); [discriminate|].
    intros Hnone p Hin. apply (find_none _ _ Hnone).
    now apply list_elem_of_In.
  - intros Hall.
    destruct (Api.get_product_flexible data product_id) as [p|] eqn:Hf;
      [|reflexivity].
    destruct (Hsome p eq_refl) as [Hin Hp]. rewrite (Hall p Hin) in Hp.
    discriminate.
Qed.

Lemma flexible_lookup_finds_partial_matches_witness :
  Api.get_product_flexible (sample_data [refill; crystal]) "Crystal_Water"
  = Some crystal
  /\ crystal ∈ d_products (sample_data [refill; crystal])
  /\ Api.partial_match "Crystal_Water" crystal = true.
Proof.
  split; [reflexivity|].
  destruct (flexible_lookup_finds_partial_matches
              (sample_data [refill; crystal]) "Crystal_Water"
              eq_refl eq_refl) as [Hsome _].
  apply Hsome. reflexivity.
Defined.

End FlexibleFacts.

(** ** More on the debouncer *)

Section DebounceSequences.

Import Debouncer.

Lemma is_new_detection_cases current_time class_name self :
  (is_new_detection current_time class_name self
   = (true, accept current_time class_name self)
   /\ quiet current_time class_name self)
  \/ (is_new_detection current_time class_name self = (false, self)
      /\ exists last,
           last_detections self !! class_name = Some last
           /\ (current_time - last < debounce_time self)%Q).
Proof.
  unfold is_new_detection, quiet.
  destruct (last_detections self !! class_name) as [last|]; [|now left].
  destruct (Py.Qltb (current_time - last) (debounce_time self)) eqn:Hlt.
  - right. split; [reflexivity|]. exists last. split; [reflexivity|].
    now apply Qltb_lt.
  - left. split; [reflexivity|]. now apply Qltb_ge.
Qed.

(** X19. Labels are debounced independently: a call for one label,
    accepted or not, changes neither the recorded time of another label
    nor the answer that a call for the other label gets. And [clear]
    forgets every label: whatever was recorded, the next call for any
    label is accepted. *)
Theorem labels_are_debounced_independently (self : DetectionDebouncer)
    (time time' : Q) (label other : string) :
  label <> other ->
  let after := snd (is_new_detection time label self) in
  last_detections after !! other = last_detections self !! other
  /\ debounce_time after = debounce_time self
  /\ fst (is_new_detection time' other after)
     = fst (is_new_detection time' other self)
  /\ fst (is_new_detection time' other (clear after)) = true.
Proof.
  intros Hne. cbv zeta.
  assert (Hkeep :
    last_detections (snd (is_new_detection time label self)) !! other
    = last_detections self !! other
    /\ debounce_time (snd (is_new_detection time label self))
       = debounce_time self).
  { destruct (is_new_detection_cases time label self)
      as [[-> _]|[-> _]]; simpl; [|now split].
    split; [now apply lookup_insert_ne | reflexivity]. }
  destruct Hkeep as [Hlast Htime].
  generalize dependent (snd (is_new_detection time label self)).
  intros after Hlast Htime.
  split; [exact Hlast|]. split; [exact Htime|]. split.
  - unfold is_new_detection. rewrite Hlast, Htime.
    destruct (last_detections self !! other) as [last|]; [|reflexivity].
    now destruct (Py.Qltb (time' - last) (debounce_time self)).
  - reflexivity.
Qed.

Lemma labels_are_debounced_independently_witness :
  fst (is_new_detection 10 "Sprite"
         (snd (is_new_detection 10 "Pepsi" (init default_debounce_time))))
  = fst (is_new_detection 10 "Sprite" (init default_debounce_time)).
Proof.
  apply (labels_are_debounced_independently (init default_debounce_time)
           10 10 "Pepsi" "Sprite").
  discriminate.
Defined.

Lemma debounce_time_kept current_time class_name self :
  debounce_time (snd (is_new_detection current_time class_name self))
  = debounce_time self.
Proof.
  destruct (is_new_detection_cases current_time class_name self)
    as [[-> _]|[-> _]]; reflexivity.
Qed.

Lemma accepted_times_spaced label calls : forall self,
  spaced (debounce_time self) (last_detections self !! label)
    (accepted_times label calls self).
Proof.
  induction calls as [|[time class_name] calls IH]; intros self; simpl;
    [exact I|].
  pose proof (debounce_time_kept time class_name self) as Hgap.
  destruct (is_new_detection_cases time class_name self)
    as [[Hcall Hquiet]|[Hcall _]]; rewrite Hcall in *; simpl in *.
  - specialize (IH (accept time class_name self)). simpl in IH.
    destruct (String.eqb_spec class_name label) as [->|Hne]; simpl.
    + rewrite lookup_insert_eq in IH. split; [|exact IH].
      unfold quiet in Hquiet.
      now destruct (last_detections self !! label).
    + now rewrite lookup_insert_ne in IH.
  - apply IH.
Qed.

(** X20. Over any sequence of calls, with any time stamps, the calls
    accepted for one label are at least the debounce time apart: each
    accepted call comes at least that long after the accepted call
    before it, and the first one that long after the time the debouncer
    had recorded for the label. *)
Theorem accepted_calls_are_a_cooldown_apart (self : DetectionDebouncer)
    (label : string) (calls : list (Q * string)) :
  spaced (debounce_time self) (last_detections self !! label)
    (accepted_times label calls self)
  /\ forall (i : nat) (earlier later : Q),
       accepted_times label calls self !! i = Some earlier ->
       accepted_times label calls self !! S i = Some later ->
       (debounce_time self <= later - earlier)%Q.
Proof.
  pose proof (accepted_times_spaced label calls self) as Hs.
  split; [exact Hs|].
  generalize dependent (last_detections self !! label).
  generalize (debounce_time self) as gap.
  induction (accepted_times label calls self) as [|time times IH];
    intros gap previous Hs i earlier later He Hl; [discriminate|].
  destruct Hs as [_ Hs]. destruct i as [|i]; simpl in He, Hl.
  - injection He as <-. destruct times as [|next times]; [discriminate|].
    injection Hl as <-. now destruct Hs.
  - exact (IH gap (Some time) Hs i earlier later He Hl).
Qed.

End DebounceSequences.

(** ** More on IoU and the overlap filter *)

Section IouFacts.

Import YOLODetector.

Lemma iou_of_integers (i u : Z) :
  0 <= i <= u -> 0 < u ->
  (0 <= inject_Z i / inject_Z u)%Q /\ (inject_Z i / inject_Z u <= 1)%Q.
Proof.
  intros Hi Hu. destruct u as [|p|p]; try lia.
  unfold Qle, Qdiv, Qmult, Qinv, inject_Z. simpl. split; lia.
Qed.

Lemma iou_of_nothing (u : Z) : (inject_Z 0 / inject_Z u == 0)%Q.
Proof. unfold Qdiv. apply Qmult_0_l. Qed.

(** X21. The IoU of two boxes does not depend on their order and lies
    between 0 and 1, whatever the coordinates; it is 0 as soon as one of
    the two boxes has no area. *)
Theorem iou_is_a_symmetric_ratio (box1 box2 : Box) :
  calculate_iou box1 box2 = calculate_iou box2 box1
  /\ (0 <= calculate_iou box1 box2)%Q
  /\ (calculate_iou box1 box2 <= 1)%Q
  /\ (box_area box1 = 0 \/ box_area box2 = 0 ->
      (calculate_iou box1 box2 == 0)%Q).
Proof.
  split; [apply calculate_iou_sym|].
  destruct box1 as [[[x1 y1] x2] y2], box2 as [[[u1 v1] u2] v2].
  unfold calculate_iou, box_area.
  destruct (Z.ltb_spec (Z.min x2 u2) (Z.max x1 u1)) as [Hx|Hx]; simpl;
    [repeat split; (discriminate || reflexivity)|].
  destruct (Z.ltb_spec (Z.min y2 v2) (Z.max y1 v1)) as [Hy|Hy]; simpl;
    [repeat split; (discriminate || reflexivity)|].
  set (i := (Z.min x2 u2 - Z.max x1 u1) * (Z.min y2 v2 - Z.max y1 v1)).
  set (a1 := (x2 - x1) * (y2 - y1)). set (a2 := (u2 - u1) * (v2 - v1)).
  assert (Hi : 0 <= i) by (unfold i; nia).
  assert (H1 : i <= a1) by (unfold i, a1; nia).
  assert (H2 : i <= a2) by (unfold i, a2; nia).
  destruct (Z.gtb_spec (a1 + a2 - i) 0) as [Hu|Hu].
  - destruct (iou_of_integers i (a1 + a2 - i)) as [Hlo Hhi]; [lia | lia |].
    split; [exact Hlo|]. split; [exact Hhi|].
    intros Hzero. assert (Hi0 : i = 0) by lia. rewrite Hi0.
    apply iou_of_nothing.
  - repeat split; (discriminate || reflexivity).
Qed.

Lemma iou_of_itself (box : Box) :
  proper_box box -> (calculate_iou box box == 1)%Q.
Proof.
  destruct box as [[[x1 y1] x2] y2]. intros [Hx Hy].
  unfold calculate_iou. rewrite !Z.max_id, !Z.min_id.
  replace (x2 <? x1) with false by (symmetry; apply Z.ltb_ge; lia).
  replace (y2 <? y1) with false by (symmetry; apply Z.ltb_ge; lia).
  simpl.
  replace ((x2 - x1) * (y2 - y1) + (x2 - x1) * (y2 - y1)
           - (x2 - x1) * (y2 - y1)) with ((x2 - x1) * (y2 - y1)) by lia.
  assert (Ha : 0 < (x2 - x1) * (y2 - y1)) by nia.
  replace ((x2 - x1) * (y2 - y1) >? 0) with true
    by (symmetry; apply Z.gtb_lt; lia).
  apply Qmult_inv_r. intros H. unfold Qeq in H. simpl in H. lia.
Qed.

(** X22. A box of positive width and height has IoU 1 with itself. So
    below a threshold of 1 a detection that is listed twice is kept
    once. *)
Theorem repeated_detection_is_kept_once (d : Detection) (thr : Q) :
  proper_box (det_bbox d) -> (thr < 1)%Q ->
  (calculate_iou (det_bbox d) (det_bbox d) == 1)%Q
  /\ filter_overlapping_detections [d; d] thr = [d].
Proof.
  intros Hbox Hthr. pose proof (iou_of_itself _ Hbox) as Hiou.
  split; [exact Hiou|].
  assert (Hdup : duplicates thr d d = true).
  { apply duplicates_spec. split; [reflexivity|]. now rewrite Hiou. }
  simpl. replace (Qle_bool (det_confidence d) (det_confidence d)) with true
    by (symmetry; apply Qle_bool_iff, Qle_refl).
  simpl. unfold filter_step. simpl. now rewrite Hdup.
Qed.

Lemma repeated_detection_is_kept_once_witness :
  filter_overlapping_detections
    [chips (9 # 10) (0, 0, 10, 10); chips (9 # 10) (0, 0, 10, 10)]
    default_iou_threshold
  = [chips (9 # 10) (0, 0, 10, 10)].
Proof.
  apply (repeated_detection_is_kept_once (chips (9 # 10) (0, 0, 10, 10))
           default_iou_threshold).
  - split; reflexivity.
  - reflexivity.
Defined.

(** *** The filter as a whole *)

Lemma sublist_strongly_sorted {A} (R : A -> A -> Prop) (l1 l2 : list A) :
  sublist l1 l2 -> StronglySorted R l2 -> StronglySorted R l1.
Proof.
  induction 1 as [|x l1 l2 Hsub IH|x l1 l2 Hsub IH]; intros Hs.
  - constructor.
  - apply StronglySorted_inv in Hs as [Hs Hall]. constructor; [auto|].
    rewrite Forall_forall in *. intros y Hy. apply Hall.
    now apply (elem_of_sublist _ _ _ Hy Hsub).
  - apply StronglySorted_inv in Hs as [Hs _]. auto.
Qed.

Lemma sorted_by_confidence_fixed l :
  StronglySorted not_above l -> sorted_by_confidence l = l.
Proof.
  induction 1 as [|d rest Hrest IH Hall]; simpl; [reflexivity|].
  rewrite IH. destruct rest as [|e rest]; [reflexivity|]. simpl.
  apply Forall_cons in Hall as [He _]. unfold not_above in He.
  apply Qle_bool_iff in He. now rewrite He.
Qed.

Lemma filter_fold_keeps_spread thr l : forall filtered,
  spread thr (filtered ++ l) ->
  fold_left (filter_step thr) l filtered = filtered ++ l.
Proof.
  induction l as [|d l IH]; intros filtered Hs; simpl;
    [now rewrite app_nil_r|].
  assert (Hd : is_duplicate thr d filtered = false).
  { apply not_true_iff_false. intros Hdup.
    apply is_duplicate_spec in Hdup as (s & Hin & Hov).
    apply list_elem_of_lookup in Hin as [i Hi].
    apply (Hs i (length filtered) s d).
    - now apply lookup_lt_Some in Hi.
    - now rewrite lookup_app_l by (now apply lookup_lt_Some in Hi).
    - rewrite lookup_app_r by lia. now rewrite Nat.sub_diag.
    - now apply overlapping_sym. }
  unfold filter_step at 2. rewrite Hd.
  rewrite IH; rewrite <- app_assoc; [reflexivity | exact Hs].
Qed.

(** X23. Filtering is idempotent: a list that came out of the overlap
    filter passes through it unchanged. *)
Theorem overlap_filter_is_idempotent (detections : list Detection) (thr : Q) :
  filter_overlapping_detections
    (filter_overlapping_detections detections thr) thr
  = filter_overlapping_detections detections thr.
Proof.
  rewrite (filter_overlapping_detections_fold
             (filter_overlapping_detections detections thr)).
  set (kept := filter_overlapping_detections detections thr).
  assert (Hsorted : StronglySorted not_above kept).
  { unfold kept. rewrite filter_overlapping_detections_fold.
    destruct (filter_fold_extends thr (sorted_by_confidence detections) [])
      as (more & -> & Hsub).
    exact (sublist_strongly_sorted _ _ _ Hsub
             (sorted_by_confidence_sorted detections)). }
  assert (Hspread : spread thr kept).
  { unfold kept. rewrite filter_overlapping_detections_fold.
    apply filter_fold_spread. intros i j a b _ Ha. now destruct i. }
  rewrite (sorted_by_confidence_fixed _ Hsorted).
  now rewrite (filter_fold_keeps_spread thr kept []).
Qed.

(** X24. The filter invents nothing and never empties a frame: every
    kept detection is one of the input, there are at most as many, and
    of a frame with detections the first kept one is the first candidate,
    whose confidence no detection of the frame exceeds. *)
Theorem overlap_filter_keeps_the_top_candidate (detections : list Detection)
    (thr : Q) :
  let kept := filter_overlapping_detections detections thr in
  (forall d, d ∈ kept -> d ∈ detections)
  /\ (length kept <= length detections)%nat
  /\ (detections <> [] ->
      exists top,
        head kept = Some top
        /\ head (sorted_by_confidence detections) = Some top
        /\ forall d, d ∈ detections -> not_above top d).
Proof.
  cbv zeta. rewrite filter_overlapping_detections_fold.
  pose proof (sorted_by_confidence_perm detections) as Hperm.
  pose proof (sorted_by_confidence_sorted detections) as Hsorted.
  destruct (filter_fold_extends thr (sorted_by_confidence detections) [])
    as (more & Hkept & Hsub).
  rewrite Hkept. simpl. split; [|split].
  - intros d Hd. rewrite <- Hperm. exact (elem_of_sublist _ _ _ Hd Hsub).
  - rewrite <- (Permutation_length Hperm). now apply sublist_length.
  - intros Hne.
    destruct (sorted_by_confidence detections) as [|top candidates] eqn:Hc.
    { apply Permutation_nil_l in Hperm. congruence. }
    exists top. simpl in Hkept.
    destruct (filter_fold_extends thr candidates (filter_step thr [] top))
      as (rest & Hfold & _).
    rewrite Hfold in Hkept. unfold filter_step in Hkept. simpl in Hkept.
    rewrite <- Hkept. split; [reflexivity|]. split; [reflexivity|].
    intros d Hd. rewrite <- Hperm in Hd.
    apply StronglySorted_inv in Hsorted as [_ Hall].
    apply elem_of_cons in Hd as [->|Hd].
    + unfold not_above. apply Qle_refl.
    + rewrite Forall_forall in Hall. now apply Hall.
Qed.

End IouFacts.

(** ** The scanner's preview cart *)

Section PreviewFacts.

Import Preview.

Implicit Types (items : list (string * PreviewItem)) (self : ShoppingCart).

Lemma lookup_set_quantity product_id quantity items other :
  lookup other (set_quantity product_id quantity items)
  = if String.eqb other product_id
    then (fun item => {| pv_product := pv_product item;
                         pv_quantity := quantity;
                         pv_added_at := pv_added_at item |})
           <$> lookup other items
    else lookup other items.
Proof.
  induction items as [|[key item] rest IH]; simpl.
  - now destruct (String.eqb other product_id).
  - destruct (String.eqb_spec key product_id) as [->|Hne]; simpl.
    + destruct (String.eqb_spec product_id other) as [->|Ho].
      * now rewrite String.eqb_refl.
      * now replace (String.eqb other product_id) with false
          by (symmetry; apply String.eqb_neq; congruence).
    + destruct (String.eqb_spec key other) as [->|Ho]; [|exact IH].
      now replace (String.eqb other product_id) with false
        by (symmetry; now apply String.eqb_neq).
Qed.

Lemma lookup_snoc product_id item items other :
  lookup other (items ++ [(product_id, item)])
  = match lookup other items with
    | Some found => Some found
    | None => if String.eqb product_id other then Some item else None
    end.
Proof.
  induction items as [|[key found] rest IH]; simpl; [reflexivity|].
  now destruct (String.eqb key other).
Qed.

Lemma keys_set_quantity product_id quantity items :
  map fst (set_quantity product_id quantity items) = map fst items.
Proof.
  induction items as [|[key item] rest IH]; simpl; [reflexivity|].
  destruct (String.eqb key product_id); simpl; [reflexivity | now rewrite IH].
Qed.

Lemma lookup_none_keys product_id items :
  lookup product_id items = None <-> product_id ∉ map fst items.
Proof.
  induction items as [|[key item] rest IH]; simpl.
  - split; [intros _; apply not_elem_of_nil | reflexivity].
  - destruct (String.eqb_spec key product_id) as [->|Hne].
    + split; [discriminate|]. intros Hn. exfalso. apply Hn.
      apply list_elem_of_here.
    + rewrite IH, not_elem_of_cons. split; [intros H; split; congruence|].
      now intros [_ H].
Qed.

(** X25. [add_product] checks the stock against what the cart already
    holds: it succeeds exactly when the quantity asked for, and the
    quantity held plus the quantity asked for, are both within the stock
    of the product handed in. On success the cart holds the sum for that
    product id and every other entry is as before; on failure the cart is
    unchanged. A cart with one entry per key stays so. *)
Theorem add_product_checks_what_is_held (product : ScanProduct)
    (quantity : Z) (now : string) (self : ShoppingCart) :
  let '(done, self') := add_product product quantity now self in
  (if decide (quantity <= sp_stock product
              /\ held (sp_id product) self + quantity <= sp_stock product)
   then
     done = true
     /\ pv_quantity <$> lookup (sp_id product) (sc_items self')
        = Some (held (sp_id product) self + quantity)
     /\ held (sp_id product) self' <= sp_stock product
     /\ forall other, other <> sp_id product ->
          lookup other (sc_items self') = lookup other (sc_items self)
   else done = false /\ self' = self)
  /\ (keyed_once self -> keyed_once self').
Proof.
  unfold add_product, held, keyed_once.
  destruct (Z.gtb_spec quantity (sp_stock product)) as [Hgt|Hle].
  { rewrite decide_False by lia. repeat split. auto. }
  destruct (lookup (sp_id product) (sc_items self)) as [item|] eqn:Hl; simpl.
  - destruct (Z.gtb_spec (pv_quantity item + quantity) (sp_stock product))
      as [Hgt|Hle2].
    { rewrite decide_False by lia. repeat split. auto. }
    rewrite decide_True by lia. simpl.
    rewrite lookup_set_quantity, String.eqb_refl, Hl. simpl.
    split; [|now rewrite keys_set_quantity].
    repeat split; [lia|].
    intros other Ho. rewrite lookup_set_quantity.
    now replace (String.eqb other (sp_id product)) with false
      by (symmetry; now apply String.eqb_neq).
  - change (default 0 (pv_quantity <$> None)) with 0.
    rewrite decide_True by lia. simpl.
    rewrite lookup_snoc, Hl, String.eqb_refl. simpl. split.
    + repeat split; [lia |].
      intros other Ho. rewrite lookup_snoc.
      destruct (lookup other (sc_items self)); [reflexivity|].
      now replace (String.eqb (sp_id product) other) with false
        by (symmetry; apply String.eqb_neq; congruence).
    + intros Hnd. rewrite map_app. apply NoDup_app. split; [exact Hnd|].
      split; [|apply NoDup_singleton].
      intros key Hk Hk'. apply list_elem_of_singleton in Hk'. simpl in Hk'.
      subst key. now apply lookup_none_keys in Hl.
Qed.

Lemma delete_absent product_id items :
  product_id ∉ map fst items -> delete product_id items = items.
Proof.
  induction items as [|[key item] rest IH]; simpl; [reflexivity|].
  intros Hn. apply not_elem_of_cons in Hn as [Hne Hn].
  replace (String.eqb key product_id) with false
    by (symmetry; apply String.eqb_neq; congruence).
  now rewrite (IH Hn).
Qed.

Lemma lookup_delete_other product_id items other :
  other <> product_id ->
  lookup other (delete product_id items) = lookup other items.
Proof.
  intros Ho. induction items as [|[key item] rest IH]; simpl; [reflexivity|].
  destruct (String.eqb_spec key product_id) as [->|Hne]; simpl.
  - now replace (String.eqb product_id other) with false
      by (symmetry; apply String.eqb_neq; congruence).
  - now rewrite IH.
Qed.

Lemma lookup_delete_same product_id items :
  NoDup (map fst items) -> lookup product_id (delete product_id items) = None.
Proof.
  induction items as [|[key item] rest IH]; simpl; [reflexivity|].
  intros Hnd. apply NoDup_cons in Hnd as [Hfresh Hnd].
  destruct (String.eqb_spec key product_id) as [->|Hne]; simpl.
  - now apply lookup_none_keys.
  - replace (String.eqb key product_id) with false
      by (symmetry; now apply String.eqb_neq).
    now apply IH.
Qed.

Lemma keys_delete product_id items :
  NoDup (map fst items) -> NoDup (map fst (delete product_id items)).
Proof.
  induction items as [|[key item] rest IH]; simpl; [auto|].
  intros Hnd. apply NoDup_cons in Hnd as [Hfresh Hnd].
  destruct (String.eqb key product_id); simpl; [exact Hnd|].
  apply NoDup_cons. split; [|now apply IH].
  intros Hin. apply Hfresh.
  clear -Hin. induction rest as [|[k i] rest IH]; simpl in *;
    [exact Hin|].
  destruct (String.eqb k product_id); simpl in *.
  - now apply list_elem_of_further.
  - apply elem_of_cons in Hin as [->|Hin];
      [apply list_elem_of_here | apply list_elem_of_further; auto].
Qed.

(** X26. [update_quantity] answers false and changes nothing for a
    product id that the cart does not hold, and for a quantity above the
    stock recorded with the entry. A quantity of zero or less removes the
    entry. Any other quantity replaces the held one. Entries of other
    product ids are never touched. *)
Theorem update_quantity_sets_or_removes (product_id : string) (quantity : Z)
    (self : ShoppingCart) :
  keyed_once self ->
  let '(done, self') := update_quantity product_id quantity self in
  match lookup product_id (sc_items self) with
  | None => done = false /\ self' = self
  | Some item =>
      if decide (quantity <= 0) then
        done = true /\ lookup product_id (sc_items self') = None
      else if decide (quantity <= sp_stock (pv_product item)) then
        done = true
        /\ pv_quantity <$> lookup product_id (sc_items self') = Some quantity
      else done = false /\ self' = self
  end
  /\ keyed_once self'
  /\ forall other, other <> product_id ->
       lookup other (sc_items self') = lookup other (sc_items self).
Proof.
  unfold update_quantity, remove_product, keyed_once. intros Hnd.
  destruct (lookup product_id (sc_items self)) as [item|] eqn:Hl.
  - destruct (Z.leb_spec quantity 0) as [Hle|Hgt].
    + rewrite decide_True by lia. simpl. split; [|split].
      * split; [reflexivity | now apply lookup_delete_same].
      * now apply keys_delete.
      * intros other Ho. now apply lookup_delete_other.
    + destruct (Z.gtb_spec quantity (sp_stock (pv_product item))) as [Hs|Hs];
        simpl.
      * rewrite decide_False by lia. rewrite decide_False by lia.
        repeat split. exact Hnd.
      * rewrite decide_False by lia. rewrite decide_True by lia.
        rewrite lookup_set_quantity, String.eqb_refl, Hl, keys_set_quantity.
        repeat split; [exact Hnd|].
        intros other Ho. rewrite lookup_set_quantity.
        now replace (String.eqb other product_id) with false
          by (symmetry; now apply String.eqb_neq).
  - repeat split. exact Hnd.
Qed.

Lemma update_quantity_sets_or_removes_witness :
  let cart :=
    snd (add_product (scan_product "pepsi" 14 4) 2 "t0" (init (7 # 100) "t0")) in
  let '(done, cart') := update_quantity "pepsi" 0 cart in
  done = true /\ lookup "pepsi" (sc_items cart') = None.
Proof.
  intros cart.
  pose proof (update_quantity_sets_or_removes "pepsi" 0 cart) as H.
  destruct (update_quantity "pepsi" 0 cart) as [done cart'].
  destruct H as [H _].
  - unfold keyed_once. simpl. apply NoDup_singleton.
  - exact H.
Defined.

(** X27. A new product that is added and then removed leaves the preview
    cart exactly as it was. *)
Theorem add_then_remove_product_restores (product : ScanProduct)
    (quantity : Z) (now : string) (self : ShoppingCart) :
  lookup (sp_id product) (sc_items self) = None ->
  quantity <= sp_stock product ->
  exists self1,
    add_product product quantity now self = (true, self1)
    /\ held (sp_id product) self1 = quantity
    /\ remove_product (sp_id product) self1 = (true, self).
Proof.
  intros Hl Hq. unfold add_product, remove_product, held.
  replace (quantity >? sp_stock product) with false
    by (symmetry; rewrite Z.gtb_ltb; apply Z.ltb_ge; lia).
  rewrite Hl. eexists. split; [reflexivity|]. simpl.
  rewrite lookup_snoc, Hl, String.eqb_refl. simpl. split; [reflexivity|].
  f_equal. unfold with_items. simpl.
  assert (Hdel : forall items,
            lookup (sp_id product) items = None ->
            forall item, delete (sp_id product)
                           (items ++ [(sp_id product, item)]) = items).
  { intros items. induction items as [|[key found] rest IH]; simpl.
    - intros _ item. now rewrite String.eqb_refl.
    - destruct (String.eqb key (sp_id product)); [discriminate|].
      intros H item. now rewrite IH. }
  rewrite (Hdel _ Hl). now destruct self.
Qed.

Lemma add_then_remove_product_restores_witness :
  exists cart1,
    add_product (scan_product "pepsi" 14 4) 2 "t0" (init (7 # 100) "t0")
    = (true, cart1)
    /\ held "pepsi" cart1 = 2
    /\ remove_product "pepsi" cart1 = (true, init (7 # 100) "t0").
Proof.
  apply (add_then_remove_product_restores (scan_product "pepsi" 14 4) 2 "t0"
           (init (7 # 100) "t0")).
  - reflexivity.
  - simpl. lia.
Defined.

Lemma fold_add_shift (quantities : list Z) (start : Z) :
  fold_left Z.add quantities start = start + fold_left Z.add quantities 0.
Proof.
  revert start. induction quantities as [|x rest IH]; intros start; simpl.
  - lia.
  - rewrite (IH (start + x)), (IH (0 + x)). lia.
Qed.

Lemma item_count_cons key item items self :
  item_count (with_items self ((key, item) :: items))
  = pv_quantity item + item_count (with_items self items).
Proof. unfold item_count. simpl. apply fold_add_shift. Qed.

Lemma item_count_set_quantity product_id quantity items item self :
  lookup product_id items = Some item ->
  item_count (with_items self (set_quantity product_id quantity items))
  = item_count (with_items self items) + (quantity - pv_quantity item).
Proof.
  induction items as [|[key found] rest IH]; simpl; [discriminate|].
  destruct (String.eqb key product_id).
  - intros [= ->]. rewrite !item_count_cons. simpl. lia.
  - intros Hl. rewrite !item_count_cons, (IH Hl). lia.
Qed.

Lemma item_count_snoc product_id item items self :
  item_count (with_items self (items ++ [(product_id, item)]))
  = item_count (with_items self items) + pv_quantity item.
Proof.
  induction items as [|[key found] rest IH]; simpl.
  - rewrite item_count_cons. unfold item_count. simpl. lia.
  - rewrite !item_count_cons, IH. lia.
Qed.

Lemma length_set_quantity product_id quantity items :
  length (set_quantity product_id quantity items) = length items.
Proof.
  induction items as [|[key found] rest IH]; simpl; [reflexivity|].
  destruct (String.eqb key product_id); simpl; [reflexivity | now rewrite IH].
Qed.

Lemma with_items_same self : with_items self (sc_items self) = self.
Proof. now destruct self. Qed.

(** X28. A successful [add_product] raises the item count by exactly the
    quantity added, whether the product was held before or not; the
    number of entries grows by one for a product that was not held and
    stays for one that was; the tax rate is left alone. An [add_product]
    that fails changes neither count. *)
Theorem add_product_counts_the_units (product : ScanProduct) (quantity : Z)
    (now : string) (self : ShoppingCart) :
  let '(done, self') := add_product product quantity now self in
  item_count self' = item_count self + (if done then quantity else 0)
  /\ len self'
     = (if done && negb (bool_decide
                          (is_Some (lookup (sp_id product) (sc_items self))))
        then S (len self) else len self)
  /\ sc_tax_rate self' = sc_tax_rate self.
Proof.
  unfold add_product, len.
  destruct (quantity >? sp_stock product);
    [split; [lia | split; reflexivity]|].
  destruct (lookup (sp_id product) (sc_items self)) as [item|] eqn:Hl.
  - destruct (pv_quantity item + quantity >? sp_stock product);
      [split; [lia | split; reflexivity]|].
    pose proof (item_count_set_quantity (sp_id product)
                  (pv_quantity item + quantity) _ item self Hl) as Hc.
    rewrite with_items_same in Hc. split; [rewrite Hc; lia|].
    split; [|reflexivity].
    rewrite bool_decide_eq_true_2 by (now eexists). simpl.
    apply length_set_quantity.
  - pose proof (item_count_snoc (sp_id product)
                  {| pv_product := product; pv_quantity := quantity;
                     pv_added_at := now |} (sc_items self) self) as Hc.
    rewrite with_items_same in Hc. split; [exact Hc|].
    split; [|reflexivity].
    rewrite bool_decide_eq_false_2 by (intros [? ?]; discriminate). simpl.
    rewrite length_app. simpl. lia.
Qed.

End PreviewFacts.

(** ** The scanner's list of detected products *)

Section ScannerFacts.

Import ScannerWidget.

Lemma listed_spec (product : ScanProduct) (detected : list ScanProduct) :
  existsb (fun existing => String.eqb (sp_id existing) (sp_id product))
    detected = true
  <-> sp_id product ∈ map sp_id detected.
Proof.
  rewrite existsb_exists. split.
  - intros (existing & Hin & Heq). apply String.eqb_eq in Heq.
    rewrite <- Heq. apply list_elem_of_fmap. exists existing.
    split; [reflexivity | now apply list_elem_of_In].
  - intros Hin. apply list_elem_of_fmap in Hin as (existing & Heq & Hin).
    exists existing. split; [now apply list_elem_of_In|].
    now apply String.eqb_eq.
Qed.

Lemma scan_step_no_repeats (detected : list ScanProduct) (event : ScanEvent) :
  NoDup (map sp_id detected) -> NoDup (map sp_id (scan_step detected event)).
Proof.
  intros Hnd. destruct event as [product|index|]; simpl.
  - unfold add_detected_product.
    destruct (existsb _ detected) eqn:Hex; [exact Hnd|].
    rewrite map_app. apply NoDup_app. split; [exact Hnd|].
    split; [|apply NoDup_singleton].
    intros id Hin Hone. apply list_elem_of_singleton in Hone. simpl in Hone.
    subst id. apply listed_spec in Hin. congruence.
  - unfold on_delete_item. destruct (_ && _); [|exact Hnd].
    eapply sublist_NoDup; [exact Hnd|].
    apply fmap_sublist, sublist_delete.
  - apply NoDup_nil_2.
Qed.

(** X29. Whatever is detected, deleted or cleared, the scanner's list
    never holds two products with the same id. A product whose id is
    already listed is ignored, even when its other fields differ from the
    listed one; a product with a new id goes to the end of the list.
    Deleting at an index inside the list removes exactly the entry at
    that index; an index outside the list changes nothing. *)
Theorem detected_list_has_no_repeats (events : list ScanEvent) :
  let detected := scan_run events in
  NoDup (map sp_id detected)
  /\ (forall product,
        add_detected_product product detected
        = if decide (sp_id product ∈ map sp_id detected) then detected
          else detected ++ [product])
  /\ (forall index,
        on_delete_item index detected
        = if decide (0 <= index < Z.of_nat (length detected)) then
            take (Z.to_nat index) detected
            ++ drop (S (Z.to_nat index)) detected
          else detected).
Proof.
  intros detected. split; [|split].
  - unfold detected, scan_run.
    assert (Hfrom : forall start,
              NoDup (map sp_id start) ->
              NoDup (map sp_id (fold_left scan_step events start))).
    { induction events as [|event rest IH]; intros start Hnd; simpl;
        [exact Hnd|].
      apply IH. now apply scan_step_no_repeats. }
    apply Hfrom. apply NoDup_nil_2.
  - intros product. unfold add_detected_product.
    destruct (existsb _ detected) eqn:Hex.
    + rewrite decide_True; [reflexivity | now apply listed_spec].
    + rewrite decide_False; [reflexivity|].
      intros Hin. apply listed_spec in Hin. congruence.
  - intros index. unfold on_delete_item.
    destruct (Z.leb_spec 0 index) as [Hlo|Hlo]; simpl.
    + destruct (Z.ltb_spec index (Z.of_nat (length detected))) as [Hhi|Hhi].
      * rewrite decide_True by lia.
        generalize (Z.to_nat index). clear. intros i. revert i.
        induction detected as [|x rest IH]; intros [|i]; simpl;
          try reflexivity.
        now rewrite IH.
      * now rewrite decide_False by lia.
    + now rewrite decide_False by lia.
Qed.

End ScannerFacts.

(** ** A batch and the same items sent one by one *)

Section BatchFacts.

Variable session_id : option string.

Import CartManager.

Lemma looked_at_twice w :
  CartManager.get_cart session_id (looked_at session_id w)
  = (fst (CartManager.get_cart session_id w), looked_at session_id w).
Proof.
  unfold looked_at.
  destruct (w_carts w !! CartManager.session_key session_id) as [cart|] eqn:Hc.
  - rewrite (get_cart_existing _ _ _ Hc). simpl.
    now apply get_cart_existing.
  - rewrite (get_cart_fresh _ _ Hc). simpl.
    apply get_cart_existing. simpl. apply lookup_insert_eq.
Qed.

Lemma looked_at_data w : w_data (looked_at session_id w) = w_data w.
Proof.
  unfold looked_at.
  destruct (w_carts w !! CartManager.session_key session_id) as [cart|] eqn:Hc.
  - now rewrite (get_cart_existing _ _ _ Hc).
  - now rewrite (get_cart_fresh _ _ Hc).
Qed.

Lemma looked_at_lines w : lines_of (looked_at session_id w) session_id = lines_of w session_id.
Proof.
  unfold looked_at, lines_of.
  destruct (w_carts w !! CartManager.session_key session_id) as [cart|] eqn:Hc.
  - rewrite (get_cart_existing _ _ _ Hc). simpl. now rewrite Hc.
  - rewrite (get_cart_fresh _ _ Hc). simpl. now rewrite lookup_insert_eq.
Qed.

Lemma get_summary_world w : snd (get_summary session_id w) = looked_at session_id w.
Proof.
  unfold get_summary, bind, ret, looked_at.
  now destruct (CartManager.get_cart session_id w).
Qed.

Lemma add_item_after_look product w :
  add_item product session_id (looked_at session_id w) = add_item product session_id w.
Proof.
  unfold add_item. unfold bind at 1. rewrite looked_at_twice.
  unfold bind at 5. unfold looked_at.
  now destruct (CartManager.get_cart session_id w).
Qed.

Lemma add_items_after_look n product w1 w2 :
  looked_at session_id w1 = looked_at session_id w2 ->
  looked_at session_id (snd (Api.add_items n product session_id w1))
  = looked_at session_id (snd (Api.add_items n product session_id w2)).
Proof.
  intros Hsame. destruct n as [|n]; simpl; [exact Hsame|].
  unfold bind at 1 3.
  rewrite <- (add_item_after_look product w1),
    <- (add_item_after_look product w2), Hsame.
  reflexivity.
Qed.

Lemma add_to_cart_world item w :
  snd (Api.add_to_cart (single_request session_id item) w)
  = match Api.get_product_flexible (w_data w) (bi_product_id item) with
    | Some product =>
        if p_stock product <? default 1 (bi_quantity item) then w
        else
          looked_at session_id
            (snd (Api.add_items (Py.range_len (default 1 (bi_quantity item)))
                    product session_id w))
    | None => w
    end.
Proof.
  unfold Api.add_to_cart. unfold bind at 1. unfold read_db. simpl.
  destruct (Api.get_product_flexible (w_data w) (bi_product_id item))
    as [product|]; [|reflexivity].
  destruct (p_stock product <? default 1 (bi_quantity item)); [reflexivity|].
  unfold bind, ret.
  destruct (Api.add_items _ product session_id w) as [added w1]. simpl.
  rewrite <- get_summary_world.
  now destruct (get_summary session_id w1).
Qed.

Lemma add_each_world item rest w :
  snd (add_each (item :: rest) session_id w)
  = snd (add_each rest session_id
           (snd (Api.add_to_cart (single_request session_id item) w))).
Proof.
  simpl. unfold bind, ret.
  destruct (Api.add_to_cart (single_request session_id item) w)
    as [response w1]. simpl.
  now destruct (add_each rest session_id w1).
Qed.

Lemma batch_loop_world item rest results errors w :
  Api.batch_loop (item :: rest) session_id results errors w
  = match Api.get_product_flexible (w_data w) (bi_product_id item) with
    | Some product =>
        if p_stock product <? default 1 (bi_quantity item) then
          Api.batch_loop rest session_id results
            (errors ++ ["Insufficient stock for " +:+ p_name product]) w
        else
          let '(added, w1) :=
            Api.add_items (Py.range_len (default 1 (bi_quantity item)))
              product session_id w in
          Api.batch_loop rest session_id (results ++ added) errors w1
    | None =>
        Api.batch_loop rest session_id results
          (errors ++ ["Product " +:+ bi_product_id item +:+ " not found"]) w
    end.
Proof.
  simpl. unfold bind at 1. unfold read_db. simpl.
  destruct (Api.get_product_flexible (w_data w) (bi_product_id item))
    as [product|]; [|reflexivity].
  now destruct (p_stock product <? default 1 (bi_quantity item)).
Qed.

Lemma batch_loop_after_look items : forall results errors w1 w2,
  looked_at session_id w1 = looked_at session_id w2 ->
  looked_at session_id
    (snd (Api.batch_loop items session_id results errors w1))
  = looked_at session_id (snd (add_each items session_id w2)).
Proof.
  induction items as [|item rest IH]; intros results errors w1 w2 Hsame;
    [exact Hsame|].
  assert (Hdata : w_data w1 = w_data w2).
  { rewrite <- (looked_at_data w1), <- (looked_at_data w2). now f_equal. }
  rewrite add_each_world, add_to_cart_world, batch_loop_world, Hdata.
  destruct (Api.get_product_flexible (w_data w2) (bi_product_id item))
    as [product|]; [|now apply IH].
  destruct (p_stock product <? default 1 (bi_quantity item));
    [now apply IH|].
  pose proof (add_items_after_look
    (Py.range_len (default 1 (bi_quantity item))) product w1 w2 Hsame)
    as Hadded.
  destruct (Api.add_items _ product session_id w1) as [added1 x1].
  destruct (Api.add_items _ product session_id w2) as [added2 x2].
  simpl in Hadded |- *. apply IH. rewrite Hadded.
  unfold looked_at at 2. now rewrite looked_at_twice.
Qed.

End BatchFacts.

(** X30. A batch leaves the service in the state that the same items,
    sent one by one to [add_to_cart] on the same session, leave once the
    cart has been read: the same store, and the same cart lines with the
    same ids and time stamps. Reading the cart matters only when no item
    was accepted and the session had no cart yet, since the batch then
    creates the empty cart and the single requests do not. *)
Theorem batch_is_the_items_one_by_one (batch_data : BatchRequest) (w : World) :
  let session_id := breq_session_id batch_data in
  let batched := snd (Api.add_batch_to_cart batch_data w) in
  let singly := snd (add_each (breq_items batch_data) session_id w) in
  batched = snd (Api.get_cart session_id singly)
  /\ lines_of batched session_id = lines_of singly session_id
  /\ w_data batched = w_data singly.
Proof.
  intros session_id batched singly.
  assert (Hbatched :
            batched = looked_at session_id singly).
  { unfold batched, singly, Api.add_batch_to_cart. unfold bind at 1.
    pose proof (batch_loop_after_look session_id (breq_items batch_data)
                  [] [] w w eq_refl) as Hloop.
    fold session_id in Hloop |- *.
    destruct (Api.batch_loop (breq_items batch_data) session_id [] [] w)
      as [[results errors] w1].
    simpl in Hloop. unfold bind, ret.
    pose proof (get_summary_world session_id w1) as Hlook.
    destruct (CartManager.get_summary session_id w1) as [summary w2]. simpl in *.
    congruence. }
  split; [|split].
  - unfold Api.get_cart. now rewrite get_summary_world.
  - rewrite Hbatched. apply looked_at_lines.
  - rewrite Hbatched. apply looked_at_data.
Qed.
